(** * ffmpeg Dify plugin: the two tools, embedded and checked

    Sources: [tools/extract_audio.py] (ExtractAudioTool) and
    [tools/video_info.py] (VideoInfoTool).

    Both tools are Python generators running a linear pipeline: resolve the
    video reference, fetch it over HTTP, write it to a temporary file, run an
    external binary, yield messages, delete the temporary files.  The
    embedding keeps that shape: Python values are a small dynamically typed
    universe, exceptions are values, and the outside (HTTP, the process
    environment, the file system, ffmpeg, ffprobe, the interpreter's
    number parsing and its Unicode tables) is a record of oracles, so that
    every statement quantifies over what the outside may answer. *)

From stdpp Require Import gmap strings list fin_maps pretty.
From Stdlib Require Import Ascii String ZArith QArith SpecFloat.

Open Scope string_scope.
Set Warnings "-register-all,-clear-no-such-hyp".

(** ** Python strings

    A [str] is modelled by the bytes of its UTF-8 encoding.  Prefix tests,
    the search for ["?"], ["/"] and ["."], slicing at the positions found and
    concatenation agree with Python on that encoding. *)

Definition dquote : string := String (ascii_of_N 34) EmptyString.

Definition startswith (s prefix : string) : bool := String.prefix prefix s.

(** [s.startswith((p1, p2, ...))] *)
Definition startswith_any (s : string) (prefixes : list string) : bool :=
  existsb (startswith s) prefixes.

Definition lower_ascii (c : ascii) : ascii :=
  let n := N_of_ascii c in
  if ((65 <=? n) && (n <=? 90))%N then ascii_of_N (n + 32) else c.

(** [s.lower()] on a [str] of ASCII characters: the letters A-Z are
    folded, nothing else changes. *)
Fixpoint ascii_lower (s : string) : string :=
  match s with
  | EmptyString => EmptyString
  | String c r => String (lower_ascii c) (ascii_lower r)
  end.

Fixpoint is_ascii (s : string) : bool :=
  match s with
  | EmptyString => true
  | String c r => (N_of_ascii c <? 128)%N && is_ascii r
  end.

(** The white space of [str.strip()]: the code points for which
    [str.isspace()] holds (U+0009 to U+000D, U+001C to U+0020, U+0085,
    U+00A0, U+1680, U+2000 to U+200A, U+2028, U+2029, U+202F, U+205F,
    U+3000), each in UTF-8. *)
Definition of_codes (codes : list N) : string :=
  string_of_list_ascii (ascii_of_N <$> codes).

Definition whitespace : list string :=
  of_codes <$>
    [ [9]; [10]; [11]; [12]; [13]; [28]; [29]; [30]; [31]; [32];
      [194; 133]; [194; 160]; [225; 154; 128];
      [226; 128; 128]; [226; 128; 129]; [226; 128; 130]; [226; 128; 131];
      [226; 128; 132]; [226; 128; 133]; [226; 128; 134]; [226; 128; 135];
      [226; 128; 136]; [226; 128; 137]; [226; 128; 138];
      [226; 128; 168]; [226; 128; 169]; [226; 128; 175];
      [226; 129; 159]; [227; 128; 128] ]%N.

Definition without_prefix (p s : string) : option string :=
  if String.prefix p s
  then Some (String.substring (String.length p) (String.length s - String.length p) s)
  else None.

(** Drop leading occurrences of the strings of [spaces], as long as there
    is one. *)
Fixpoint drop_leading (spaces : list string) (fuel : nat) (s : string) : string :=
  match fuel with
  | O => s
  | S fuel =>
      match head (omap (λ p, without_prefix p s) spaces) with
      | Some rest => drop_leading spaces fuel rest
      | None => s
      end
  end.

(** [s.lstrip()], [s.rstrip()] and [s.strip()] *)
Definition lstrip (s : string) : string := drop_leading whitespace (String.length s) s.
Definition rstrip (s : string) : string :=
  String.rev (drop_leading (String.rev <$> whitespace) (String.length s) (String.rev s)).
Definition strip (s : string) : string := rstrip (lstrip s).

(** [s.split(sep)[0]] for a one-character separator. *)
Fixpoint split_head (sep : ascii) (s : string) : string :=
  match s with
  | EmptyString => EmptyString
  | String c r => if Ascii.eqb c sep then EmptyString else String c (split_head sep r)
  end.

Fixpoint rfind_from (c : ascii) (s : string) (i last : Z) : Z :=
  match s with
  | EmptyString => last
  | String a r => rfind_from c r (i + 1) (if Ascii.eqb a c then i else last)
  end.

(** [s.rfind(c)]: the last index of [c], or -1. *)
Definition rfind (c : ascii) (s : string) : Z := rfind_from c s 0 (-1).

(** [s[i:]] and [s[:i]] for [0 <= i]. *)
Definition slice_from (i : Z) (s : string) : string :=
  String.substring (Z.to_nat i) (String.length s - Z.to_nat i) s.
Definition slice_to (i : Z) (s : string) : string :=
  String.substring 0 (Z.to_nat i) s.

Fixpoint all_dots (s : string) : bool :=
  match s with
  | EmptyString => true
  | String c r => Ascii.eqb c "." && all_dots r
  end.

(** [os.path.basename] of posixpath: [p[p.rfind('/') + 1:]]. *)
Definition basename (p : string) : string := slice_from (rfind "/" p + 1) p.

(** [os.path.splitext] of posixpath (genericpath._splitext): split at the
    last dot when it lies after the last slash and some character between
    the two is not a dot. *)
Definition splitext (p : string) : string * string :=
  let sepIndex := rfind "/" p in
  let dotIndex := rfind "." p in
  if (sepIndex <? dotIndex)%Z
     && negb (all_dots (String.substring (Z.to_nat (sepIndex + 1))
                          (Z.to_nat (dotIndex - (sepIndex + 1))) p))
  then (slice_to dotIndex p, slice_from dotIndex p)
  else (p, "").

(** ** Python values *)

(** A float is represented by the number it stands for; the rounding to
    binary64 is not modelled where a float is made, it is where the
    summary of Tool B computes with one (see [to_float]). *)
Inductive pyfloat :=
| FNum (q : Q)
| FInf (negative : bool)
| FNan.

Definition bytes := list Byte.byte.

(** Objects are plain records of data attributes named by their class. *)
Inductive pyval :=
| PNone
| PBool (b : bool)
| PInt (z : Z)
| PFloat (f : pyfloat)
| PStr (s : string)
| PList (l : list pyval)
| PDict (d : gmap string pyval)
| PObj (cls : string) (attrs : gmap string pyval).

Definition type_name (v : pyval) : string :=
  match v with
  | PNone => "NoneType"
  | PBool _ => "bool"
  | PInt _ => "int"
  | PFloat _ => "float"
  | PStr _ => "str"
  | PList _ => "list"
  | PDict _ => "dict"
  | PObj cls _ => cls
  end.

(** [bool(v)] *)
Definition truthy (v : pyval) : bool :=
  match v with
  | PNone => false
  | PBool b => b
  | PInt z => negb (z =? 0)%Z
  | PFloat (FNum q) => negb (Qeq_bool q 0)
  | PFloat _ => true
  | PStr s => negb (String.eqb s "")
  | PList l => match l with [] => false | _ => true end
  | PDict d => negb (bool_decide (d = ∅))
  | PObj _ _ => true
  end.

(** [v == s] for a string literal [s] *)
Definition eq_str (v : pyval) (s : string) : bool :=
  match v with
  | PStr t => String.eqb t s
  | _ => false
  end.

(** ** Exceptions *)

Inductive exn_class :=
| ValueError | AttributeError | TypeError | RuntimeError | OverflowError
| OtherException (name : string).

(** [exn_text] is [str(e)]. *)
Record exn := Exn { exn_cls : exn_class; exn_text : string }.

Inductive res (A : Type) :=
| Ok (a : A)
| Raise (e : exn).
Arguments Ok {A} a.
Arguments Raise {A} e.

Definition is_Ok {A} (r : res A) : Prop := ∃ a, r = Ok a.

Definition is_attribute_error (e : exn) : bool :=
  match exn_cls e with AttributeError => true | _ => false end.

Definition no_attribute (v : pyval) (name : string) : exn :=
  Exn AttributeError
      ("'" +:+ type_name v +:+ "' object has no attribute '" +:+ name +:+ "'").

Definition not_callable (v : pyval) : exn :=
  Exn TypeError ("'" +:+ type_name v +:+ "' object is not callable").

(** [getattr(obj, name)] *)
Definition py_getattr (obj : pyval) (name : string) : res pyval :=
  match obj with
  | PObj _ attrs =>
      match attrs !! name with
      | Some v => Ok v
      | None => Raise (no_attribute obj name)
      end
  | _ => Raise (no_attribute obj name)
  end.

(** [getattr(obj, name, default)]: an AttributeError becomes the default. *)
Definition py_getattr_default (obj : pyval) (name : string) (dflt : pyval) : res pyval :=
  match py_getattr obj name with
  | Ok v => Ok v
  | Raise e => if is_attribute_error e then Ok dflt else Raise e
  end.

(** The exception of [v.name(...)] when [v] has no method [name]: an object
    holding a data attribute of that name is asked to call it. *)
Definition no_method (v : pyval) (name : string) : exn :=
  match py_getattr v name with
  | Ok a => not_callable a
  | Raise e => e
  end.

(** [v.get(key, default)] *)
Definition dict_get (v : pyval) (key : string) (dflt : pyval) : res pyval :=
  match v with
  | PDict d => Ok (default dflt (d !! key))
  | _ => Raise (no_method v "get")
  end.

(** tools/extract_audio.py:12-16 and tools/video_info.py:12-16 (the same
    function in both files). *)
Definition get_field (obj : pyval) (field : string) (dflt : pyval) : res pyval :=
  match obj with
  | PDict d => Ok (default dflt (d !! field))
  | _ => py_getattr_default obj field dflt
  end.

(** The five fields both tools read from the video reference, each with
    its default: tools/extract_audio.py:23-27, tools/video_info.py:30-34. *)
Record video_reference := {
  transfer_method : pyval;
  filename : pyval;
  extension : pyval;
  url : pyval;
  mime_type : pyval
}.

(** ** Messages yielded to the host *)

Inductive message :=
| TextMessage (text : string)
| JsonMessage (json : gmap string pyval)
| BlobMessage (blob : bytes) (meta : gmap string pyval).

(** ** The outside world *)

Inductive http_reply :=
| Response (status_code : Z) (content : bytes)
| RequestFails (e : exn).

Inductive ffmpeg_outcome :=
| FfmpegDone (audio : bytes)
| FfmpegFails (e : exn) (partial : option bytes).

Record completed_process :=
  { returncode : Z; stdout : string; stderr : string }.

Record world := {
  (** [os.environ] *)
  environ : gmap string string;
  (** [requests.get(url)] *)
  requests_get : string → http_reply;
  (** [tempfile.NamedTemporaryFile(delete=False, suffix=...)]: the name of
      the file created, or the error raised when none could be. *)
  named_temporary_file : string → res string;
  (** [temp_file.write(data)]: the fault, if the write hits one. *)
  write_fault : bytes → option exn;
  (** [tempfile.gettempdir()] and [int(time.time())] *)
  gettempdir : string;
  time_now : Z;
  (** [ffmpeg.input(i).output(o, acodec=c).run(...)] *)
  ffmpeg_run : string → string → string → ffmpeg_outcome;
  (** [subprocess.run(['ffprobe', ..., path], ...)] *)
  ffprobe_run : string → res completed_process;
  (** [json.loads] *)
  json_loads : string → res pyval;
  (** [float(s)] and [int(s)] on a [str] *)
  float_of_str : string → res pyfloat;
  int_of_str : string → res Z;
  (** [str(v)] for floats, containers and objects *)
  repr_of : pyval → string;
  (** [f"{n / (1024 * 1024):.2f}"] for the size of a file *)
  format_mb : Z → string;
  (** [s.lower()] on a [str] that has a character outside ASCII: the
      case mapping of the interpreter's Unicode tables *)
  unicode_lower : string → string
}.

(** [s.lower()] *)
Definition lower (w : world) (s : string) : string :=
  if is_ascii s then ascii_lower s else unicode_lower w s.

(** [str(v)], as an f-string renders [{v}]. *)
Definition py_str (w : world) (v : pyval) : string :=
  match v with
  | PNone => "None"
  | PBool true => "True"
  | PBool false => "False"
  | PInt z => pretty z
  | PStr s => s
  | _ => repr_of w v
  end.

(** ** The state of one invocation and its monad *)

Record state := {
  (** messages yielded so far, oldest first *)
  emitted : list message;
  (** temporary files made by this invocation that exist now *)
  files : gmap string bytes;
  (** every temporary file this invocation has made *)
  created : list string;
  (** every URL this invocation has sent a GET to *)
  fetched : list string;
  (** the local variable [temp_file_path] of VideoInfoTool._invoke, which
      is assigned inside a [try] and read in its [finally] *)
  temp_file_path : option string
}.

Definition initial : state :=
  {| emitted := []; files := ∅; created := []; fetched := []; temp_file_path := None |}.

Definition M (A : Type) : Type := state → res A * state.

#[global] Instance M_ret : MRet M := λ A a st, (Ok a, st).
#[global] Instance M_bind : MBind M := λ A B f m st,
  match m st with
  | (Ok a, st') => f a st'
  | (Raise e, st') => (Raise e, st')
  end.

Definition raise {A} (e : exn) : M A := λ st, (Raise e, st).

Definition lift {A} (r : res A) : M A := λ st, (r, st).

(** [try: body / except Exception as e: handler e] *)
Definition try_except {A} (body : M A) (handler : exn → M A) : M A := λ st,
  match body st with
  | (Ok a, st') => (Ok a, st')
  | (Raise e, st') => handler e st'
  end.

(** [try: body / finally: final] *)
Definition try_finally {A} (body : M A) (final : M unit) : M A := λ st,
  match body st with
  | (r, st') =>
      match final st' with
      | (Ok _, st'') => (r, st'')
      | (Raise e, st'') => (Raise e, st'')
      end
  end.

Definition yield (m : message) : M unit := λ st,
  (Ok (), {| emitted := emitted st ++ [m]; files := files st; created := created st;
             fetched := fetched st; temp_file_path := temp_file_path st |}).

(** [requests.get(url)], logged. *)
Definition http_get (w : world) (url : string) : M (Z * bytes) := λ st,
  let st' := {| emitted := emitted st; files := files st; created := created st;
                fetched := fetched st ++ [url]; temp_file_path := temp_file_path st |} in
  match requests_get w url with
  | Response code body => (Ok (code, body), st')
  | RequestFails e => (Raise e, st')
  end.

Definition set_files (f : gmap string bytes → gmap string bytes) : M unit := λ st,
  (Ok (), {| emitted := emitted st; files := f (files st); created := created st;
             fetched := fetched st; temp_file_path := temp_file_path st |}).

Definition log_created (path : string) : M unit := λ st,
  (Ok (), {| emitted := emitted st; files := files st; created := created st ++ [path];
             fetched := fetched st; temp_file_path := temp_file_path st |}).

Definition set_temp_file_path (p : option string) : M unit := λ st,
  (Ok (), {| emitted := emitted st; files := files st; created := created st;
             fetched := fetched st; temp_file_path := p |}).

Definition get_temp_file_path : M (option string) := λ st, (Ok (temp_file_path st), st).

(** [os.path.exists(path)] *)
Definition path_exists (path : string) : M bool := λ st,
  (Ok (bool_decide (is_Some (files st !! path))), st).

(** [os.unlink(path)] on a file that exists *)
Definition unlink (path : string) : M unit := set_files (delete path).

(** [open(path, 'rb').read()] *)
Definition read_file (path : string) : M bytes := λ st,
  match files st !! path with
  | Some b => (Ok b, st)
  | None => (Raise (Exn (OtherException "FileNotFoundError")
                        ("[Errno 2] No such file or directory: '" +:+ path +:+ "'")), st)
  end.

(** [if b: m] *)
Definition when_ (b : bool) (m : M unit) : M unit := if b then m else mret ().

(** [os.path.getsize(path)] *)
Definition getsize (path : string) : M Z :=
  data ← read_file path; mret (Z.of_nat (List.length data)).

(** [with tempfile.NamedTemporaryFile(delete=False, suffix=suffix) as f:
        f.write(data)], giving [f.name].
    The suffix is joined to the generated name before the file is opened:
    [None] stands for the empty suffix, anything else that is not a [str]
    is a TypeError and no file is made.  Once made the file stays, whatever
    the write does. *)
Definition write_temp_file (w : world) (suffix : pyval) (data : bytes) : M string :=
  suffix ← match suffix with
           | PStr s => mret s
           | PNone => mret ""
           | v => raise (Exn TypeError
                    ("can only concatenate str (not " +:+ dquote +:+ type_name v
                       +:+ dquote +:+ ") to str"))
           end;
  path ← lift (named_temporary_file w suffix);
  set_files (<[path := []]>);;
  log_created path;;
  match write_fault w data with
  | Some e => raise e
  | None => set_files (<[path := data]>);; mret path
  end.

(** [os.path.join(a, b)] of posixpath *)
Definition path_join (a b : string) : string :=
  if startswith b "/" then b
  else if String.eqb a "" || startswith (String.rev a) "/" then a +:+ b
  else a +:+ "/" +:+ b.

(** What the caller of the generator observes: the messages it was handed,
    the exception that reached it (if any), the temporary files of this
    invocation still on disk, all those it made, and the GETs it sent. *)
Record outcome := {
  messages : list message;
  raised : option exn;
  remaining : gmap string bytes;
  made : list string;
  requests : list string
}.

Definition run (m : M unit) : outcome :=
  match m initial with
  | (r, st) =>
      {| messages := emitted st;
         raised := match r with Ok _ => None | Raise e => Some e end;
         remaining := files st;
         made := created st;
         requests := fetched st |}
  end.

#[global] Instance res_ret : MRet res := λ A a, Ok a.
#[global] Instance res_bind : MBind res := λ A B f r,
  match r with
  | Ok a => f a
  | Raise e => Raise e
  end.

Definition newline : string := String (ascii_of_N 10) EmptyString.

(** [v.name(...)] for a method of [str]: the receiver, when it is one. *)
Definition as_str (v : pyval) (name : string) : res string :=
  match v with
  | PStr s => Ok s
  | _ => Raise (no_method v name)
  end.

(** [if not url or not url.startswith(prefixes): raise bad]; what is left
    is a [str]. *)
Definition require_prefix (url : pyval) (prefixes : list string) (bad : exn) : res string :=
  if negb (truthy url) then Raise bad
  else s ← as_str url "startswith";
       if negb (startswith_any s prefixes) then Raise bad else Ok s.

(** [float(v)] *)
Definition py_float (w : world) (v : pyval) : res pyfloat :=
  match v with
  | PInt z =>
      if (Z.abs z <? 2 ^ 1024 - 2 ^ 970)%Z then Ok (FNum (inject_Z z))
      else Raise (Exn OverflowError "int too large to convert to float")
  | PBool b => Ok (FNum (if b then 1 else 0))
  | PFloat f => Ok f
  | PStr s => float_of_str w s
  | _ => Raise (Exn TypeError
           ("float() argument must be a string or a real number, not '"
              +:+ type_name v +:+ "'"))
  end.

(** [int(v)] *)
Definition py_int (w : world) (v : pyval) : res Z :=
  match v with
  | PInt z => Ok z
  | PBool b => Ok (if b then 1 else 0)%Z
  | PFloat (FNum q) => Ok (Z.quot (Qnum q) (Z.pos (Qden q)))
  | PFloat (FInf _) => Raise (Exn OverflowError "cannot convert float infinity to integer")
  | PFloat FNan => Raise (Exn ValueError "cannot convert float NaN to integer")
  | PStr s => int_of_str w s
  | _ => Raise (Exn TypeError
           ("int() argument must be a string, a bytes-like object or a real number, not '"
              +:+ type_name v +:+ "'"))
  end.

(** ** Arithmetic on floats

    Where the code computes with a float it does so in binary64; the
    operations below are those of the interpreter, on
    [SpecFloat.spec_float] with 53 bits of precision. *)

Definition prec : Z := 53.
Definition emax : Z := 1024.

(** The float nearest to [a / b], ties to even, or an infinity when that
    is out of range: [float(a)] for [b = 1], and [a / b] on two [int]. *)
Definition nearest_float (a : Z) (b : positive) : spec_float :=
  match a with
  | Z0 => S754_zero false
  | _ =>
      let '(m, e, l) := SFdiv_core_binary prec emax (Z.abs a) 0 (Z.pos b) 0 in
      binary_round_aux prec emax (a <? 0)%Z m e l
  end.

Definition to_float (f : pyfloat) : spec_float :=
  match f with
  | FNum q => nearest_float (Qnum q) (Qden q)
  | FInf negative => S754_infinity negative
  | FNan => S754_nan
  end.

Definition float_of_Z (z : Z) : spec_float := binary_normalize prec emax z 0 false.

Definition is_zero (x : spec_float) : bool :=
  match x with S754_zero _ => true | _ => false end.

(** [x < 0] *)
Definition is_negative (x : spec_float) : bool :=
  match x with
  | S754_finite true _ _ | S754_infinity true => true
  | _ => false
  end.

(** The sign that [copysign] reads. *)
Definition sign_bit (x : spec_float) : bool :=
  match x with
  | S754_zero s | S754_infinity s | S754_finite s _ _ => s
  | S754_nan => false
  end.

(** C's [fmod(x, d)] for an integer [0 < d]: exact, with the sign of [x]. *)
Definition fmod (x : spec_float) (d : Z) : spec_float :=
  match x with
  | S754_zero s => S754_zero s
  | S754_infinity _ | S754_nan => S754_nan
  | S754_finite s m e =>
      if (0 <=? e)%Z then
        binary_normalize prec emax (cond_Zopp s ((Z.pos m * 2 ^ e) mod d)) 0 s
      else
        binary_normalize prec emax (cond_Zopp s (Z.pos m mod (d * 2 ^ (- e)))) e s
  end.

(** C's [floor(x)] *)
Definition floor (x : spec_float) : spec_float :=
  match x with
  | S754_finite s m e =>
      if (0 <=? e)%Z then x
      else
        let whole := (Z.pos m / 2 ^ (- e))%Z in
        let exact := (Z.pos m mod 2 ^ (- e) =? 0)%Z in
        binary_normalize prec emax
          (if s then - (if exact then whole else whole + 1) else whole)%Z 0 s
  | _ => x
  end.

(** [x // d] and [x % d] on a float [x] and an integer [0 < d], as
    float_floor_div and float_rem of CPython compute them: the remainder
    of [fmod] moved to the sign of [d], the quotient [(x - mod) / d]
    snapped to the nearest whole number. *)
Definition float_floordiv (x : spec_float) (d : Z) : spec_float :=
  let wx := float_of_Z d in
  let mod_ := fmod x d in
  let div := SFdiv prec emax (SFsub prec emax x mod_) wx in
  let div := if negb (is_zero mod_) && is_negative mod_
             then SFsub prec emax div (float_of_Z 1) else div in
  if negb (is_zero div) then
    let floordiv := floor div in
    if SFltb (nearest_float 1 2) (SFsub prec emax div floordiv)
    then SFadd prec emax floordiv (float_of_Z 1) else floordiv
  else S754_zero (sign_bit (SFdiv prec emax x wx)).

Definition float_rem (x : spec_float) (d : Z) : spec_float :=
  let mod_ := fmod x d in
  if negb (is_zero mod_) then
    if is_negative mod_ then SFadd prec emax mod_ (float_of_Z d) else mod_
  else S754_zero false.

(** [int(x)] on a float *)
Definition int_of_float (x : spec_float) : res Z :=
  match x with
  | S754_zero _ => Ok 0%Z
  | S754_finite s m e =>
      Ok (cond_Zopp s (if (0 <=? e)%Z then Z.pos m * 2 ^ e else Z.pos m / 2 ^ (- e)))%Z
  | S754_infinity _ => Raise (Exn OverflowError "cannot convert float infinity to integer")
  | S754_nan => Raise (Exn ValueError "cannot convert float NaN to integer")
  end.

Definition two_digits (n : Z) : string :=
  (if (n <? 10)%Z then "0" else "") +:+ pretty n.

(** [format(x, '.2f')]: the decimal with two places nearest to the float,
    ties to even. *)
Definition format_2f (x : spec_float) : string :=
  match x with
  | S754_nan => "nan"
  | S754_infinity s => if s then "-inf" else "inf"
  | S754_zero s => if s then "-0.00" else "0.00"
  | S754_finite s m e =>
      let hundredths :=
        if (0 <=? e)%Z then (Z.pos m * 2 ^ e * 100)%Z
        else
          let num := (Z.pos m * 100)%Z in
          let den := (2 ^ (- e))%Z in
          let q := (num / den)%Z in
          match (2 * (num mod den) ?= den)%Z with
          | Lt => q
          | Eq => if Z.even q then q else (q + 1)%Z
          | Gt => (q + 1)%Z
          end in
      (if s then "-" else "") +:+ pretty (hundredths / 100)%Z +:+ "."
        +:+ two_digits (hundredths mod 100)%Z
  end.

Definition unsupported (op : string) (v : pyval) : exn :=
  Exn TypeError ("unsupported operand type(s) for " +:+ op +:+ ": '" +:+ type_name v
                   +:+ "' and 'int'").

(** [int(v // 60)] and then [int(v % 60)] *)
Definition minutes_seconds (v : pyval) : res (Z * Z) :=
  match v with
  | PFloat f =>
      minutes ← int_of_float (float_floordiv (to_float f) 60);
      seconds ← int_of_float (float_rem (to_float f) 60);
      Ok (minutes, seconds)
  | PInt z => Ok (z / 60, z mod 60)%Z
  | PBool b => Ok (0, if b then 1 else 0)%Z
  | _ => Raise (unsupported "//" v)
  end.

(** [a / b] on two [int], for [0 < b] *)
Definition true_divide (a : Z) (b : positive) : res spec_float :=
  match nearest_float a b with
  | S754_infinity _ =>
      Raise (Exn OverflowError "integer division result too large for a float")
  | x => Ok x
  end.

(** [f"{v / d:.2f}"] for an integer [0 < d] *)
Definition format_quotient (v : pyval) (d : positive) : res string :=
  match v with
  | PFloat f => Ok (format_2f (SFdiv prec emax (to_float f) (float_of_Z (Z.pos d))))
  | PInt z => x ← true_divide z d; Ok (format_2f x)
  | PBool b => x ← true_divide (if b then 1 else 0) d; Ok (format_2f x)
  | _ => Raise (unsupported "/" v)
  end.

(** [v[key]] for a [str] key *)
Definition py_getitem (v : pyval) (key : string) : res pyval :=
  match v with
  | PDict d =>
      match d !! key with
      | Some x => Ok x
      | None => Raise (Exn (OtherException "KeyError") ("'" +:+ key +:+ "'"))
      end
  | PStr _ => Raise (Exn TypeError "string indices must be integers, not 'str'")
  | PList _ => Raise (Exn TypeError "list indices must be integers or slices, not str")
  | _ => Raise (Exn TypeError ("'" +:+ type_name v +:+ "' object is not subscriptable"))
  end.

(** [for x in v]: the elements visited.  A dict yields its keys and a str
    its characters (here one per byte). *)
Definition py_iter (v : pyval) : res (list pyval) :=
  match v with
  | PList l => Ok l
  | PDict d => Ok (PStr <$> (map_to_list d).*1)
  | PStr s => Ok ((λ c, PStr (String c EmptyString)) <$> list_ascii_of_string s)
  | _ => Raise (Exn TypeError ("'" +:+ type_name v +:+ "' object is not iterable"))
  end.

Definition resolve (video_meta : pyval) : res video_reference :=
  transfer_method ← get_field video_meta "transfer_method" (PStr "local_file");
  filename ← get_field video_meta "filename" (PStr "video.mp4");
  extension ← get_field video_meta "extension" (PStr ".mp4");
  url ← get_field video_meta "url" (PStr "");
  mime_type ← get_field video_meta "mime_type" (PStr "video/mp4");
  Ok {| transfer_method := transfer_method; filename := filename;
        extension := extension; url := url; mime_type := mime_type |}.

(** ** Tool A: tools/extract_audio.py *)

Module ExtractAudioTool.

(** tools/extract_audio.py:128-136 *)
Definition codecs : gmap string string :=
  {[ "mp3" := "libmp3lame"; "aac" := "aac"; "wav" := "pcm_s16le";
     "ogg" := "libvorbis"; "flac" := "flac" ]}.

Definition _get_codec_for_format (audio_format : string) : string :=
  default "copy" (codecs !! audio_format).

(** tools/extract_audio.py:30 and 35-41 *)
Definition valid_formats : list string := ["mp3"; "aac"; "wav"; "ogg"; "flac"].

Definition mime_types : gmap string string :=
  {[ "mp3" := "audio/mpeg"; "aac" := "audio/aac"; "wav" := "audio/wav";
     "ogg" := "audio/ogg"; "flac" := "audio/flac" ]}.

(** tools/extract_audio.py:44-68, the fetch: the bytes of the video with
    the filename and the extension the rest of the pipeline goes on with. *)
Definition fetch (w : world) (transfer_method filename file_extension file_url : pyval)
    : M (bytes * pyval * pyval) :=
  if eq_str transfer_method "remote_url" then
    url ← lift (require_prefix file_url ["http://"; "https://"]
                  (Exn ValueError "无效的远程 URL：缺少 http(s) 协议"));
    response ← http_get w url;
    if negb (response.1 =? 200)%Z then
      raise (Exn ValueError ("视频文件下载失败：" +:+ url))
    else
      let file_bytes := response.2 in
      let filename_from_url := basename (split_head "?" url) in
      let file_extension :=
        let ext := (splitext filename_from_url).2 in
        if String.eqb ext "" then ".mp4" else ext in
      let filename :=
        if negb (truthy filename) then PStr filename_from_url else filename in
      mret (file_bytes, filename, PStr file_extension)
  else if eq_str transfer_method "local_file" then
    url ← lift (require_prefix file_url ["/files/"]
                  (Exn ValueError "无效的本地文件 URL"));
    let base_url := default "http://api:5001" (environ w !! "DIFY_BASE_URL") in
    let full_url := base_url +:+ url in
    response ← http_get w full_url;
    if negb (response.1 =? 200)%Z then
      raise (Exn ValueError ("无法下载本地文件：" +:+ url))
    else
      mret (response.2, filename, file_extension)
  else
    raise (Exn ValueError ("不支持的 transfer_method: " +:+ py_str w transfer_method)).

(** [ffmpeg.input(i).output(o, acodec=codec).run(..., overwrite_output=True)] *)
Definition run_ffmpeg (w : world) (i o codec : string) : M unit :=
  match ffmpeg_run w i o codec with
  | FfmpegDone audio => set_files (<[o := audio]>);; log_created o
  | FfmpegFails e partial =>
      match partial with
      | Some part => set_files (<[o := part]>);; log_created o
      | None => mret ()
      end;;
      raise e
  end.

(** tools/extract_audio.py:70-118 *)
Definition transcode (w : world) (filename file_extension : pyval) (file_bytes : bytes)
    (audio_format : string) : M unit :=
  orig_filename ← lift (match filename with
                        | PStr s => Ok (splitext s).1
                        | v => Raise (Exn TypeError
                                 ("expected str, bytes or os.PathLike object, not "
                                    +:+ type_name v))
                        end);
  let output_filename := orig_filename +:+ "." +:+ audio_format in
  in_temp_path ← write_temp_file w file_extension file_bytes;
  let out_temp_path :=
    path_join (gettempdir w) ("audio_" +:+ pretty (time_now w) +:+ "." +:+ audio_format) in
  try_finally
    (yield (TextMessage ("🔄 正在提取音频为 `" +:+ audio_format +:+ "` 格式..."));;
     run_ffmpeg w in_temp_path out_temp_path (_get_codec_for_format audio_format);;
     audio_data ← read_file out_temp_path;
     audio_size ← getsize out_temp_path;
     yield (BlobMessage audio_data
              {[ "filename" := PStr output_filename;
                 "mime_type" := PStr (default ("audio/" +:+ audio_format)
                                              (mime_types !! audio_format)) ]});;
     yield (JsonMessage
              {[ "status" := PStr "success";
                 "message" := PStr ("成功提取音频为 " +:+ audio_format);
                 "original_filename" := filename;
                 "audio_filename" := PStr output_filename;
                 "audio_format" := PStr audio_format;
                 "audio_size" := PInt audio_size ]});;
     let summary :=
       "✅ 已成功提取音频：" +:+ output_filename +:+ newline +:+ "格式: " +:+ audio_format
         +:+ newline +:+ "大小: " +:+ format_mb w audio_size +:+ " MB" in
     yield (TextMessage summary))
    (in_exists ← path_exists in_temp_path;
     when_ in_exists (unlink in_temp_path);;
     out_exists ← path_exists out_temp_path;
     when_ out_exists (unlink out_temp_path)).

(** tools/extract_audio.py:120-126 *)
Definition on_error (e : exn) : M unit :=
  let error_msg := "❌ 处理视频文件时出错: " +:+ exn_text e in
  yield (TextMessage error_msg);;
  yield (JsonMessage {[ "status" := PStr "error"; "message" := PStr error_msg ]}).

(** tools/extract_audio.py:43-126, the [try] with its [except Exception] *)
Definition pipeline (w : world) (video : video_reference) (audio_format : string) : M unit :=
  try_except
    (fetched ← fetch w (transfer_method video) (filename video) (extension video) (url video);
     transcode w fetched.1.2 fetched.2 fetched.1.1 audio_format)
    on_error.

(** tools/extract_audio.py:32 *)
Definition warning (audio_format : string) : message :=
  TextMessage ("⚠️ 不支持的音频格式: " +:+ audio_format +:+ "，将自动转为 'mp3'").

(** tools/extract_audio.py:20, [tool_parameters.get("video") or {}] *)
Definition video_meta_of (tool_parameters : gmap string pyval) : pyval :=
  let video := default PNone (tool_parameters !! "video") in
  if truthy video then video else PDict ∅.

(** tools/extract_audio.py:19-126 *)
Definition _invoke (w : world) (tool_parameters : gmap string pyval) : M unit :=
  let video_meta := video_meta_of tool_parameters in
  video ← lift (resolve video_meta);
  audio_format ← lift (s ← as_str (default (PStr "mp3") (tool_parameters !! "audio_format"))
                                  "lower";
                       Ok (lower w s));
  audio_format ← (if negb (bool_decide (audio_format ∈ valid_formats)) then
                    yield (warning audio_format);; mret "mp3"
                  else mret audio_format);
  pipeline w video audio_format.

End ExtractAudioTool.

(** ** Tool B: tools/video_info.py *)

Module VideoInfoTool.

(** tools/video_info.py:36-81, the fetch.  [None] stands for the early
    [return] after an error pair has been yielded. *)
Definition fetch (w : world) (video_meta transfer_method file_url : pyval)
    : M (option bytes) :=
  if eq_str transfer_method "local_file" then
    url ← lift (as_str file_url "startswith");
    if negb (startswith url "/files/") then
      yield (TextMessage "❌ 本地文件URL不合法，请检查。");;
      yield (JsonMessage {[ "status" := PStr "error";
                            "message" := PStr "Invalid local file URL." ]});;
      mret None
    else
      let base_url := "http://api:5001" in
      let full_url := base_url +:+ url in
      response ← http_get w full_url;
      if negb (response.1 =? 200)%Z then
        yield (TextMessage "❌ 无法下载 Dify 本地文件，请确认文件URL正确并已登录。");;
        yield (JsonMessage {[ "status" := PStr "error";
                              "message" := PStr ("Failed to fetch local file: "
                                                   +:+ pretty response.1) ]});;
        mret None
      else mret (Some response.2)
  else if eq_str transfer_method "remote_url" then
    full_url ← lift (get_field video_meta "remote_url" (PStr ""));
    url ← lift (as_str full_url "startswith");
    if negb (startswith url "http") then
      yield (TextMessage "❌ 远程 URL 缺少协议前缀 http:// 或 https://");;
      yield (JsonMessage {[ "status" := PStr "error";
                            "message" := PStr "Invalid remote URL" ]});;
      mret None
    else
      response ← http_get w url;
      if negb (response.1 =? 200)%Z then
        yield (TextMessage "❌ 无法下载远程文件");;
        yield (JsonMessage {[ "status" := PStr "error";
                              "message" := PStr ("Failed to fetch remote file: "
                                                   +:+ pretty response.1) ]});;
        mret None
      else mret (Some response.2)
  else
    yield (TextMessage "❌ 不支持的传输方式");;
    yield (JsonMessage {[ "status" := PStr "error";
                          "message" := PStr ("Unsupported transfer method: "
                                               +:+ py_str w transfer_method) ]});;
    mret None.

(** tools/video_info.py:104-109, the ["format"] entry: each field looks
    [info.get("format", {})] up again. *)
Definition format_section (w : world) (info : pyval) : res (gmap string pyval) :=
  fmt ← dict_get info "format" (PDict ∅);
  format_name ← dict_get fmt "format_name" (PStr "unknown");
  fmt ← dict_get info "format" (PDict ∅);
  duration ← dict_get fmt "duration" (PInt 0);
  duration ← py_float w duration;
  fmt ← dict_get info "format" (PDict ∅);
  size ← dict_get fmt "size" (PInt 0);
  size ← py_int w size;
  fmt ← dict_get info "format" (PDict ∅);
  bit_rate ← dict_get fmt "bit_rate" (PInt 0);
  bit_rate ← py_int w bit_rate;
  Ok ({[ "format_name" := format_name; "duration" := PFloat duration;
         "size" := PInt size; "bit_rate" := PInt bit_rate ]} : gmap string pyval).

(** tools/video_info.py:114-131, the body of the loop over the streams *)
Definition shape_stream (stream : pyval) : res pyval :=
  index ← dict_get stream "index" PNone;
  codec_type ← dict_get stream "codec_type" PNone;
  codec_name ← dict_get stream "codec_name" PNone;
  let stream_info : gmap string pyval :=
    {[ "index" := index; "codec_type" := codec_type; "codec_name" := codec_name ]} in
  tag ← dict_get stream "codec_type" PNone;
  if eq_str tag "video" then
    width ← dict_get stream "width" PNone;
    height ← dict_get stream "height" PNone;
    r_frame_rate ← dict_get stream "r_frame_rate" PNone;
    display_aspect_ratio ← dict_get stream "display_aspect_ratio" (PStr "unknown");
    Ok (PDict (<["width" := width]> (<["height" := height]>
                (<["r_frame_rate" := r_frame_rate]>
                  (<["display_aspect_ratio" := display_aspect_ratio]> stream_info)))))
  else
    tag ← dict_get stream "codec_type" PNone;
    if eq_str tag "audio" then
      sample_rate ← dict_get stream "sample_rate" PNone;
      channels ← dict_get stream "channels" PNone;
      channel_layout ← dict_get stream "channel_layout" (PStr "unknown");
      Ok (PDict (<["sample_rate" := sample_rate]> (<["channels" := channels]>
                  (<["channel_layout" := channel_layout]> stream_info))))
    else Ok (PDict stream_info).

(** The loop of tools/video_info.py:113-133: the first stream that fails
    ends it. *)
Fixpoint shape_streams (streams : list pyval) : res (list pyval) :=
  match streams with
  | [] => Ok []
  | stream :: rest =>
      stream_info ← shape_stream stream;
      shaped ← shape_streams rest;
      Ok (stream_info :: shaped)
  end.

(** tools/video_info.py:101-133 *)
Definition reshape (w : world) (filename info : pyval) : res (gmap string pyval) :=
  format ← format_section w info;
  streams ← dict_get info "streams" (PList []);
  streams ← py_iter streams;
  shaped ← shape_streams streams;
  Ok ({[ "status" := PStr "success"; "filename" := filename;
         "format" := PDict format; "streams" := PList shaped ]} : gmap string pyval).

(** tools/video_info.py:143-147, the line a stream adds to the summary *)
Definition stream_line (w : world) (s : pyval) : res string :=
  tag ← py_getitem s "codec_type";
  if eq_str tag "video" then
    width ← dict_get s "width" PNone;
    height ← dict_get s "height" PNone;
    codec_name ← dict_get s "codec_name" PNone;
    Ok ("📹 视频流: " +:+ py_str w width +:+ "x" +:+ py_str w height +:+ " / 编码: "
          +:+ py_str w codec_name +:+ newline)
  else
    tag ← py_getitem s "codec_type";
    if eq_str tag "audio" then
      codec_name ← dict_get s "codec_name" PNone;
      sample_rate ← dict_get s "sample_rate" (PStr "未知");
      Ok ("🔊 音频流: 编码: " +:+ py_str w codec_name +:+ " / 采样率: "
            +:+ py_str w sample_rate +:+ newline)
    else Ok "".

Fixpoint stream_lines (w : world) (streams : list pyval) : res string :=
  match streams with
  | [] => Ok ""
  | s :: rest =>
      line ← stream_line w s;
      lines ← stream_lines w rest;
      Ok (line +:+ lines)
  end.

(** tools/video_info.py:136-149, the text summary *)
Definition summarize (w : world) (filename : pyval) (formatted_info : gmap string pyval)
    : res string :=
  let formatted_info := PDict formatted_info in
  fmt ← py_getitem formatted_info "format";
  duration_sec ← py_getitem fmt "duration";
  fmt ← py_getitem formatted_info "format";
  format_name ← py_getitem fmt "format_name";
  clock ← minutes_seconds duration_sec;
  fmt ← py_getitem formatted_info "format";
  size ← py_getitem fmt "size";
  megabytes ← format_quotient size (1024 * 1024);
  fmt ← py_getitem formatted_info "format";
  bit_rate ← py_getitem fmt "bit_rate";
  kbps ← format_quotient bit_rate 1000;
  let summary :=
    "🎬 **" +:+ py_str w filename +:+ " 视频信息摘要**" +:+ newline
      +:+ "格式: " +:+ py_str w format_name +:+ newline
      +:+ "时长: " +:+ pretty clock.1 +:+ "分 " +:+ pretty clock.2 +:+ "秒" +:+ newline
      +:+ "大小: " +:+ megabytes +:+ " MB" +:+ newline
      +:+ "平均码率: " +:+ kbps +:+ " kbps" +:+ newline in
  streams ← py_getitem formatted_info "streams";
  streams ← py_iter streams;
  lines ← stream_lines w streams;
  Ok (strip (summary +:+ lines)).

(** tools/video_info.py:152-158 *)
Definition on_error (e : exn) : M unit :=
  let msg := "❌ 处理视频失败: " +:+ exn_text e in
  yield (TextMessage msg);;
  yield (JsonMessage {[ "status" := PStr "error"; "message" := PStr msg ]}).

(** tools/video_info.py:83-161 *)
Definition probe (w : world) (filename extension : pyval) (file_bytes : bytes) : M unit :=
  set_temp_file_path None;;
  try_finally
    (try_except
       (path ← write_temp_file w extension file_bytes;
        set_temp_file_path (Some path);;
        result ← lift (ffprobe_run w path);
        if negb (returncode result =? 0)%Z then
          raise (Exn RuntimeError ("ffprobe error: " +:+ stderr result))
        else
          info ← lift (json_loads w (stdout result));
          formatted_info ← lift (reshape w filename info);
          summary ← lift (summarize w filename formatted_info);
          yield (TextMessage summary);;
          yield (JsonMessage formatted_info))
       on_error)
    (temp_file_path ← get_temp_file_path;
     match temp_file_path with
     | Some path =>
         if negb (String.eqb path "") then
           there ← path_exists path;
           when_ there (unlink path)
         else mret ()
     | None => mret ()
     end).

(** tools/video_info.py:19-161 *)
Definition _invoke (w : world) (tool_parameters : gmap string pyval) : M unit :=
  let video_meta := default PNone (tool_parameters !! "video") in
  match video_meta with
  | PNone =>
      yield (TextMessage "❌ 缺少 video 参数");;
      yield (JsonMessage {[ "status" := PStr "error";
                            "message" := PStr "Missing video parameter" ]})
  | _ =>
      video ← lift (resolve video_meta);
      fetched ← fetch w video_meta (transfer_method video) (url video);
      match fetched with
      | Some file_bytes => probe w (filename video) (extension video) file_bytes
      | None => mret ()
      end
  end.

End VideoInfoTool.

(** ** Sample worlds and inputs

    In [calm] everything answers: the server replies 200 with four bytes,
    temporary files get a fixed stem, ffmpeg and ffprobe succeed.  The
    number parsers read plain decimal digits. *)

Fixpoint digits_value (s : string) (acc : Z) : option Z :=
  match s with
  | EmptyString => Some acc
  | String c r =>
      let n := N_of_ascii c in
      if ((48 <=? n) && (n <=? 57))%N then digits_value r (10 * acc + Z.of_N (n - 48))
      else None
  end.

Definition parse_decimal (s : string) : res Z :=
  match s with
  | EmptyString => Raise (Exn ValueError "invalid literal")
  | _ => match digits_value s 0 with
         | Some z => Ok z
         | None => Raise (Exn ValueError "invalid literal")
         end
  end.

Definition sample_bytes : bytes := [Byte.x00; Byte.x01; Byte.x02; Byte.x03].

Definition calm : world := {|
  environ := ∅;
  requests_get := λ _, Response 200 sample_bytes;
  named_temporary_file := λ suffix, Ok ("/tmp/tmpk3v9" +:+ suffix);
  write_fault := λ _, None;
  gettempdir := "/tmp";
  time_now := 1700000000;
  ffmpeg_run := λ _ _ _, FfmpegDone [Byte.x49; Byte.x44; Byte.x33];
  ffprobe_run := λ _, Ok {| returncode := 0; stdout := "{}"; stderr := "" |};
  json_loads := λ _, Ok (PDict ∅);
  float_of_str := λ s, z ← parse_decimal s; Ok (FNum (inject_Z z));
  int_of_str := parse_decimal;
  repr_of := λ _, "<value>";
  format_mb := λ _, "0.00";
  unicode_lower := ascii_lower
|}.

(** A world with another environment, another server, or a disk that
    fails on write. *)
Definition with_environ (env : gmap string string) (w : world) : world := {|
  environ := env;
  requests_get := requests_get w;
  named_temporary_file := named_temporary_file w;
  write_fault := write_fault w;
  gettempdir := gettempdir w;
  time_now := time_now w;
  ffmpeg_run := ffmpeg_run w;
  ffprobe_run := ffprobe_run w;
  json_loads := json_loads w;
  float_of_str := float_of_str w;
  int_of_str := int_of_str w;
  repr_of := repr_of w;
  format_mb := format_mb w;
  unicode_lower := unicode_lower w
|}.

Definition with_requests (get : string → http_reply) (w : world) : world := {|
  environ := environ w;
  requests_get := get;
  named_temporary_file := named_temporary_file w;
  write_fault := write_fault w;
  gettempdir := gettempdir w;
  time_now := time_now w;
  ffmpeg_run := ffmpeg_run w;
  ffprobe_run := ffprobe_run w;
  json_loads := json_loads w;
  float_of_str := float_of_str w;
  int_of_str := int_of_str w;
  repr_of := repr_of w;
  format_mb := format_mb w;
  unicode_lower := unicode_lower w
|}.

Definition with_write_fault (e : exn) (w : world) : world := {|
  environ := environ w;
  requests_get := requests_get w;
  named_temporary_file := named_temporary_file w;
  write_fault := λ _, Some e;
  gettempdir := gettempdir w;
  time_now := time_now w;
  ffmpeg_run := ffmpeg_run w;
  ffprobe_run := ffprobe_run w;
  json_loads := json_loads w;
  float_of_str := float_of_str w;
  int_of_str := int_of_str w;
  repr_of := repr_of w;
  format_mb := format_mb w;
  unicode_lower := unicode_lower w
|}.

Definition disk_full : exn :=
  Exn (OtherException "OSError") "[Errno 28] No space left on device".

Definition connection_refused : exn :=
  Exn (OtherException "ConnectionError") "Connection refused".

Definition deployed : world :=
  with_environ {[ "DIFY_BASE_URL" := "http://dify:8080" ]} calm.

(** A remote video whose caller names it clip.mkv while the URL ends in
    v.webm, with what the resolver makes of it. *)
Definition remote_fields : gmap string pyval :=
  {[ "transfer_method" := PStr "remote_url"; "url" := PStr "http://host/v.webm?sig=1";
     "filename" := PStr "clip.mkv"; "extension" := PStr ".mkv" ]}.

Definition remote_reference : video_reference :=
  {| transfer_method := PStr "remote_url"; filename := PStr "clip.mkv";
     extension := PStr ".mkv"; url := PStr "http://host/v.webm?sig=1";
     mime_type := PStr "video/mp4" |}.

(** The same video asked for in a format Tool A does not know. *)
Definition opus_parameters : gmap string pyval :=
  {[ "video" := PDict remote_fields; "audio_format" := PStr "Opus" ]}.

(** The same video asked for in upper case in a format Tool A knows. *)
Definition loud_parameters : gmap string pyval :=
  {[ "video" := PDict remote_fields; "audio_format" := PStr "AAC" ]}.

(** An object, not a mapping, that only carries a filename. *)
Definition upload : pyval := PObj "File" {[ "filename" := PStr "a.mov" ]}.

(** A file of the host's store. *)
Definition local_video : pyval :=
  PDict {[ "transfer_method" := PStr "local_file"; "url" := PStr "/files/clip.mp4" ]}.

Definition local_reference : video_reference :=
  {| transfer_method := PStr "local_file"; filename := PStr "video.mp4";
     extension := PStr ".mp4"; url := PStr "/files/clip.mp4";
     mime_type := PStr "video/mp4" |}.

(** A remote reference whose address only begins like a scheme. *)
Definition lax_video : pyval :=
  PDict {[ "transfer_method" := PStr "remote_url";
           "remote_url" := PStr "httpx://media/v.mp4" ]}.

Definition lax_reference : video_reference :=
  {| transfer_method := PStr "remote_url"; filename := PStr "video.mp4";
     extension := PStr ".mp4"; url := PStr ""; mime_type := PStr "video/mp4" |}.

(** A reference that names a transfer method neither tool knows. *)
Definition ftp_video : pyval :=
  PDict {[ "transfer_method" := PStr "ftp"; "url" := PStr "ftp://host/v.mp4" ]}.

Definition ftp_reference : video_reference :=
  {| transfer_method := PStr "ftp"; filename := PStr "video.mp4";
     extension := PStr ".mp4"; url := PStr "ftp://host/v.mp4";
     mime_type := PStr "video/mp4" |}.

Definition ftp_parameters : gmap string pyval := {[ "video" := ftp_video ]}.

(** The same reference, with a number where the format should be. *)
Definition ftp_number_parameters : gmap string pyval :=
  {[ "video" := ftp_video; "audio_format" := PInt 5 ]}.

(** A probe result with a format that only tells its duration, one video
    stream and one audio stream, none of them with the optional fields. *)
Definition sparse_format : gmap string pyval := {[ "duration" := PStr "12" ]}.

Definition sparse_streams : list (gmap string pyval) :=
  [ {[ "index" := PInt 0; "codec_type" := PStr "video"; "codec_name" := PStr "h264" ]};
    {[ "index" := PInt 1; "codec_type" := PStr "audio"; "codec_name" := PStr "aac" ]} ].

Definition sparse_info : gmap string pyval :=
  {[ "format" := PDict sparse_format; "streams" := PList (PDict <$> sparse_streams) ]}.

(** ** Vocabulary of the statements *)

(** The fields a video reference exposes, when it is a mapping or an
    object. *)
Definition fields_of (v : pyval) : option (gmap string pyval) :=
  match v with
  | PDict d => Some d
  | PObj _ attrs => Some attrs
  | _ => None
  end.

(** What the resolver gives when no field is present. *)
Definition default_reference : video_reference :=
  {| transfer_method := PStr "local_file"; filename := PStr "video.mp4";
     extension := PStr ".mp4"; url := PStr ""; mime_type := PStr "video/mp4" |}.

(** An outcome with the warning of Tool A in front of its messages. *)
Definition warned (fmt : string) (o : outcome) : outcome :=
  {| messages := ExtractAudioTool.warning fmt :: messages o; raised := raised o;
     remaining := remaining o; made := made o; requests := requests o |}.

(** A state with messages yielded before it, and one with a GET sent
    after it. *)
Definition preceded (pre : list message) (st : state) : state :=
  {| emitted := pre ++ emitted st; files := files st; created := created st;
     fetched := fetched st; temp_file_path := temp_file_path st |}.

Definition logged (u : string) (st : state) : state :=
  {| emitted := emitted st; files := files st; created := created st;
     fetched := fetched st ++ [u]; temp_file_path := temp_file_path st |}.

(** A computation frames the messages yielded before it: it does the same
    after them and keeps them in front. *)
Definition frames {A} (m : M A) : Prop :=
  ∀ pre st, m (preceded pre st) = ((m st).1, preceded pre (m st).2).

(** Hoare triples over one invocation, and invariants. *)
Definition hoare {A} (P : state → Prop) (m : M A) (Q : res A → state → Prop) : Prop :=
  ∀ st, P st → Q (m st).1 (m st).2.

Definition maintains {A} (I : state → Prop) (m : M A) : Prop := hoare I m (λ _, I).

Definition on_files (F : gmap string bytes → Prop) : state → Prop := λ st, F (files st).
Definition within (S : gset string) : state → Prop := on_files (λ f, dom f ⊆ S).
Definition no_files : state → Prop := on_files (λ f, f = ∅).
Definition sent (log : list string) : state → Prop := λ st, fetched st = log.

(** The base address Tool A reads: tools/extract_audio.py:59. *)
Definition base_address (w : world) : string :=
  default "http://api:5001" (environ w !! "DIFY_BASE_URL").

(** The filename and the extension a URL gives:
    tools/extract_audio.py:51-52. *)
Definition filename_from_url (u : string) : string := basename (split_head "?" u).
Definition extension_from_url (u : string) : string :=
  let ext := (splitext (filename_from_url u)).2 in
  if String.eqb ext "" then ".mp4" else ext.

(** What a shaped stream owes to the defaults of
    tools/video_info.py:124 and 130. *)
Definition stream_defaults (stream out : gmap string pyval) : Prop :=
  (stream !! "codec_type" = Some (PStr "video") →
   stream !! "display_aspect_ratio" = None →
   out !! "display_aspect_ratio" = Some (PStr "unknown"))
  ∧ (stream !! "codec_type" = Some (PStr "audio") →
     stream !! "channel_layout" = None →
     out !! "channel_layout" = Some (PStr "unknown")).

(** The local-file fetch of a tool goes to the base address taken from the
    environment: what the specification says of both tools. *)
Definition base_from_environment (invoke : world → gmap string pyval → M unit) : Prop :=
  ∀ (w : world) (tool_parameters : gmap string pyval) (video : video_reference) (u : string),
    resolve (default PNone (tool_parameters !! "video")) = Ok video →
    transfer_method video = PStr "local_file" →
    url video = PStr u →
    startswith u "/files/" = true →
    tool_parameters !! "audio_format" = None →
    requests (run (invoke w tool_parameters)) = [base_address w +:+ u].

(** After a successful remote fetch Tool A keeps the caller's filename and
    extension when the caller gave a filename, and takes those of the URL
    when it did not: what the specification says. *)
Definition caller_naming_wins : Prop :=
  ∀ (w : world) (meta : gmap string pyval) (video : video_reference) (u : string)
    (content : bytes) (st : state),
    resolve (PDict meta) = Ok video →
    transfer_method video = PStr "remote_url" →
    url video = PStr u →
    startswith_any u ["http://"; "https://"] = true →
    requests_get w u = Response 200 content →
    ∃ fn ext st',
      ExtractAudioTool.fetch w (transfer_method video) (filename video) (extension video)
        (url video) st = (Ok (content, fn, ext), st')
      ∧ (is_Some (meta !! "filename") → fn = filename video ∧ ext = extension video)
      ∧ (meta !! "filename" = None →
           fn = PStr (filename_from_url u) ∧ ext = PStr (extension_from_url u)).

(** ** More worlds and inputs *)

Definition with_ffmpeg (run : string → string → string → ffmpeg_outcome) (w : world)
    : world := {|
  environ := environ w;
  requests_get := requests_get w;
  named_temporary_file := named_temporary_file w;
  write_fault := write_fault w;
  gettempdir := gettempdir w;
  time_now := time_now w;
  ffmpeg_run := run;
  ffprobe_run := ffprobe_run w;
  json_loads := json_loads w;
  float_of_str := float_of_str w;
  int_of_str := int_of_str w;
  repr_of := repr_of w;
  format_mb := format_mb w;
  unicode_lower := unicode_lower w
|}.

Definition with_ffprobe (run : string → res completed_process) (w : world) : world := {|
  environ := environ w;
  requests_get := requests_get w;
  named_temporary_file := named_temporary_file w;
  write_fault := write_fault w;
  gettempdir := gettempdir w;
  time_now := time_now w;
  ffmpeg_run := ffmpeg_run w;
  ffprobe_run := run;
  json_loads := json_loads w;
  float_of_str := float_of_str w;
  int_of_str := int_of_str w;
  repr_of := repr_of w;
  format_mb := format_mb w;
  unicode_lower := unicode_lower w
|}.

Definition with_json (loads : string → res pyval) (w : world) : world := {|
  environ := environ w;
  requests_get := requests_get w;
  named_temporary_file := named_temporary_file w;
  write_fault := write_fault w;
  gettempdir := gettempdir w;
  time_now := time_now w;
  ffmpeg_run := ffmpeg_run w;
  ffprobe_run := ffprobe_run w;
  json_loads := loads;
  float_of_str := float_of_str w;
  int_of_str := int_of_str w;
  repr_of := repr_of w;
  format_mb := format_mb w;
  unicode_lower := unicode_lower w
|}.

(** A server that answers 404, an ffmpeg that fails after it began to
    write, an ffprobe that exits with 1. *)
Definition not_found : world := with_requests (λ _, Response 404 []) calm.

Definition ffmpeg_error : exn :=
  Exn (OtherException "Error") "ffmpeg error (see stderr output for detail)".

Definition broken_encoder : world :=
  with_ffmpeg (λ _ _ _, FfmpegFails ffmpeg_error (Some [Byte.x00])) calm.

Definition unreadable : completed_process :=
  {| returncode := 1; stdout := ""; stderr := "moov atom not found" |}.

Definition broken_prober : world := with_ffprobe (λ _, Ok unreadable) calm.

Definition local_parameters : gmap string pyval := {[ "video" := local_video ]}.

(** A local reference that points outside the store of the host. *)
Definition stray_video : pyval :=
  PDict {[ "transfer_method" := PStr "local_file"; "url" := PStr "/etc/passwd" ]}.

Definition stray_reference : video_reference :=
  {| transfer_method := PStr "local_file"; filename := PStr "video.mp4";
     extension := PStr ".mp4"; url := PStr "/etc/passwd"; mime_type := PStr "video/mp4" |}.

Definition stray_parameters : gmap string pyval := {[ "video" := stray_video ]}.

(** A remote reference that gives its address under both names. *)
Definition mirror_video : pyval :=
  PDict {[ "transfer_method" := PStr "remote_url"; "url" := PStr "https://host/v.mp4";
           "remote_url" := PStr "https://host/v.mp4" ]}.

Definition mirror_reference : video_reference :=
  {| transfer_method := PStr "remote_url"; filename := PStr "video.mp4";
     extension := PStr ".mp4"; url := PStr "https://host/v.mp4";
     mime_type := PStr "video/mp4" |}.

Definition mirror_parameters : gmap string pyval := {[ "video" := mirror_video ]}.

Definition remote_parameters : gmap string pyval := {[ "video" := PDict remote_fields ]}.

(** An ffprobe whose output parses to the sparse probe result, and what
    the reshaping makes of it. *)
Definition probing : world := with_json (λ _, Ok (PDict sparse_info)) calm.

Definition sparse_report : gmap string pyval :=
  {[ "status" := PStr "success"; "filename" := PStr "video.mp4";
     "format" := PDict {[ "format_name" := PStr "unknown";
                          "duration" := PFloat (FNum 12);
                          "size" := PInt 0; "bit_rate" := PInt 0 ]};
     "streams" :=
       PList [ PDict {[ "index" := PInt 0; "codec_type" := PStr "video";
                        "codec_name" := PStr "h264"; "width" := PNone; "height" := PNone;
                        "r_frame_rate" := PNone;
                        "display_aspect_ratio" := PStr "unknown" ]};
               PDict {[ "index" := PInt 1; "codec_type" := PStr "audio";
                        "codec_name" := PStr "aac"; "sample_rate" := PNone;
                        "channels" := PNone; "channel_layout" := PStr "unknown" ]} ] ]}.

(** A probe result whose duration is the JSON number Infinity. *)
Definition endless_info : pyval :=
  PDict {[ "format" := PDict {[ "duration" := PFloat (FInf false) ]} ]}.

Definition endless_report : gmap string pyval :=
  {[ "status" := PStr "success"; "filename" := PStr "video.mp4";
     "format" := PDict {[ "format_name" := PStr "unknown";
                          "duration" := PFloat (FInf false);
                          "size" := PInt 0; "bit_rate" := PInt 0 ]};
     "streams" := PList [] ]}.

Definition no_parameters : gmap string pyval := ∅.

Definition lax_parameters : gmap string pyval := {[ "video" := lax_video ]}.

(** A caller that passes the address itself instead of a reference. *)
Definition bare_parameters : gmap string pyval :=
  {[ "video" := PStr "https://host/v.mp4" ]}.

(** A list of streams whose second entry is a string. *)
Definition mixed_streams : list pyval := [PDict ∅; PStr "video"].

(** ** More vocabulary *)

(** The format Tool A goes on with: tools/extract_audio.py:28-33. *)
Definition effective_format (w : world) (s : string) : string :=
  if bool_decide (lower w s ∈ ExtractAudioTool.valid_formats) then lower w s else "mp3".

(** An outcome behind the warning that [audio_format] earns, if any. *)
Definition maybe_warned (w : world) (s : string) (o : outcome) : outcome :=
  if bool_decide (lower w s ∈ ExtractAudioTool.valid_formats) then o else warned (lower w s) o.

(** The text message and the JSON message of an error, and those of the
    two handlers. *)
Definition error_pair (msg : string) : list message :=
  [TextMessage msg; JsonMessage {[ "status" := PStr "error"; "message" := PStr msg ]}].

Definition audio_error (text : string) : list message :=
  error_pair ("❌ 处理视频文件时出错: " +:+ text).

Definition info_error (text : string) : list message :=
  error_pair ("❌ 处理视频失败: " +:+ text).

(** What Tool B yields once the bytes are in the temporary file: the error
    pair of the first step that fails, or the summary and the result. *)
Definition probe_messages (w : world) (fn : pyval) (path : string) : list message :=
  match ffprobe_run w path with
  | Raise e => info_error (exn_text e)
  | Ok result =>
      if (returncode result =? 0)%Z then
        match json_loads w (stdout result) with
        | Raise e => info_error (exn_text e)
        | Ok info =>
            match VideoInfoTool.reshape w fn info with
            | Raise e => info_error (exn_text e)
            | Ok formatted =>
                match VideoInfoTool.summarize w fn formatted with
                | Raise e => info_error (exn_text e)
                | Ok summary => [TextMessage summary; JsonMessage formatted]
                end
            end
        end
      else info_error ("ffprobe error: " +:+ stderr result)
  end.

(** The output path of Tool A: tools/extract_audio.py:77. *)
Definition out_temp_path (w : world) (fmt : string) : string :=
  path_join (gettempdir w) ("audio_" +:+ pretty (time_now w) +:+ "." +:+ fmt).

(** The messages of Tool A: tools/extract_audio.py:80 and 94-112. *)
Definition progress (fmt : string) : message :=
  TextMessage ("🔄 正在提取音频为 `" +:+ fmt +:+ "` 格式...").

Definition audio_success (w : world) (filename : string) (fmt : string) (audio : bytes)
    : list message :=
  let output_filename := (splitext filename).1 +:+ "." +:+ fmt in
  [ progress fmt;
    BlobMessage audio
      {[ "filename" := PStr output_filename;
         "mime_type" := PStr (default ("audio/" +:+ fmt)
                                (ExtractAudioTool.mime_types !! fmt)) ]};
    JsonMessage
      {[ "status" := PStr "success";
         "message" := PStr ("成功提取音频为 " +:+ fmt);
         "original_filename" := PStr filename;
         "audio_filename" := PStr output_filename;
         "audio_format" := PStr fmt;
         "audio_size" := PInt (Z.of_nat (List.length audio)) ]};
    TextMessage ("✅ 已成功提取音频：" +:+ output_filename +:+ newline +:+ "格式: " +:+ fmt
                   +:+ newline +:+ "大小: " +:+ format_mb w (Z.of_nat (List.length audio))
                   +:+ " MB") ].

(** The messages yielded so far. *)
Definition said (E : list message) : state → Prop := λ st, emitted st = E.

(** One text message followed by one JSON message that tells its status. *)
Definition is_pair (msgs : list message) : Prop :=
  ∃ (text : string) (json : gmap string pyval),
    msgs = [TextMessage text; JsonMessage json]
    ∧ (json !! "status" = Some (PStr "error") ∨ json !! "status" = Some (PStr "success")).

(** The two shapes the messages of Tool A take after the warning. *)
Definition is_extraction (fmt : string) (msgs : list message) : Prop :=
  ∃ (data : bytes) (meta json : gmap string pyval) (text : string),
    msgs = [progress fmt; BlobMessage data meta; JsonMessage json; TextMessage text]
    ∧ json !! "status" = Some (PStr "success")
    ∧ json !! "audio_format" = Some (PStr fmt)
    ∧ meta !! "mime_type" =
        Some (PStr (default ("audio/" +:+ fmt) (ExtractAudioTool.mime_types !! fmt))).

Definition is_audio_failure (fmt : string) (msgs : list message) : Prop :=
  ∃ text, msgs = audio_error text ∨ msgs = progress fmt :: audio_error text.

(** At most one request has been sent, and no temporary file has been made
    unless that request was answered 200. *)
Definition fetched_before_files (w : world) (st : state) : Prop :=
  (created st = [] ∧ (fetched st = [] ∨ ∃ a, fetched st = [a]))
  ∨ (∃ a data, fetched st = [a] ∧ requests_get w a = Response 200 data).

(** What the caller can check of it: at most one GET, and temporary files
    only after a GET that was answered 200. *)
Definition one_fetch_then_files (w : world) (o : outcome) : Prop :=
  (List.length (requests o) ≤ 1)%nat
  ∧ (made o ≠ [] → ∃ a data, requests o = [a] ∧ requests_get w a = Response 200 data).

(** A shaped stream as the summary needs it: an object that tells its
    [codec_type]. *)
Definition tagged (v : pyval) : Prop := ∃ d, v = PDict d ∧ is_Some (d !! "codec_type").

(** The keys every shaped stream has. *)
Definition common_keys : gset string := {[ "index"; "codec_type"; "codec_name" ]}.

(** The keys of a shaped stream, by its [codec_type]:
    tools/video_info.py:114-131. *)
Definition stream_keys (stream : gmap string pyval) : gset string :=
  if eq_str (default PNone (stream !! "codec_type")) "video" then
    common_keys ∪ {[ "width"; "height"; "r_frame_rate"; "display_aspect_ratio" ]}
  else if eq_str (default PNone (stream !! "codec_type")) "audio" then
    common_keys ∪ {[ "sample_rate"; "channels"; "channel_layout" ]}
  else common_keys.

(** The default of a key when the stream lacks it, and what it means for a
    stream to be shaped. *)
Definition stream_default (key : string) : pyval :=
  if bool_decide (key = "display_aspect_ratio") || bool_decide (key = "channel_layout")
  then PStr "unknown" else PNone.

Definition shaped (stream out : gmap string pyval) : Prop :=
  dom out = stream_keys stream
  ∧ ∀ key, key ∈ dom out → out !! key = Some (default (stream_default key) (stream !! key)).
(** * Properties *)

(** ** Strings and values *)

Lemma eq_str_false (v : pyval) (s : string) : v ≠ PStr s → eq_str v s = false.
Proof.
  intros Hne. destruct v; try reflexivity. simpl.
  destruct (String.eqb_spec s0 s); [congruence | reflexivity].
Qed.

Lemma require_prefix_ok (u : string) (prefixes : list string) (bad : exn) :
  u ≠ "" → startswith_any u prefixes = true →
  require_prefix (PStr u) prefixes bad = Ok u.
Proof.
  intros Hne Hpre. unfold require_prefix. simpl.
  destruct (String.eqb_spec u ""); [done|]. simpl. by rewrite Hpre.
Qed.

Lemma require_prefix_bad (u : string) (prefixes : list string) (bad : exn) :
  startswith_any u prefixes = false →
  require_prefix (PStr u) prefixes bad = Raise bad.
Proof.
  intros Hpre. unfold require_prefix. simpl.
  destruct (String.eqb u ""); [done|]. simpl. by rewrite Hpre.
Qed.

Lemma resolve_falsy (meta : pyval) :
  truthy meta = false → resolve meta = Ok default_reference.
Proof.
  intros Hfalsy. destruct meta; try discriminate Hfalsy; try reflexivity.
  simpl in Hfalsy. apply negb_false_iff, bool_decide_eq_true in Hfalsy. by subst d.
Qed.

Lemma resolve_video_meta_of (tool_parameters : gmap string pyval) :
  resolve (ExtractAudioTool.video_meta_of tool_parameters)
    = resolve (default PNone (tool_parameters !! "video")).
Proof.
  unfold ExtractAudioTool.video_meta_of.
  destruct (truthy (default PNone (tool_parameters !! "video"))) eqn:Ht; [done|].
  by rewrite (resolve_falsy _ Ht).
Qed.

Lemma resolve_returns (meta : pyval) : is_Ok (resolve meta).
Proof.
  destruct meta; try by eexists.
  unfold resolve, get_field, py_getattr_default, py_getattr.
  repeat match goal with |- context [attrs !! ?k] => destruct (attrs !! k) end;
    by eexists.
Qed.

(** ** The monad *)

Lemma bind_lift_ok {A B} (a : A) (f : A → M B) : lift (Ok a) ≫= f = f a.
Proof. reflexivity. Qed.

Lemma requests_run (m : M unit) : requests (run m) = fetched (m initial).2.
Proof. unfold run. by destruct (m initial). Qed.

Lemma remaining_run (m : M unit) : remaining (run m) = files (m initial).2.
Proof. unfold run. by destruct (m initial). Qed.

Lemma raised_run (m : M unit) (st : state) :
  m initial = (Ok (), st) → raised (run m) = None.
Proof. intros Hm. unfold run. by rewrite Hm. Qed.

(** *** Messages already yielded do not change what a computation does *)

Lemma frames_ret {A} (a : A) : frames (mret a : M A).
Proof. done. Qed.

Lemma frames_raise {A} (e : exn) : frames (raise e : M A).
Proof. done. Qed.

Lemma frames_lift {A} (r : res A) : frames (lift r).
Proof. done. Qed.

Lemma frames_bind {A B} (m : M A) (f : A → M B) :
  frames m → (∀ a, frames (f a)) → frames (m ≫= f).
Proof.
  intros Hm Hf pre st. unfold mbind, M_bind. rewrite Hm.
  destruct (m st) as [[a|e] st1]; simpl; [apply Hf | done].
Qed.

Lemma frames_try_except {A} (body : M A) (handler : exn → M A) :
  frames body → (∀ e, frames (handler e)) → frames (try_except body handler).
Proof.
  intros Hb Hh pre st. unfold try_except. rewrite Hb.
  destruct (body st) as [[a|e] st1]; simpl; [done | apply Hh].
Qed.

Lemma frames_try_finally {A} (body : M A) (final : M unit) :
  frames body → frames final → frames (try_finally body final).
Proof.
  intros Hb Hf pre st. unfold try_finally. rewrite Hb.
  destruct (body st) as [r st1]; simpl. rewrite Hf.
  destruct (final st1) as [[[]|e] st2]; done.
Qed.

Lemma frames_yield (m : message) : frames (yield m).
Proof. intros pre st. unfold yield, preceded; simpl. by rewrite (assoc_L (++)). Qed.

Lemma frames_http_get (w : world) (u : string) : frames (http_get w u).
Proof. intros pre st. unfold http_get, preceded; simpl. by destruct (requests_get w u). Qed.

Lemma frames_set_files (f : gmap string bytes → gmap string bytes) : frames (set_files f).
Proof. done. Qed.

Lemma frames_log_created (path : string) : frames (log_created path).
Proof. done. Qed.

Lemma frames_path_exists (path : string) : frames (path_exists path).
Proof. done. Qed.

Lemma frames_read_file (path : string) : frames (read_file path).
Proof. intros pre st. unfold read_file; simpl. by destruct (files st !! path). Qed.

Lemma frames_when (b : bool) (m : M unit) : frames m → frames (when_ b m).
Proof. destruct b; [done | intros _; apply frames_ret]. Qed.

Create HintDb frames.
#[global] Hint Resolve frames_ret frames_raise frames_lift frames_yield frames_http_get
  frames_set_files frames_log_created frames_path_exists frames_read_file : frames.

Ltac frames_step :=
  first
    [ apply frames_bind; [| intros ?]
    | apply frames_try_except; [| intros ?]
    | apply frames_try_finally
    | apply frames_when
    | solve [eauto with frames]
    | match goal with
      | |- frames (if ?b then _ else _) => destruct b
      | |- frames (match ?x with _ => _ end) => destruct x
      end ].

Lemma frames_pipeline (w : world) (video : video_reference) (fmt : string) :
  frames (ExtractAudioTool.pipeline w video fmt).
Proof.
  unfold ExtractAudioTool.pipeline, ExtractAudioTool.fetch, ExtractAudioTool.transcode,
    ExtractAudioTool.on_error, ExtractAudioTool.run_ffmpeg, write_temp_file, getsize, unlink.
  repeat frames_step.
Qed.

(** *** Triples and invariants *)

Lemma hoare_bind {A B} (P : state → Prop) (m : M A) (f : A → M B)
    (Q : res A → state → Prop) (R : res B → state → Prop) :
  hoare P m Q → (∀ a, hoare (Q (Ok a)) (f a) R) →
  (∀ e st, Q (Raise e) st → R (Raise e) st) →
  hoare P (m ≫= f) R.
Proof.
  intros Hm Hf He st HP. unfold mbind, M_bind. specialize (Hm st HP).
  destruct (m st) as [[a|e] st1]; simpl in *; [by apply Hf | by apply He].
Qed.

Lemma hoare_try_except {A} (P : state → Prop) (body : M A) (handler : exn → M A)
    (Q R : res A → state → Prop) :
  hoare P body Q → (∀ a st, Q (Ok a) st → R (Ok a) st) →
  (∀ e, hoare (Q (Raise e)) (handler e) R) →
  hoare P (try_except body handler) R.
Proof.
  intros Hb Hok Hh st HP. unfold try_except. specialize (Hb st HP).
  destruct (body st) as [[a|e] st1]; simpl in *; [by apply Hok | by apply Hh].
Qed.

Lemma hoare_try_finally {A} (P Q R : state → Prop) (body : M A) (final : M unit) :
  hoare P body (λ _, Q) → hoare Q final (λ _, R) →
  hoare P (try_finally body final) (λ _, R).
Proof.
  intros Hb Hf st HP. unfold try_finally. specialize (Hb st HP).
  destruct (body st) as [r st1]; simpl in *. specialize (Hf st1 Hb).
  by destruct (final st1) as [[[]|e] st2].
Qed.

Lemma hoare_weaken {A} (P P' : state → Prop) (m : M A) (Q Q' : res A → state → Prop) :
  hoare P' m Q' → (∀ st, P st → P' st) → (∀ r st, Q' r st → Q r st) → hoare P m Q.
Proof. intros Hm HP HQ st Hst. apply HQ, Hm, HP, Hst. Qed.

Lemma maintains_ret {A} (I : state → Prop) (a : A) : maintains I (mret a : M A).
Proof. by intros st. Qed.

Lemma maintains_raise {A} (I : state → Prop) (e : exn) : maintains I (raise e : M A).
Proof. by intros st. Qed.

Lemma maintains_lift {A} (I : state → Prop) (r : res A) : maintains I (lift r).
Proof. by intros st. Qed.

Lemma maintains_bind {A B} (I : state → Prop) (m : M A) (f : A → M B) :
  maintains I m → (∀ a, maintains I (f a)) → maintains I (m ≫= f).
Proof. intros Hm Hf. by apply (hoare_bind I m f (λ _, I)). Qed.

Lemma maintains_try_except {A} (I : state → Prop) (body : M A) (handler : exn → M A) :
  maintains I body → (∀ e, maintains I (handler e)) → maintains I (try_except body handler).
Proof. intros Hb Hh. by apply (hoare_try_except I body handler (λ _, I)). Qed.

Lemma maintains_try_finally {A} (I : state → Prop) (body : M A) (final : M unit) :
  maintains I body → maintains I final → maintains I (try_finally body final).
Proof. intros Hb Hf. by apply (hoare_try_finally I I I). Qed.

Lemma maintains_when (I : state → Prop) (b : bool) (m : M unit) :
  maintains I m → maintains I (when_ b m).
Proof. destruct b; [done | intros _; apply maintains_ret]. Qed.

Lemma maintains_path_exists (I : state → Prop) (path : string) :
  maintains I (path_exists path).
Proof. by intros st. Qed.

Lemma maintains_read_file (I : state → Prop) (path : string) : maintains I (read_file path).
Proof. intros st HI. unfold read_file. by destruct (files st !! path). Qed.

Lemma maintains_get_temp_file_path (I : state → Prop) : maintains I get_temp_file_path.
Proof. by intros st. Qed.

(** Steps that do not touch the files keep what holds of them, and steps
    that send no request keep the log of requests. *)

Lemma files_yield (F : gmap string bytes → Prop) (m : message) :
  maintains (on_files F) (yield m).
Proof. by intros st. Qed.

Lemma files_log_created (F : gmap string bytes → Prop) (path : string) :
  maintains (on_files F) (log_created path).
Proof. by intros st. Qed.

Lemma files_set_temp_file_path (F : gmap string bytes → Prop) (p : option string) :
  maintains (on_files F) (set_temp_file_path p).
Proof. by intros st. Qed.

Lemma files_http_get (F : gmap string bytes → Prop) (w : world) (u : string) :
  maintains (on_files F) (http_get w u).
Proof. intros st HF. unfold http_get. by destruct (requests_get w u). Qed.

Lemma sent_yield (log : list string) (m : message) : maintains (sent log) (yield m).
Proof. by intros st. Qed.

Lemma sent_set_files (log : list string) (f : gmap string bytes → gmap string bytes) :
  maintains (sent log) (set_files f).
Proof. by intros st. Qed.

Lemma sent_log_created (log : list string) (path : string) :
  maintains (sent log) (log_created path).
Proof. by intros st. Qed.

Lemma sent_set_temp_file_path (log : list string) (p : option string) :
  maintains (sent log) (set_temp_file_path p).
Proof. by intros st. Qed.

Create HintDb tidy.
#[global] Hint Resolve maintains_ret maintains_raise maintains_lift maintains_path_exists
  maintains_read_file maintains_get_temp_file_path files_yield files_log_created
  files_set_temp_file_path files_http_get sent_yield sent_set_files sent_log_created
  sent_set_temp_file_path : tidy.

Ltac maintains_step :=
  first
    [ apply maintains_bind; [| intros ?]
    | apply maintains_try_except; [| intros ?]
    | apply maintains_try_finally
    | apply maintains_when
    | solve [eauto with tidy]
    | match goal with
      | |- maintains _ (if ?b then _ else _) => destruct b
      | |- maintains _ (match ?x with _ => _ end) => destruct x
      end ].

(** ** The requests a tool sends *)

Lemma transcode_sends_nothing (log : list string) (w : world) (fn ext : pyval)
    (data : bytes) (fmt : string) :
  maintains (sent log) (ExtractAudioTool.transcode w fn ext data fmt).
Proof.
  unfold ExtractAudioTool.transcode, ExtractAudioTool.run_ffmpeg, write_temp_file,
    getsize, unlink.
  repeat maintains_step.
Qed.

Lemma audio_on_error_sends_nothing (log : list string) (e : exn) :
  maintains (sent log) (ExtractAudioTool.on_error e).
Proof. unfold ExtractAudioTool.on_error. repeat maintains_step. Qed.

Lemma probe_sends_nothing (log : list string) (w : world) (fn ext : pyval) (data : bytes) :
  maintains (sent log) (VideoInfoTool.probe w fn ext data).
Proof.
  unfold VideoInfoTool.probe, VideoInfoTool.on_error, write_temp_file, unlink.
  repeat maintains_step.
Qed.

Lemma try_except_fetched {A} (body : M A) (handler : exn → M A) (st : state)
    (log : list string) :
  fetched (body st).2 = log → (∀ e, maintains (sent log) (handler e)) →
  fetched (try_except body handler st).2 = log.
Proof.
  intros Hb Hh. unfold try_except. destruct (body st) as [[a|e] st1]; simpl in *; [done|].
  by apply (Hh e st1).
Qed.

Lemma bind_fetched {A B} (m : M A) (f : A → M B) (st : state) (log : list string) :
  fetched (m st).2 = log → (∀ a, maintains (sent log) (f a)) →
  fetched ((m ≫= f) st).2 = log.
Proof.
  intros Hm Hf. unfold mbind, M_bind. destruct (m st) as [[a|e] st1]; simpl in *; [|done].
  by apply (Hf a st1).
Qed.

Lemma http_get_fetched (w : world) (u : string) (st : state) :
  fetched (http_get w u st).2 = (fetched st ++ [u])%list.
Proof. unfold http_get. by destruct (requests_get w u). Qed.

Lemma pipeline_local_requests (w : world) (video : video_reference) (fmt u : string)
    (st : state) :
  transfer_method video = PStr "local_file" → url video = PStr u →
  startswith u "/files/" = true →
  fetched (ExtractAudioTool.pipeline w video fmt st).2
    = (fetched st ++ [base_address w +:+ u])%list.
Proof.
  intros Htm Hurl Hpre. unfold ExtractAudioTool.pipeline.
  apply try_except_fetched; [|intros; apply audio_on_error_sends_nothing].
  apply bind_fetched; [|intros; apply transcode_sends_nothing].
  unfold ExtractAudioTool.fetch. rewrite Htm, Hurl.
  change (eq_str (PStr "local_file") "remote_url") with false.
  change (eq_str (PStr "local_file") "local_file") with true. cbv iota.
  rewrite require_prefix_ok;
    [| by destruct u | by unfold startswith_any; cbn [existsb]; rewrite Hpre].
  rewrite bind_lift_ok.
  apply bind_fetched; [apply http_get_fetched | intros ?; repeat maintains_step].
Qed.

Lemma pipeline_remote_requests (w : world) (video : video_reference) (fmt u : string)
    (st : state) :
  transfer_method video = PStr "remote_url" → url video = PStr u →
  fetched (ExtractAudioTool.pipeline w video fmt st).2
    = if startswith_any u ["http://"; "https://"]
      then (fetched st ++ [u])%list else fetched st.
Proof.
  intros Htm Hurl. unfold ExtractAudioTool.pipeline.
  apply try_except_fetched; [|intros; apply audio_on_error_sends_nothing].
  apply bind_fetched; [|intros; apply transcode_sends_nothing].
  unfold ExtractAudioTool.fetch. rewrite Htm, Hurl.
  change (eq_str (PStr "remote_url") "remote_url") with true. cbv iota.
  destruct (startswith_any u ["http://"; "https://"]) eqn:Hpre.
  - rewrite require_prefix_ok; [| by destruct u | done].
    rewrite bind_lift_ok.
    apply bind_fetched; [apply http_get_fetched | intros ?; repeat maintains_step].
  - by rewrite require_prefix_bad.
Qed.

Lemma info_local_requests (w : world) (meta : pyval) (u : string) (st : state) :
  startswith u "/files/" = true →
  fetched (VideoInfoTool.fetch w meta (PStr "local_file") (PStr u) st).2
    = (fetched st ++ ["http://api:5001" +:+ u])%list.
Proof.
  intros Hpre. unfold VideoInfoTool.fetch.
  change (eq_str (PStr "local_file") "local_file") with true. cbv iota.
  simpl as_str. rewrite bind_lift_ok, Hpre. simpl negb. cbv iota.
  apply bind_fetched; [apply http_get_fetched | intros ?; repeat maintains_step].
Qed.

Lemma info_remote_requests (w : world) (meta file_url : pyval) (u : string) (st : state) :
  get_field meta "remote_url" (PStr "") = Ok (PStr u) →
  startswith u "http" = true →
  fetched (VideoInfoTool.fetch w meta (PStr "remote_url") file_url st).2
    = (fetched st ++ [u])%list.
Proof.
  intros Hfield Hpre. unfold VideoInfoTool.fetch.
  change (eq_str (PStr "remote_url") "local_file") with false.
  change (eq_str (PStr "remote_url") "remote_url") with true. cbv iota.
  rewrite Hfield, bind_lift_ok. simpl as_str. rewrite bind_lift_ok, Hpre.
  simpl negb. cbv iota.
  apply bind_fetched; [apply http_get_fetched | intros ?; repeat maintains_step].
Qed.

(** ** How the invocations unfold *)

Lemma pipeline_returns (w : world) (video : video_reference) (fmt : string) (st : state) :
  ∃ st', ExtractAudioTool.pipeline w video fmt st = (Ok (), st').
Proof.
  unfold ExtractAudioTool.pipeline, try_except.
  match goal with |- context [match ?b st with _ => _ end] => destruct (b st) as [[[]|e] st1] end.
  - eauto.
  - eexists. reflexivity.
Qed.

Lemma run_pipeline_raised (w : world) (video : video_reference) (fmt : string) :
  raised (run (ExtractAudioTool.pipeline w video fmt)) = None.
Proof.
  destruct (pipeline_returns w video fmt initial) as [st' Hst']. by eapply raised_run.
Qed.

Lemma invoke_audio_unfold (w : world) (tool_parameters : gmap string pyval)
    (video : video_reference) (s : string) :
  resolve (ExtractAudioTool.video_meta_of tool_parameters) = Ok video →
  as_str (default (PStr "mp3") (tool_parameters !! "audio_format")) "lower" = Ok s →
  ExtractAudioTool._invoke w tool_parameters =
    if bool_decide (lower w s ∈ ExtractAudioTool.valid_formats)
    then ExtractAudioTool.pipeline w video (lower w s)
    else yield (ExtractAudioTool.warning (lower w s));;
         ExtractAudioTool.pipeline w video "mp3".
Proof.
  intros Hres Hfmt. unfold ExtractAudioTool._invoke.
  rewrite Hres, Hfmt.
  destruct (bool_decide (lower w s ∈ ExtractAudioTool.valid_formats)) eqn:Hvalid.
  - unfold mbind, M_bind, res_bind, lift; simpl. rewrite Hvalid. reflexivity.
  - unfold mbind, M_bind, res_bind, lift; simpl. rewrite Hvalid. reflexivity.
Qed.

Lemma run_warned_pipeline (w : world) (video : video_reference) (fmt fmt' : string) :
  run (yield (ExtractAudioTool.warning fmt);; ExtractAudioTool.pipeline w video fmt') =
    warned fmt (run (ExtractAudioTool.pipeline w video fmt')).
Proof.
  unfold run, mbind, M_bind, yield. simpl.
  change {| emitted := [ExtractAudioTool.warning fmt]; files := ∅; created := [];
            fetched := []; temp_file_path := None |}
    with (preceded [ExtractAudioTool.warning fmt] initial).
  rewrite frames_pipeline.
  destruct (ExtractAudioTool.pipeline w video fmt' initial) as [r st]. reflexivity.
Qed.

Lemma run_invoke_audio (w : world) (tool_parameters : gmap string pyval)
    (video : video_reference) (s : string) :
  resolve (default PNone (tool_parameters !! "video")) = Ok video →
  as_str (default (PStr "mp3") (tool_parameters !! "audio_format")) "lower" = Ok s →
  run (ExtractAudioTool._invoke w tool_parameters) =
    if bool_decide (lower w s ∈ ExtractAudioTool.valid_formats)
    then run (ExtractAudioTool.pipeline w video (lower w s))
    else warned (lower w s) (run (ExtractAudioTool.pipeline w video "mp3")).
Proof.
  intros Hres Hfmt.
  rewrite (invoke_audio_unfold w tool_parameters video s);
    [| by rewrite resolve_video_meta_of | done].
  destruct (bool_decide _); [done | apply run_warned_pipeline].
Qed.

(** With an [audio_format] that is absent or a [str], Tool A hands every
    error to its handler. *)
Lemma invoke_audio_returns (w : world) (tool_parameters : gmap string pyval) (s : string) :
  as_str (default (PStr "mp3") (tool_parameters !! "audio_format")) "lower" = Ok s →
  raised (run (ExtractAudioTool._invoke w tool_parameters)) = None.
Proof.
  intros Hfmt.
  destruct (resolve_returns (default PNone (tool_parameters !! "video"))) as [video Hres].
  rewrite (run_invoke_audio w tool_parameters video s) by done.
  destruct (bool_decide _); [|unfold warned; simpl]; apply run_pipeline_raised.
Qed.

Lemma fetch_audio_unsupported (w : world) (tm fn ext u : pyval) :
  eq_str tm "remote_url" = false → eq_str tm "local_file" = false →
  ExtractAudioTool.fetch w tm fn ext u =
    raise (Exn ValueError ("不支持的 transfer_method: " +:+ py_str w tm)).
Proof. intros Hr Hl. unfold ExtractAudioTool.fetch. rewrite Hr, Hl. reflexivity. Qed.

Lemma pipeline_unsupported (w : world) (video : video_reference) (fmt : string) (st : state) :
  eq_str (transfer_method video) "remote_url" = false →
  eq_str (transfer_method video) "local_file" = false →
  ExtractAudioTool.pipeline w video fmt st =
    ExtractAudioTool.on_error
      (Exn ValueError ("不支持的 transfer_method: " +:+ py_str w (transfer_method video))) st.
Proof.
  intros Hr Hl. unfold ExtractAudioTool.pipeline.
  rewrite fetch_audio_unsupported by done. reflexivity.
Qed.

(** Tool A refuses a remote address without one of the two schemes before
    it sends anything. *)
Lemma pipeline_remote_refused (w : world) (video : video_reference) (fmt u : string)
    (st : state) :
  transfer_method video = PStr "remote_url" → url video = PStr u →
  startswith_any u ["http://"; "https://"] = false →
  ExtractAudioTool.pipeline w video fmt st =
    ExtractAudioTool.on_error (Exn ValueError "无效的远程 URL：缺少 http(s) 协议") st.
Proof.
  intros Htm Hurl Hpre. unfold ExtractAudioTool.pipeline, ExtractAudioTool.fetch.
  rewrite Htm, Hurl.
  change (eq_str (PStr "remote_url") "remote_url") with true. cbv iota.
  by rewrite require_prefix_bad.
Qed.

Lemma invoke_info_unfold (w : world) (tool_parameters : gmap string pyval)
    (video : video_reference) :
  default PNone (tool_parameters !! "video") ≠ PNone →
  resolve (default PNone (tool_parameters !! "video")) = Ok video →
  VideoInfoTool._invoke w tool_parameters =
    fetched ← VideoInfoTool.fetch w (default PNone (tool_parameters !! "video"))
                (transfer_method video) (url video);
    match fetched with
    | Some file_bytes => VideoInfoTool.probe w (filename video) (extension video) file_bytes
    | None => mret ()
    end.
Proof.
  intros Hsome Hres. unfold VideoInfoTool._invoke.
  destruct (default PNone (tool_parameters !! "video")); try done; by rewrite Hres.
Qed.

(** ** The temporary files left behind *)

Lemma within_insert (S : gset string) (path : string) (data : bytes) :
  path ∈ S → maintains (within S) (set_files (<[path := data]>)).
Proof.
  intros Hin st Hst. unfold within, on_files in *. simpl.
  rewrite dom_insert_L. set_solver.
Qed.

Lemma write_temp_file_files (w : world) (suffix : pyval) (data : bytes) :
  (∀ d, write_fault w d = None) →
  hoare no_files (write_temp_file w suffix data)
    (λ r st, match r with
             | Ok path => within {[path]} st ∧ ∃ s, named_temporary_file w s = Ok path
             | Raise _ => no_files st
             end).
Proof.
  intros Hwrite st Hst. unfold no_files, within, on_files in *.
  unfold write_temp_file, mbind, M_bind.
  destruct suffix; simpl; try done.
  - destruct (named_temporary_file w "") as [path|e] eqn:Hpath; simpl; [|done].
    rewrite Hwrite. simpl. split; [|by eexists].
    rewrite !dom_insert_L, Hst, dom_empty_L. set_solver.
  - destruct (named_temporary_file w s) as [path|e] eqn:Hpath; simpl; [|done].
    rewrite Hwrite. simpl. split; [|by eexists].
    rewrite !dom_insert_L, Hst, dom_empty_L. set_solver.
Qed.

Lemma unlink_both (in_path out_path : string) :
  hoare (within {[in_path; out_path]})
    (in_exists ← path_exists in_path;
     when_ in_exists (unlink in_path);;
     out_exists ← path_exists out_path;
     when_ out_exists (unlink out_path))
    (λ _, no_files).
Proof.
  intros st Hst. unfold within, no_files, on_files in *.
  unfold mbind, M_bind, path_exists, when_, unlink, set_files. simpl.
  apply dom_empty_iff_L.
  repeat (case_bool_decide; simpl);
    repeat match goal with
           | H : context [is_Some (_ !! _)] |- _ => rewrite <- elem_of_dom in H
           end;
    rewrite ?dom_delete_L in *; set_solver.
Qed.

Lemma run_ffmpeg_within (S : gset string) (w : world) (i o codec : string) :
  o ∈ S → maintains (within S) (ExtractAudioTool.run_ffmpeg w i o codec).
Proof.
  intros Hin. unfold ExtractAudioTool.run_ffmpeg.
  destruct (ffmpeg_run w i o codec) as [audio|e [part|]];
    repeat first [ apply within_insert; assumption | maintains_step ].
Qed.

Lemma transcode_tidy (w : world) (fn ext : pyval) (data : bytes) (fmt : string) :
  (∀ d, write_fault w d = None) →
  maintains no_files (ExtractAudioTool.transcode w fn ext data fmt).
Proof.
  intros Hwrite. unfold ExtractAudioTool.transcode.
  apply maintains_bind; [eauto with tidy | intros orig].
  eapply hoare_bind; [by apply write_temp_file_files | | by intros e st].
  intros in_path.
  set (out_path := path_join _ _).
  apply (hoare_try_finally _ (within {[in_path; out_path]}) no_files);
    [| apply unlink_both].
  eapply hoare_weaken with (P' := within {[in_path; out_path]})
                           (Q' := λ _, within {[in_path; out_path]}).
  - unfold getsize.
    repeat first [ apply run_ffmpeg_within; set_solver | maintains_step ].
  - intros st [Hst _]. unfold within, on_files in *. set_solver.
  - done.
Qed.

Lemma audio_on_error_tidy (F : gmap string bytes → Prop) (e : exn) :
  maintains (on_files F) (ExtractAudioTool.on_error e).
Proof. unfold ExtractAudioTool.on_error. repeat maintains_step. Qed.

Lemma invoke_audio_tidy (w : world) (tool_parameters : gmap string pyval) :
  (∀ d, write_fault w d = None) →
  maintains no_files (ExtractAudioTool._invoke w tool_parameters).
Proof.
  intros Hwrite.
  unfold ExtractAudioTool._invoke, ExtractAudioTool.pipeline, ExtractAudioTool.fetch.
  repeat first [ by apply transcode_tidy | apply audio_on_error_tidy | maintains_step ].
Qed.

Lemma probe_tidy (w : world) (fn ext : pyval) (data : bytes) :
  (∀ d, write_fault w d = None) →
  (∀ suffix, named_temporary_file w suffix ≠ Ok "") →
  maintains no_files (VideoInfoTool.probe w fn ext data).
Proof.
  intros Hwrite Hname. unfold VideoInfoTool.probe.
  apply maintains_bind; [eauto with tidy | intros _].
  set (kept := λ st : state,
         files st = ∅ ∨ ∃ path, path ≠ "" ∧ temp_file_path st = Some path
                                ∧ dom (files st) ⊆ {[path]}).
  apply (hoare_try_finally _ kept no_files).
  - apply (hoare_try_except _ _ _ (λ _, kept)); [| done |].
    + eapply hoare_bind; [by apply write_temp_file_files | | by intros e st; left].
      intros path.
      set (held := λ st : state, path ≠ "" ∧ temp_file_path st = Some path
                                 ∧ dom (files st) ⊆ {[path]}).
      eapply hoare_weaken with (P' := λ st, dom (files st) ⊆ {[path]} ∧ path ≠ "")
                               (Q' := λ _, held).
      * apply (hoare_bind _ _ _ (λ _, held)); [by intros st [? ?] | | done].
        intros _.
        assert (Hyield : ∀ m, maintains held (yield m)) by (by intros m st).
        repeat first [ apply Hyield | maintains_step ].
      * intros st [Hst [s Hs]]. split; [done|]. intros ->. by apply (Hname s).
      * intros r st Hheld. right. by exists path.
    + intros e. unfold VideoInfoTool.on_error.
      assert (Hyield : ∀ m, maintains kept (yield m)) by (by intros m st).
      repeat first [ apply Hyield | maintains_step ].
  - intros st Hkept. unfold no_files, on_files.
    unfold mbind, M_bind, get_temp_file_path, path_exists, when_, unlink, set_files. simpl.
    destruct Hkept as [Hempty | (path & Hne & -> & Hdom)].
    + destruct (temp_file_path st) as [p|]; [|done].
      destruct (String.eqb p ""); simpl; [done|].
      case_bool_decide; simpl; [|done]. rewrite Hempty. apply delete_empty.
    + apply String.eqb_neq in Hne. rewrite Hne. simpl.
      apply dom_empty_iff_L.
      case_bool_decide as Hthere; simpl.
      * rewrite dom_delete_L. set_solver.
      * rewrite <- elem_of_dom in Hthere. set_solver.
Qed.

Lemma invoke_info_tidy (w : world) (tool_parameters : gmap string pyval) :
  (∀ d, write_fault w d = None) →
  (∀ suffix, named_temporary_file w suffix ≠ Ok "") →
  maintains no_files (VideoInfoTool._invoke w tool_parameters).
Proof.
  intros Hwrite Hname. unfold VideoInfoTool._invoke, VideoInfoTool.fetch.
  repeat first [ by apply probe_tidy | maintains_step ].
Qed.

(** X1: when no write to a temporary file faults (and the temporary file
    has a name that is not empty), neither tool leaves a temporary file
    behind, whatever else goes wrong. *)
Lemma cleanup_without_write_fault (w : world) (tool_parameters : gmap string pyval) :
  (∀ d, write_fault w d = None) →
  (∀ suffix, named_temporary_file w suffix ≠ Ok "") →
  remaining (run (ExtractAudioTool._invoke w tool_parameters)) = ∅
  ∧ remaining (run (VideoInfoTool._invoke w tool_parameters)) = ∅.
Proof.
  intros Hwrite Hname. rewrite !remaining_run. split.
  - by apply (invoke_audio_tidy w tool_parameters Hwrite initial).
  - by apply (invoke_info_tidy w tool_parameters Hwrite Hname initial).
Qed.

(** ** The shape of the streams *)

Lemma shape_stream_dict (stream : gmap string pyval) :
  ∃ out, VideoInfoTool.shape_stream (PDict stream) = Ok (PDict out)
         ∧ stream_defaults stream out.
Proof.
  unfold VideoInfoTool.shape_stream, dict_get, mbind, res_bind.
  destruct (eq_str (default PNone (stream !! "codec_type")) "video") eqn:Hvideo;
    [|destruct (eq_str (default PNone (stream !! "codec_type")) "audio") eqn:Haudio];
    (eexists; split; [reflexivity|]); split; intros Htag Habsent;
    rewrite Htag in *; try discriminate.
  - rewrite !lookup_insert_ne by done. rewrite lookup_insert_eq. by rewrite Habsent.
  - rewrite !lookup_insert_ne by done. rewrite lookup_insert_eq. by rewrite Habsent.
Qed.

Lemma shape_streams_dicts (streams : list (gmap string pyval)) :
  ∃ outs, VideoInfoTool.shape_streams (PDict <$> streams) = Ok (PDict <$> outs)
          ∧ Forall2 stream_defaults streams outs.
Proof.
  induction streams as [|stream streams (outs & IH & Hall)].
  - exists []. by split.
  - destruct (shape_stream_dict stream) as (out & Hout & Hdef).
    exists (out :: outs). split; [|by constructor].
    rewrite !fmap_cons. cbn [VideoInfoTool.shape_streams].
    rewrite Hout. unfold mbind, res_bind. by rewrite IH.
Qed.

(** ** The claims *)

(** C1 (fails on the code): every error of an invocation is caught and
    turned into a text message and a JSON error message, and no exception
    reaches the caller.  Tool A lowers [audio_format] before its [try], so
    an [audio_format] that is not a [str] raises to the caller with nothing
    yielded; Tool B tests and fetches the URL before its [try], so a [url]
    of [None] and a refused connection both raise to the caller. *)
Theorem exceptions_escape (w : world) :
  run (ExtractAudioTool._invoke w {[ "audio_format" := PInt 5 ]}) =
    {| messages := []; raised := Some (no_attribute (PInt 5) "lower");
       remaining := ∅; made := []; requests := [] |}
  ∧ run (VideoInfoTool._invoke w {[ "video" := PDict {[ "url" := PNone ]} ]}) =
      {| messages := []; raised := Some (no_attribute PNone "startswith");
         remaining := ∅; made := []; requests := [] |}
  ∧ run (VideoInfoTool._invoke (with_requests (λ _, RequestFails connection_refused) w)
           {[ "video" := local_video ]}) =
      {| messages := []; raised := Some connection_refused;
         remaining := ∅; made := []; requests := ["http://api:5001/files/clip.mp4"] |}.
Proof. split_and!; reflexivity. Qed.

(** C2 (fails on the code): no temporary file of an invocation is left
    when it returns, on any path, a fault while writing the fetched bytes
    included.  With a disk that is full the write faults after the file was
    made: both tools answer with their error pair and leave the file. *)
Theorem write_fault_leaves_temp_file :
  run (ExtractAudioTool._invoke (with_write_fault disk_full calm)
         {[ "video" := PDict remote_fields ]}) =
    {| messages :=
         [TextMessage "❌ 处理视频文件时出错: [Errno 28] No space left on device";
          JsonMessage
            {[ "status" := PStr "error";
               "message" :=
                 PStr "❌ 处理视频文件时出错: [Errno 28] No space left on device" ]}];
       raised := None;
       remaining := {[ "/tmp/tmpk3v9.webm" := [] ]};
       made := ["/tmp/tmpk3v9.webm"];
       requests := ["http://host/v.webm?sig=1"] |}
  ∧ run (VideoInfoTool._invoke (with_write_fault disk_full calm)
           {[ "video" := local_video ]}) =
      {| messages :=
           [TextMessage "❌ 处理视频失败: [Errno 28] No space left on device";
            JsonMessage
              {[ "status" := PStr "error";
                 "message" := PStr "❌ 处理视频失败: [Errno 28] No space left on device" ]}];
         raised := None;
         remaining := {[ "/tmp/tmpk3v9.mp4" := [] ]};
         made := ["/tmp/tmpk3v9.mp4"];
         requests := ["http://api:5001/files/clip.mp4"] |}.
Proof. split; vm_compute; reflexivity. Qed.

(** C3: the codec lookup of Tool A sends mp3 to libmp3lame, aac to aac, wav
    to pcm_s16le, ogg to libvorbis, flac to flac, and every other string to
    the stream-copy codec copy. *)
Theorem codec_for_every_format (audio_format : string) :
  ExtractAudioTool._get_codec_for_format audio_format =
    if decide (audio_format = "mp3") then "libmp3lame"
    else if decide (audio_format = "aac") then "aac"
    else if decide (audio_format = "wav") then "pcm_s16le"
    else if decide (audio_format = "ogg") then "libvorbis"
    else if decide (audio_format = "flac") then "flac"
    else "copy".
Proof.
  unfold ExtractAudioTool._get_codec_for_format, ExtractAudioTool.codecs.
  repeat case_decide; subst; try reflexivity.
  rewrite !lookup_insert_ne by congruence.
  rewrite lookup_singleton_ne by congruence.
  reflexivity.
Qed.

(** C4 (fails on the code): with transfer method remote_url both tools
    refuse, before any request, every URL that does not start with http://
    or https://.  Tool B only tests for the four letters http: the address
    httpx://media/v.mp4 starts with neither scheme and Tool B sends the GET
    to it, whatever the world. *)
Theorem lax_remote_prefix (w : world) :
  startswith_any "httpx://media/v.mp4" ["http://"; "https://"] = false
  ∧ requests (run (VideoInfoTool._invoke w {[ "video" := lax_video ]}))
      = ["httpx://media/v.mp4"].
Proof.
  split; [reflexivity|].
  rewrite (invoke_info_unfold w _ lax_reference), requests_run; [|done|reflexivity].
  apply bind_fetched.
  - by apply (info_remote_requests w lax_video (PStr "") "httpx://media/v.mp4" initial).
  - intros [data|]; [apply probe_sends_nothing | apply maintains_ret].
Qed.

(** C5 (amended): with transfer method local_file and a url that starts
    with /files/, Tool A sends its one GET to the base address of the
    environment variable DIFY_BASE_URL (http://api:5001 when it is unset)
    followed by the url; Tool B sends its one GET to the fixed address
    http://api:5001 followed by the url and does not read the
    environment. *)
Theorem local_file_base_address (w : world) (tool_parameters : gmap string pyval)
    (video : video_reference) (u fmt : string) :
  resolve (default PNone (tool_parameters !! "video")) = Ok video →
  transfer_method video = PStr "local_file" →
  url video = PStr u →
  startswith u "/files/" = true →
  as_str (default (PStr "mp3") (tool_parameters !! "audio_format")) "lower" = Ok fmt →
  requests (run (ExtractAudioTool._invoke w tool_parameters)) = [base_address w +:+ u]
  ∧ requests (run (VideoInfoTool._invoke w tool_parameters)) = ["http://api:5001" +:+ u].
Proof.
  intros Hres Htm Hurl Hpre Hfmt. split.
  - rewrite (invoke_audio_unfold w tool_parameters video fmt), requests_run;
      [| by rewrite resolve_video_meta_of | done].
    destruct (bool_decide _).
    + by rewrite (pipeline_local_requests w video _ u).
    + unfold mbind, M_bind, yield. simpl.
      by rewrite (pipeline_local_requests w video _ u).
  - rewrite (invoke_info_unfold w tool_parameters video), requests_run; [| |done].
    2:{ intros Hnone. rewrite Hnone in Hres. inversion Hres; subst. simpl in Hurl.
        inversion Hurl; subst. discriminate Hpre. }
    apply bind_fetched.
    + rewrite Htm, Hurl. by apply info_local_requests.
    + intros [data|]; [apply probe_sends_nothing | apply maintains_ret].
Qed.

Lemma local_file_base_address_witness :
  resolve (default PNone (({[ "video" := local_video ]} : gmap string pyval) !! "video"))
    = Ok local_reference
  ∧ startswith "/files/clip.mp4" "/files/" = true
  ∧ requests (run (ExtractAudioTool._invoke deployed {[ "video" := local_video ]}))
      = [base_address deployed +:+ "/files/clip.mp4"]
  ∧ requests (run (VideoInfoTool._invoke deployed {[ "video" := local_video ]}))
      = ["http://api:5001" +:+ "/files/clip.mp4"].
Proof.
  split; [reflexivity|]. split; [reflexivity|].
  apply (local_file_base_address deployed {[ "video" := local_video ]} local_reference
           "/files/clip.mp4" "mp3"); reflexivity.
Defined.

(** C5 as worded fails for Tool B: with DIFY_BASE_URL set to
    http://dify:8080 it still fetches from http://api:5001. *)
Lemma video_info_ignores_environment :
  requests (run (VideoInfoTool._invoke deployed {[ "video" := local_video ]}))
    = ["http://api:5001/files/clip.mp4"]
  ∧ base_address deployed = "http://dify:8080"
  ∧ ¬ base_from_environment VideoInfoTool._invoke.
Proof.
  split; [reflexivity|]. split; [reflexivity|].
  intros Hclaim.
  specialize (Hclaim deployed {[ "video" := local_video ]} local_reference "/files/clip.mp4"
                eq_refl eq_refl eq_refl eq_refl eq_refl).
  discriminate Hclaim.
Qed.

(** C6: in Tool A an [audio_format] string whose lowercase form is not one
    of mp3, aac, wav, ogg, flac makes the tool yield the warning text
    message first and then go on exactly as with mp3, without failing; a
    string whose lowercase form is one of them is used in that lowercase
    form, without a warning; two strings with the same lowercase form give
    the same invocation, so that the letter case of the parameter does not
    matter. *)
Theorem audio_format_policy (w : world) (tool_parameters : gmap string pyval)
    (video : video_reference) (s : string) :
  resolve (default PNone (tool_parameters !! "video")) = Ok video →
  tool_parameters !! "audio_format" = Some (PStr s) →
  let o := run (ExtractAudioTool._invoke w tool_parameters) in
  let mp3 := run (ExtractAudioTool.pipeline w video "mp3") in
  raised o = None
  ∧ (if bool_decide (lower w s ∈ ["mp3"; "aac"; "wav"; "ogg"; "flac"])
     then o = run (ExtractAudioTool.pipeline w video (lower w s))
     else o = {| messages := TextMessage ("⚠️ 不支持的音频格式: " +:+ lower w s
                                            +:+ "，将自动转为 'mp3'") :: messages mp3;
                 raised := raised mp3; remaining := remaining mp3;
                 made := made mp3; requests := requests mp3 |})
  ∧ ∀ s', lower w s' = lower w s →
      run (ExtractAudioTool._invoke w (<["audio_format" := PStr s']> tool_parameters)) = o.
Proof.
  intros Hres Hfmt o mp3.
  assert (Ho : o = if bool_decide (lower w s ∈ ExtractAudioTool.valid_formats)
                   then run (ExtractAudioTool.pipeline w video (lower w s))
                   else warned (lower w s) mp3).
  { subst o. apply run_invoke_audio; [done | by rewrite Hfmt]. }
  split_and!.
  - subst o. apply (invoke_audio_returns w tool_parameters s). by rewrite Hfmt.
  - rewrite Ho. unfold ExtractAudioTool.valid_formats. by destruct (bool_decide _).
  - intros s' Hsame. rewrite Ho.
    rewrite (run_invoke_audio w (<["audio_format" := PStr s']> tool_parameters) video s').
    + by rewrite Hsame.
    + by rewrite lookup_insert_ne.
    + by rewrite lookup_insert_eq.
Qed.

Lemma audio_format_policy_witness :
  resolve (default PNone (opus_parameters !! "video")) = Ok remote_reference
  ∧ opus_parameters !! "audio_format" = Some (PStr "Opus")
  ∧ loud_parameters !! "audio_format" = Some (PStr "AAC")
  ∧ raised (run (ExtractAudioTool._invoke calm opus_parameters)) = None
  ∧ messages (run (ExtractAudioTool._invoke calm opus_parameters))
      = TextMessage "⚠️ 不支持的音频格式: opus，将自动转为 'mp3'"
          :: messages (run (ExtractAudioTool.pipeline calm remote_reference "mp3"))
  ∧ run (ExtractAudioTool._invoke calm loud_parameters)
      = run (ExtractAudioTool.pipeline calm remote_reference "aac")
  ∧ run (ExtractAudioTool._invoke calm (<["audio_format" := PStr "aAc"]> loud_parameters))
      = run (ExtractAudioTool._invoke calm loud_parameters).
Proof.
  assert (Hres : resolve (default PNone (opus_parameters !! "video")) = Ok remote_reference)
    by reflexivity.
  assert (Hopus : opus_parameters !! "audio_format" = Some (PStr "Opus")) by reflexivity.
  assert (Hloud : loud_parameters !! "audio_format" = Some (PStr "AAC")) by reflexivity.
  split; [exact Hres|]. split; [exact Hopus|]. split; [exact Hloud|].
  destruct (audio_format_policy calm opus_parameters remote_reference "Opus" Hres Hopus)
    as (Hraised & Hwarned & _).
  destruct (audio_format_policy calm loud_parameters remote_reference "AAC" Hres Hloud)
    as (_ & Hused & Hsame).
  split; [exact Hraised|]. split; [by rewrite Hwarned|].
  split; [exact Hused | exact (Hsame "aAc" eq_refl)].
Defined.

(** C7: a transfer method other than local_file and remote_url.  Tool B
    ends with the error pair that names the method.  Tool A sends no
    request and makes no temporary file; with an [audio_format] that is
    absent or a [str] it ends with the error pair that names the method,
    after the warning about the format if there is one; with any other
    [audio_format] the exception of line 28 leaves it before it looks at
    the transfer method, and no error is yielded. *)
Theorem unsupported_transfer_method (w : world) (tool_parameters : gmap string pyval)
    (video : video_reference) :
  resolve (default PNone (tool_parameters !! "video")) = Ok video →
  transfer_method video ≠ PStr "local_file" →
  transfer_method video ≠ PStr "remote_url" →
  let a := run (ExtractAudioTool._invoke w tool_parameters) in
  let b := run (VideoInfoTool._invoke w tool_parameters) in
  let error_msg := "❌ 处理视频文件时出错: 不支持的 transfer_method: "
                     +:+ py_str w (transfer_method video) in
  messages b =
    [TextMessage "❌ 不支持的传输方式";
     JsonMessage {[ "status" := PStr "error";
                    "message" := PStr ("Unsupported transfer method: "
                                         +:+ py_str w (transfer_method video)) ]}]
  ∧ raised b = None ∧ requests b = [] ∧ made b = []
  ∧ requests a = [] ∧ made a = []
  ∧ match as_str (default (PStr "mp3") (tool_parameters !! "audio_format")) "lower" with
    | Ok fmt =>
        raised a = None
        ∧ messages a =
            ((if bool_decide (lower w fmt ∈ ["mp3"; "aac"; "wav"; "ogg"; "flac"]) then []
              else [TextMessage ("⚠️ 不支持的音频格式: " +:+ lower w fmt
                                   +:+ "，将自动转为 'mp3'")]) ++
             [TextMessage error_msg;
              JsonMessage {[ "status" := PStr "error"; "message" := PStr error_msg ]}])%list
    | Raise e => raised a = Some e ∧ messages a = []
    end.
Proof.
  intros Hres Hlocal Hremote a b error_msg.
  assert (Hmeta : default PNone (tool_parameters !! "video") ≠ PNone).
  { intros Hnone. rewrite Hnone in Hres. apply Hlocal. by inversion Hres. }
  apply eq_str_false in Hlocal, Hremote.
  assert (Hb : b =
    {| messages :=
         [TextMessage "❌ 不支持的传输方式";
          JsonMessage {[ "status" := PStr "error";
                         "message" := PStr ("Unsupported transfer method: "
                                              +:+ py_str w (transfer_method video)) ]}];
       raised := None; remaining := ∅; made := []; requests := [] |}).
  { subst b. rewrite (invoke_info_unfold w tool_parameters video) by done.
    unfold run, mbind, M_bind, VideoInfoTool.fetch.
    by rewrite Hlocal, Hremote. }
  rewrite Hb. simpl. do 4 (split; [reflexivity|]).
  destruct (as_str (default (PStr "mp3") (tool_parameters !! "audio_format")) "lower")
    as [fmt|e] eqn:Hfmt.
  - assert (Ha : a =
      {| messages := (if bool_decide (lower w fmt ∈ ExtractAudioTool.valid_formats) then []
                      else [ExtractAudioTool.warning (lower w fmt)]) ++
                     [TextMessage error_msg;
                      JsonMessage {[ "status" := PStr "error";
                                     "message" := PStr error_msg ]}];
         raised := None; remaining := ∅; made := []; requests := [] |}).
    { subst a. rewrite (run_invoke_audio w tool_parameters video fmt) by done.
      unfold run. rewrite !pipeline_unsupported by done.
      by destruct (bool_decide _). }
    rewrite Ha. simpl. by split_and!.
  - assert (Ha : a =
      {| messages := []; raised := Some e; remaining := ∅; made := []; requests := [] |}).
    { subst a. unfold ExtractAudioTool._invoke.
      rewrite resolve_video_meta_of, Hres, Hfmt. reflexivity. }
    rewrite Ha. simpl. by split_and!.
Qed.

Lemma unsupported_transfer_method_witness :
  resolve (default PNone (ftp_number_parameters !! "video")) = Ok ftp_reference
  ∧ messages (run (VideoInfoTool._invoke calm ftp_number_parameters)) =
      [TextMessage "❌ 不支持的传输方式";
       JsonMessage {[ "status" := PStr "error";
                      "message" := PStr "Unsupported transfer method: ftp" ]}]
  ∧ raised (run (ExtractAudioTool._invoke calm ftp_number_parameters))
      = Some (Exn AttributeError "'int' object has no attribute 'lower'")
  ∧ messages (run (ExtractAudioTool._invoke calm ftp_number_parameters)) = []
  ∧ requests (run (ExtractAudioTool._invoke calm ftp_number_parameters)) = []
  ∧ made (run (ExtractAudioTool._invoke calm ftp_number_parameters)) = []
  ∧ raised (run (ExtractAudioTool._invoke calm ftp_parameters)) = None
  ∧ messages (run (ExtractAudioTool._invoke calm ftp_parameters)) =
      [TextMessage "❌ 处理视频文件时出错: 不支持的 transfer_method: ftp";
       JsonMessage
         {[ "status" := PStr "error";
            "message" := PStr "❌ 处理视频文件时出错: 不支持的 transfer_method: ftp" ]}].
Proof.
  assert (Hres : resolve (default PNone (ftp_number_parameters !! "video"))
                 = Ok ftp_reference) by reflexivity.
  assert (Hres' : resolve (default PNone (ftp_parameters !! "video")) = Ok ftp_reference)
    by reflexivity.
  split; [exact Hres|].
  destruct (unsupported_transfer_method calm ftp_number_parameters ftp_reference Hres)
    as (Hinfo & _ & _ & _ & Hrequests & Hmade & Hraised & Hmessages);
    [discriminate | discriminate |].
  destruct (unsupported_transfer_method calm ftp_parameters ftp_reference Hres')
    as (_ & _ & _ & _ & _ & _ & Hreturns & Herror);
    [discriminate | discriminate |].
  split; [exact Hinfo|]. split; [exact Hraised|]. split; [exact Hmessages|].
  split; [exact Hrequests|]. split; [exact Hmade|]. split; [exact Hreturns | exact Herror].
Defined.

(** C8: when the probe result is a JSON object whose format (if present)
    is an object whose duration, size and bit_rate (if present) convert, and
    whose streams (if present) are a list of objects, the reshaping
    succeeds, and each optional field that is absent gets its default:
    format_name unknown, duration 0.0, size 0, bit_rate 0, and per stream
    display_aspect_ratio unknown (video) and channel_layout unknown
    (audio). *)
Theorem reshape_defaults (w : world) (filename : pyval) (info fmt : gmap string pyval)
    (streams : list (gmap string pyval)) :
  default (PDict ∅) (info !! "format") = PDict fmt →
  default (PList []) (info !! "streams") = PList (PDict <$> streams) →
  (∀ v, fmt !! "duration" = Some v → is_Ok (py_float w v)) →
  (∀ v, fmt !! "size" = Some v → is_Ok (py_int w v)) →
  (∀ v, fmt !! "bit_rate" = Some v → is_Ok (py_int w v)) →
  ∃ (out_fmt : gmap string pyval) (out_streams : list (gmap string pyval)),
    VideoInfoTool.reshape w filename (PDict info)
      = Ok {[ "status" := PStr "success"; "filename" := filename;
              "format" := PDict out_fmt; "streams" := PList (PDict <$> out_streams) ]}
    ∧ (fmt !! "format_name" = None → out_fmt !! "format_name" = Some (PStr "unknown"))
    ∧ (fmt !! "duration" = None → out_fmt !! "duration" = Some (PFloat (FNum 0)))
    ∧ (fmt !! "size" = None → out_fmt !! "size" = Some (PInt 0))
    ∧ (fmt !! "bit_rate" = None → out_fmt !! "bit_rate" = Some (PInt 0))
    ∧ Forall2 stream_defaults streams out_streams.
Proof.
  intros Hformat Hstreams Hduration Hsize Hrate.
  assert (Hd : ∃ d, py_float w (default (PInt 0) (fmt !! "duration")) = Ok d
                    ∧ (fmt !! "duration" = None → d = FNum 0)).
  { destruct (fmt !! "duration") as [v|] eqn:Hv.
    - destruct (Hduration v eq_refl) as [d Hd]. exists d. by split.
    - exists (FNum 0). by split. }
  assert (Hs : ∃ z, py_int w (default (PInt 0) (fmt !! "size")) = Ok z
                    ∧ (fmt !! "size" = None → z = 0%Z)).
  { destruct (fmt !! "size") as [v|] eqn:Hv.
    - destruct (Hsize v eq_refl) as [z Hz]. exists z. by split.
    - exists 0%Z. by split. }
  assert (Hr : ∃ z, py_int w (default (PInt 0) (fmt !! "bit_rate")) = Ok z
                    ∧ (fmt !! "bit_rate" = None → z = 0%Z)).
  { destruct (fmt !! "bit_rate") as [v|] eqn:Hv.
    - destruct (Hrate v eq_refl) as [z Hz]. exists z. by split.
    - exists 0%Z. by split. }
  destruct Hd as (d & Hd & Hd0), Hs as (sz & Hs & Hs0), Hr as (br & Hr & Hr0).
  destruct (shape_streams_dicts streams) as (outs & Houts & Hall).
  eexists _, outs. split_and!; [| | | | |exact Hall].
  - unfold VideoInfoTool.reshape, VideoInfoTool.format_section, dict_get.
    rewrite Hformat, Hstreams. unfold mbind, res_bind.
    rewrite Hd, Hs, Hr. simpl py_iter. cbv iota. rewrite Houts. reflexivity.
  - intros Habsent. rewrite lookup_insert_eq. by rewrite Habsent.
  - intros Habsent. rewrite lookup_insert_ne by done. rewrite lookup_insert_eq.
    by rewrite (Hd0 Habsent).
  - intros Habsent. rewrite !lookup_insert_ne by done. rewrite lookup_insert_eq.
    by rewrite (Hs0 Habsent).
  - intros Habsent. rewrite !lookup_insert_ne by done. rewrite lookup_singleton_eq.
    by rewrite (Hr0 Habsent).
Qed.

Lemma reshape_defaults_witness :
  default (PDict ∅) (sparse_info !! "format") = PDict sparse_format
  ∧ default (PList []) (sparse_info !! "streams") = PList (PDict <$> sparse_streams)
  ∧ is_Ok (py_float calm (PStr "12"))
  ∧ ∃ (out_fmt : gmap string pyval) (out_streams : list (gmap string pyval)),
      VideoInfoTool.reshape calm (PStr "clip.mp4") (PDict sparse_info)
        = Ok {[ "status" := PStr "success"; "filename" := PStr "clip.mp4";
                "format" := PDict out_fmt; "streams" := PList (PDict <$> out_streams) ]}
      ∧ (sparse_format !! "format_name" = None →
         out_fmt !! "format_name" = Some (PStr "unknown"))
      ∧ (sparse_format !! "duration" = None → out_fmt !! "duration" = Some (PFloat (FNum 0)))
      ∧ (sparse_format !! "size" = None → out_fmt !! "size" = Some (PInt 0))
      ∧ (sparse_format !! "bit_rate" = None → out_fmt !! "bit_rate" = Some (PInt 0))
      ∧ Forall2 stream_defaults sparse_streams out_streams.
Proof.
  split; [reflexivity|]. split; [reflexivity|]. split; [by eexists|].
  apply (reshape_defaults calm (PStr "clip.mp4") sparse_info sparse_format sparse_streams);
    [reflexivity | reflexivity | | |].
  - intros v Hv. vm_compute in Hv. injection Hv as <-. by eexists.
  - intros v Hv. vm_compute in Hv. discriminate Hv.
  - intros v Hv. vm_compute in Hv. discriminate Hv.
Defined.

(** C9: on a video reference that is a mapping or an object, [get_field]
    returns the named field when it is present and the default otherwise,
    and never raises; the resolver built from it gives each of
    transfer_method, filename, extension, url and mime_type its value or its
    default: local_file, video.mp4, .mp4, the empty string, video/mp4. *)
Theorem resolver_total (video : pyval) (fields : gmap string pyval)
    (field : string) (dflt : pyval) :
  fields_of video = Some fields →
  get_field video field dflt = Ok (default dflt (fields !! field))
  ∧ resolve video =
      Ok {| transfer_method := default (PStr "local_file") (fields !! "transfer_method");
            filename := default (PStr "video.mp4") (fields !! "filename");
            extension := default (PStr ".mp4") (fields !! "extension");
            url := default (PStr "") (fields !! "url");
            mime_type := default (PStr "video/mp4") (fields !! "mime_type") |}.
Proof.
  intros Hfields.
  assert (Hget : ∀ f d, get_field video f d = Ok (default d (fields !! f))).
  { intros f d. destruct video; simplify_eq/=; try done.
    unfold py_getattr_default, py_getattr.
    destruct (fields !! f); done. }
  split; [apply Hget|].
  unfold resolve. rewrite !Hget. reflexivity.
Qed.

Lemma resolver_total_witness :
  fields_of upload = Some {[ "filename" := PStr "a.mov" ]}
  ∧ get_field upload "filename" (PStr "video.mp4") = Ok (PStr "a.mov")
  ∧ get_field upload "url" (PStr "") = Ok (PStr "")
  ∧ resolve upload =
      Ok {| transfer_method := PStr "local_file"; filename := PStr "a.mov";
            extension := PStr ".mp4"; url := PStr ""; mime_type := PStr "video/mp4" |}.
Proof.
  split; [reflexivity|].
  split; [exact (proj1 (resolver_total upload {[ "filename" := PStr "a.mov" ]}
                          "filename" (PStr "video.mp4") eq_refl))|].
  split; [exact (proj1 (resolver_total upload {[ "filename" := PStr "a.mov" ]}
                          "url" (PStr "") eq_refl))|].
  exact (proj2 (resolver_total upload {[ "filename" := PStr "a.mov" ]}
                  "url" (PStr "") eq_refl)).
Defined.

(** C10 (amended): in the remote_url path of Tool A, after a successful
    fetch, the extension is always the one of the URL's path (.mp4 when it
    has none), whatever the caller supplied; a filename of the caller that
    is not empty is kept and used for the output, and an empty one is
    replaced by the last component of the URL's path. *)
Theorem remote_fetch_naming (w : world) (video : video_reference) (u : string)
    (content : bytes) (fmt : string) (st : state) :
  transfer_method video = PStr "remote_url" →
  url video = PStr u →
  startswith_any u ["http://"; "https://"] = true →
  requests_get w u = Response 200 content →
  let fn := if truthy (filename video) then filename video else PStr (filename_from_url u) in
  let ext := PStr (extension_from_url u) in
  ExtractAudioTool.fetch w (transfer_method video) (filename video) (extension video)
    (url video) st = (Ok (content, fn, ext), logged u st)
  ∧ ExtractAudioTool.pipeline w video fmt st =
      try_except (ExtractAudioTool.transcode w fn ext content fmt)
        ExtractAudioTool.on_error (logged u st).
Proof.
  intros Htm Hurl Hpre Hget fn ext.
  assert (Hfetch : ExtractAudioTool.fetch w (transfer_method video) (filename video)
            (extension video) (url video) st = (Ok (content, fn, ext), logged u st)).
  { unfold ExtractAudioTool.fetch. rewrite Htm, Hurl.
    change (eq_str (PStr "remote_url") "remote_url") with true. cbv iota.
    rewrite require_prefix_ok; [| by destruct u | done].
    rewrite bind_lift_ok. unfold mbind, M_bind, http_get. rewrite Hget. simpl.
    subst fn ext. unfold extension_from_url, filename_from_url.
    by destruct (truthy (filename video)). }
  split; [done|].
  unfold ExtractAudioTool.pipeline, try_except, mbind, M_bind. by rewrite Hfetch.
Qed.

Lemma remote_fetch_naming_witness :
  startswith_any "http://host/v.webm?sig=1" ["http://"; "https://"] = true
  ∧ requests_get calm "http://host/v.webm?sig=1" = Response 200 sample_bytes
  ∧ ExtractAudioTool.fetch calm (PStr "remote_url") (PStr "clip.mkv") (PStr ".mkv")
      (PStr "http://host/v.webm?sig=1") initial
      = (Ok (sample_bytes, PStr "clip.mkv", PStr ".webm"),
         logged "http://host/v.webm?sig=1" initial).
Proof.
  split; [reflexivity|]. split; [reflexivity|].
  exact (proj1 (remote_fetch_naming calm remote_reference "http://host/v.webm?sig=1"
                  sample_bytes "mp3" initial eq_refl eq_refl eq_refl eq_refl)).
Defined.

(** C10 as worded fails: the caller names the video clip.mkv with
    extension .mkv, the URL ends in v.webm, and the fetch goes on with the
    extension .webm. *)
Lemma url_extension_overrides_caller :
  (ExtractAudioTool.fetch calm (PStr "remote_url") (PStr "clip.mkv") (PStr ".mkv")
     (PStr "http://host/v.webm?sig=1") initial).1
    = Ok (sample_bytes, PStr "clip.mkv", PStr ".webm")
  ∧ ¬ caller_naming_wins.
Proof.
  split; [reflexivity|].
  intros Hclaim.
  assert (Hres : resolve (PDict remote_fields) = Ok remote_reference) by reflexivity.
  destruct (Hclaim calm remote_fields remote_reference "http://host/v.webm?sig=1"
              sample_bytes initial Hres eq_refl eq_refl eq_refl eq_refl)
    as (fn & ext & st' & Hfetch & Hkeep & _).
  destruct Hkeep as [_ Hext]; [by eexists|].
  vm_compute in Hfetch. vm_compute in Hext. congruence.
Qed.

(** ** Further properties of the two tools *)

Lemma run_invoke_audio_effective (w : world) (tool_parameters : gmap string pyval)
    (video : video_reference) (s : string) :
  resolve (default PNone (tool_parameters !! "video")) = Ok video →
  as_str (default (PStr "mp3") (tool_parameters !! "audio_format")) "lower" = Ok s →
  run (ExtractAudioTool._invoke w tool_parameters) =
    maybe_warned w s (run (ExtractAudioTool.pipeline w video (effective_format w s))).
Proof.
  intros Hres Hfmt. rewrite (run_invoke_audio w tool_parameters video s) by done.
  unfold maybe_warned, effective_format. by destruct (bool_decide _).
Qed.

Lemma run_on_error_audio (e : exn) (st : state) :
  ExtractAudioTool.on_error e st =
    (Ok (), {| emitted := emitted st ++ audio_error (exn_text e); files := files st;
               created := created st; fetched := fetched st;
               temp_file_path := temp_file_path st |}).
Proof.
  unfold ExtractAudioTool.on_error, mbind, M_bind, yield. simpl.
  by rewrite <- (assoc_L (++)).
Qed.

(** X2: the only exception that leaves Tool A is the one of lowering an
    [audio_format] that is not a [str]; it leaves before anything is
    yielded, fetched or written.  With an [audio_format] that is absent or
    a [str] no exception leaves it, whatever the world does. *)
Theorem audio_raises_only_on_format (w : world) (tool_parameters : gmap string pyval) :
  raised (run (ExtractAudioTool._invoke w tool_parameters)) =
    match as_str (default (PStr "mp3") (tool_parameters !! "audio_format")) "lower" with
    | Ok _ => None
    | Raise e => Some e
    end
  ∧ (raised (run (ExtractAudioTool._invoke w tool_parameters)) ≠ None →
     run (ExtractAudioTool._invoke w tool_parameters) =
       {| messages := [];
          raised := Some (no_method (default (PStr "mp3") (tool_parameters !! "audio_format"))
                            "lower");
          remaining := ∅; made := []; requests := [] |}).
Proof.
  destruct (resolve_returns (ExtractAudioTool.video_meta_of tool_parameters)) as [video Hres].
  destruct (as_str (default (PStr "mp3") (tool_parameters !! "audio_format")) "lower")
    as [s|e] eqn:Hfmt.
  - rewrite (invoke_audio_returns w tool_parameters s Hfmt). by split.
  - assert (Hrun : run (ExtractAudioTool._invoke w tool_parameters) =
      {| messages := []; raised := Some e; remaining := ∅; made := []; requests := [] |}).
    { unfold ExtractAudioTool._invoke. rewrite Hres, Hfmt. reflexivity. }
    rewrite Hrun. split; [done|]. intros _.
    destruct (default (PStr "mp3") (tool_parameters !! "audio_format")); simpl in Hfmt;
      by simplify_eq.
Qed.

Lemma run_pipeline_error (w : world) (video : video_reference) (fmt : string)
    (e : exn) (st : state) :
  ExtractAudioTool.pipeline w video fmt initial = ExtractAudioTool.on_error e st →
  run (ExtractAudioTool.pipeline w video fmt) =
    {| messages := emitted st ++ audio_error (exn_text e); raised := None;
       remaining := files st; made := created st; requests := fetched st |}.
Proof. intros Hrun. unfold run. by rewrite Hrun, run_on_error_audio. Qed.

Lemma pipeline_local_refused (w : world) (video : video_reference) (fmt u : string)
    (st : state) :
  transfer_method video = PStr "local_file" → url video = PStr u →
  startswith u "/files/" = false →
  ExtractAudioTool.pipeline w video fmt st =
    ExtractAudioTool.on_error (Exn ValueError "无效的本地文件 URL") st.
Proof.
  intros Htm Hurl Hpre. unfold ExtractAudioTool.pipeline, ExtractAudioTool.fetch.
  rewrite Htm, Hurl.
  change (eq_str (PStr "local_file") "remote_url") with false.
  change (eq_str (PStr "local_file") "local_file") with true. cbv iota.
  rewrite require_prefix_bad; [done|].
  unfold startswith_any. cbn [existsb]. by rewrite Hpre.
Qed.

Lemma pipeline_local_not_200 (w : world) (video : video_reference) (fmt u : string)
    (code : Z) (body : bytes) (st : state) :
  transfer_method video = PStr "local_file" → url video = PStr u →
  startswith u "/files/" = true →
  requests_get w (base_address w +:+ u) = Response code body → code ≠ 200%Z →
  ExtractAudioTool.pipeline w video fmt st =
    ExtractAudioTool.on_error (Exn ValueError ("无法下载本地文件：" +:+ u))
      (logged (base_address w +:+ u) st).
Proof.
  intros Htm Hurl Hpre Hget Hcode. unfold ExtractAudioTool.pipeline, ExtractAudioTool.fetch.
  rewrite Htm, Hurl.
  change (eq_str (PStr "local_file") "remote_url") with false.
  change (eq_str (PStr "local_file") "local_file") with true. cbv iota.
  rewrite require_prefix_ok;
    [| by destruct u | by unfold startswith_any; cbn [existsb]; rewrite Hpre].
  rewrite bind_lift_ok. fold (base_address w).
  unfold try_except, mbind, M_bind, http_get. rewrite Hget. cbn [fst snd].
  apply Z.eqb_neq in Hcode. by rewrite Hcode.
Qed.

Lemma pipeline_remote_not_200 (w : world) (video : video_reference) (fmt u : string)
    (code : Z) (body : bytes) (st : state) :
  transfer_method video = PStr "remote_url" → url video = PStr u →
  startswith_any u ["http://"; "https://"] = true →
  requests_get w u = Response code body → code ≠ 200%Z →
  ExtractAudioTool.pipeline w video fmt st =
    ExtractAudioTool.on_error (Exn ValueError ("视频文件下载失败：" +:+ u)) (logged u st).
Proof.
  intros Htm Hurl Hpre Hget Hcode. unfold ExtractAudioTool.pipeline, ExtractAudioTool.fetch.
  rewrite Htm, Hurl.
  change (eq_str (PStr "remote_url") "remote_url") with true. cbv iota.
  rewrite require_prefix_ok; [| by destruct u | done].
  rewrite bind_lift_ok.
  unfold try_except, mbind, M_bind, http_get. rewrite Hget. cbn [fst snd].
  apply Z.eqb_neq in Hcode. by rewrite Hcode.
Qed.

Lemma run_invoke_info (w : world) (tool_parameters : gmap string pyval)
    (video : video_reference) :
  default PNone (tool_parameters !! "video") ≠ PNone →
  resolve (default PNone (tool_parameters !! "video")) = Ok video →
  run (VideoInfoTool._invoke w tool_parameters) =
    run (fetched ← VideoInfoTool.fetch w (default PNone (tool_parameters !! "video"))
                     (transfer_method video) (url video);
         match fetched with
         | Some file_bytes =>
             VideoInfoTool.probe w (filename video) (extension video) file_bytes
         | None => mret ()
         end).
Proof. intros Hmeta Hres. by rewrite (invoke_info_unfold w tool_parameters video). Qed.

(** X8: with transfer method local_file and a url that does not start with
    /files/, both tools answer with their error pair and send no request
    and make no temporary file. *)
Theorem local_url_outside_store (w : world) (tool_parameters : gmap string pyval)
    (video : video_reference) (u fmt : string) :
  default PNone (tool_parameters !! "video") ≠ PNone →
  resolve (default PNone (tool_parameters !! "video")) = Ok video →
  transfer_method video = PStr "local_file" →
  url video = PStr u →
  startswith u "/files/" = false →
  as_str (default (PStr "mp3") (tool_parameters !! "audio_format")) "lower" = Ok fmt →
  run (ExtractAudioTool._invoke w tool_parameters) =
    maybe_warned w fmt
      {| messages := audio_error "无效的本地文件 URL"; raised := None;
         remaining := ∅; made := []; requests := [] |}
  ∧ run (VideoInfoTool._invoke w tool_parameters) =
      {| messages := [TextMessage "❌ 本地文件URL不合法，请检查。";
                      JsonMessage {[ "status" := PStr "error";
                                     "message" := PStr "Invalid local file URL." ]}];
         raised := None; remaining := ∅; made := []; requests := [] |}.
Proof.
  intros Hmeta Hres Htm Hurl Hpre Hfmt. split.
  - rewrite (run_invoke_audio_effective w tool_parameters video fmt) by done.
    f_equal.
    apply (run_pipeline_error w video _ (Exn ValueError "无效的本地文件 URL") initial).
    by apply (pipeline_local_refused w video _ u).
  - rewrite (run_invoke_info w tool_parameters video) by done.
    unfold VideoInfoTool.fetch. rewrite Htm, Hurl.
    change (eq_str (PStr "local_file") "local_file") with true. cbv iota.
    simpl as_str. rewrite bind_lift_ok, Hpre. reflexivity.
Qed.

(** X9: when the host answers the local-file GET with a status other than
    200, both tools answer with their error pair (Tool A names the url,
    Tool B the status), after that one request, and make no temporary
    file. *)
Theorem local_fetch_not_200 (w : world) (tool_parameters : gmap string pyval)
    (video : video_reference) (u fmt : string) (code code' : Z) (body body' : bytes) :
  resolve (default PNone (tool_parameters !! "video")) = Ok video →
  transfer_method video = PStr "local_file" →
  url video = PStr u →
  startswith u "/files/" = true →
  as_str (default (PStr "mp3") (tool_parameters !! "audio_format")) "lower" = Ok fmt →
  requests_get w (base_address w +:+ u) = Response code body → code ≠ 200%Z →
  requests_get w ("http://api:5001" +:+ u) = Response code' body' → code' ≠ 200%Z →
  run (ExtractAudioTool._invoke w tool_parameters) =
    maybe_warned w fmt
      {| messages := audio_error ("无法下载本地文件：" +:+ u); raised := None;
         remaining := ∅; made := []; requests := [base_address w +:+ u] |}
  ∧ run (VideoInfoTool._invoke w tool_parameters) =
      {| messages := [TextMessage "❌ 无法下载 Dify 本地文件，请确认文件URL正确并已登录。";
                      JsonMessage {[ "status" := PStr "error";
                                     "message" := PStr ("Failed to fetch local file: "
                                                          +:+ pretty code') ]}];
         raised := None; remaining := ∅; made := [];
         requests := ["http://api:5001" +:+ u] |}.
Proof.
  intros Hres Htm Hurl Hpre Hfmt Hget Hcode Hget' Hcode'.
  assert (Hmeta : default PNone (tool_parameters !! "video") ≠ PNone).
  { intros Hnone. rewrite Hnone in Hres. inversion Hres; subst. simpl in Hurl.
    inversion Hurl; subst. discriminate Hpre. }
  split.
  - rewrite (run_invoke_audio_effective w tool_parameters video fmt) by done.
    f_equal.
    apply (run_pipeline_error w video _ (Exn ValueError ("无法下载本地文件：" +:+ u))
             (logged (base_address w +:+ u) initial)).
    by apply (pipeline_local_not_200 w video _ u code body).
  - rewrite (run_invoke_info w tool_parameters video) by done.
    unfold VideoInfoTool.fetch. rewrite Htm, Hurl.
    change (eq_str (PStr "local_file") "local_file") with true. cbv iota.
    simpl as_str. rewrite bind_lift_ok, Hpre. simpl negb. cbv iota.
    unfold run, mbind, M_bind, http_get. rewrite Hget'. cbn [fst snd].
    apply Z.eqb_neq in Hcode'. rewrite Hcode'. reflexivity.
Qed.

(** X10: when the remote server answers with a status other than 200,
    both tools answer with their error pair (Tool A names the url, Tool B
    the status), after that one request, and make no temporary file.
    Tool A takes the address from [url], Tool B from [remote_url]. *)
Theorem remote_fetch_not_200 (w : world) (tool_parameters : gmap string pyval)
    (video : video_reference) (u r fmt : string) (code code' : Z) (body body' : bytes) :
  resolve (default PNone (tool_parameters !! "video")) = Ok video →
  transfer_method video = PStr "remote_url" →
  url video = PStr u →
  startswith_any u ["http://"; "https://"] = true →
  get_field (default PNone (tool_parameters !! "video")) "remote_url" (PStr "") = Ok (PStr r) →
  startswith r "http" = true →
  as_str (default (PStr "mp3") (tool_parameters !! "audio_format")) "lower" = Ok fmt →
  requests_get w u = Response code body → code ≠ 200%Z →
  requests_get w r = Response code' body' → code' ≠ 200%Z →
  run (ExtractAudioTool._invoke w tool_parameters) =
    maybe_warned w fmt
      {| messages := audio_error ("视频文件下载失败：" +:+ u); raised := None;
         remaining := ∅; made := []; requests := [u] |}
  ∧ run (VideoInfoTool._invoke w tool_parameters) =
      {| messages := [TextMessage "❌ 无法下载远程文件";
                      JsonMessage {[ "status" := PStr "error";
                                     "message" := PStr ("Failed to fetch remote file: "
                                                          +:+ pretty code') ]}];
         raised := None; remaining := ∅; made := []; requests := [r] |}.
Proof.
  intros Hres Htm Hurl Hpre Hfield Hpre' Hfmt Hget Hcode Hget' Hcode'.
  assert (Hmeta : default PNone (tool_parameters !! "video") ≠ PNone).
  { intros Hnone. rewrite Hnone in Hres. inversion Hres; subst. discriminate Htm. }
  split.
  - rewrite (run_invoke_audio_effective w tool_parameters video fmt) by done.
    f_equal.
    apply (run_pipeline_error w video _ (Exn ValueError ("视频文件下载失败：" +:+ u))
             (logged u initial)).
    by apply (pipeline_remote_not_200 w video _ u code body).
  - rewrite (run_invoke_info w tool_parameters video) by done.
    unfold VideoInfoTool.fetch. rewrite Htm.
    change (eq_str (PStr "remote_url") "local_file") with false.
    change (eq_str (PStr "remote_url") "remote_url") with true. cbv iota.
    rewrite Hfield, bind_lift_ok. simpl as_str. rewrite bind_lift_ok, Hpre'.
    simpl negb. cbv iota.
    unfold run, mbind, M_bind, http_get. rewrite Hget'. cbn [fst snd].
    apply Z.eqb_neq in Hcode'. rewrite Hcode'. reflexivity.
Qed.

(** X7: without a video parameter (or with an empty one) Tool A goes on
    with the defaults, local_file and the empty url, and so answers that
    the local file URL is invalid; Tool B answers that the video parameter
    is missing when it is absent or [None].  Neither sends a request. *)
Theorem missing_video (w : world) (tool_parameters : gmap string pyval) (fmt : string) :
  truthy (default PNone (tool_parameters !! "video")) = false →
  as_str (default (PStr "mp3") (tool_parameters !! "audio_format")) "lower" = Ok fmt →
  run (ExtractAudioTool._invoke w tool_parameters) =
    maybe_warned w fmt
      {| messages := audio_error "无效的本地文件 URL"; raised := None;
         remaining := ∅; made := []; requests := [] |}
  ∧ (default PNone (tool_parameters !! "video") = PNone →
     run (VideoInfoTool._invoke w tool_parameters) =
       {| messages := [TextMessage "❌ 缺少 video 参数";
                       JsonMessage {[ "status" := PStr "error";
                                      "message" := PStr "Missing video parameter" ]}];
          raised := None; remaining := ∅; made := []; requests := [] |}).
Proof.
  intros Hfalsy Hfmt. split.
  - rewrite (run_invoke_audio_effective w tool_parameters default_reference fmt);
      [| by apply resolve_falsy | done].
    by rewrite (run_pipeline_error w default_reference _
                  (Exn ValueError "无效的本地文件 URL") initial
                  (pipeline_local_refused w default_reference _ "" initial
                     eq_refl eq_refl eq_refl)).
  - intros Hnone. unfold VideoInfoTool._invoke. by rewrite Hnone.
Qed.

(** X11: for a remote reference Tool B reads the address from the field
    [remote_url] and not from [url]: when [remote_url] is absent, or does
    not start with http, it answers that the remote URL is invalid and
    sends nothing, whatever [url] holds. *)
Theorem info_remote_reads_remote_url (w : world) (tool_parameters : gmap string pyval)
    (video : video_reference) (r : string) :
  resolve (default PNone (tool_parameters !! "video")) = Ok video →
  transfer_method video = PStr "remote_url" →
  get_field (default PNone (tool_parameters !! "video")) "remote_url" (PStr "")
    = Ok (PStr r) →
  startswith r "http" = false →
  run (VideoInfoTool._invoke w tool_parameters) =
    {| messages := [TextMessage "❌ 远程 URL 缺少协议前缀 http:// 或 https://";
                    JsonMessage {[ "status" := PStr "error";
                                   "message" := PStr "Invalid remote URL" ]}];
       raised := None; remaining := ∅; made := []; requests := [] |}.
Proof.
  intros Hres Htm Hfield Hpre.
  assert (Hmeta : default PNone (tool_parameters !! "video") ≠ PNone).
  { intros Hnone. rewrite Hnone in Hres. inversion Hres; subst. discriminate Htm. }
  rewrite (run_invoke_info w tool_parameters video) by done.
  unfold VideoInfoTool.fetch. rewrite Htm.
  change (eq_str (PStr "remote_url") "local_file") with false.
  change (eq_str (PStr "remote_url") "remote_url") with true. cbv iota.
  rewrite Hfield, bind_lift_ok. simpl as_str. rewrite bind_lift_ok, Hpre. reflexivity.
Qed.

(** X12: for a remote reference Tool A sends its GET exactly when [url]
    starts with http:// or https://; otherwise it answers with the error
    pair of an invalid remote URL and sends nothing. *)
Theorem audio_remote_scheme (w : world) (tool_parameters : gmap string pyval)
    (video : video_reference) (u fmt : string) :
  resolve (default PNone (tool_parameters !! "video")) = Ok video →
  transfer_method video = PStr "remote_url" →
  url video = PStr u →
  as_str (default (PStr "mp3") (tool_parameters !! "audio_format")) "lower" = Ok fmt →
  requests (run (ExtractAudioTool._invoke w tool_parameters))
    = (if startswith_any u ["http://"; "https://"] then [u] else [])
  ∧ (startswith_any u ["http://"; "https://"] = false →
     run (ExtractAudioTool._invoke w tool_parameters) =
       maybe_warned w fmt
         {| messages := audio_error "无效的远程 URL：缺少 http(s) 协议"; raised := None;
            remaining := ∅; made := []; requests := [] |}).
Proof.
  intros Hres Htm Hurl Hfmt. split.
  - rewrite (invoke_audio_unfold w tool_parameters video fmt), requests_run;
      [| by rewrite resolve_video_meta_of | done].
    destruct (bool_decide _).
    + by rewrite (pipeline_remote_requests w video _ u).
    + unfold mbind, M_bind, yield. simpl.
      by rewrite (pipeline_remote_requests w video _ u).
  - intros Hpre.
    rewrite (run_invoke_audio_effective w tool_parameters video fmt) by done.
    f_equal.
    apply (run_pipeline_error w video _
             (Exn ValueError "无效的远程 URL：缺少 http(s) 协议") initial).
    by apply (pipeline_remote_refused w video _ u).
Qed.


#[local] Arguments String.eqb : simpl never.
#[local] Arguments String.append : simpl never.

Lemma write_temp_file_ok (w : world) (sfx : string) (data : bytes) (path : string)
    (st : state) :
  named_temporary_file w sfx = Ok path → write_fault w data = None →
  write_temp_file w (PStr sfx) data st =
    (Ok path, {| emitted := emitted st; files := <[path := data]> (files st);
                 created := created st ++ [path]; fetched := fetched st;
                 temp_file_path := temp_file_path st |}).
Proof.
  intros Hname Hwrite. unfold write_temp_file, mbind, M_bind, lift. simpl.
  rewrite Hname. simpl. rewrite Hwrite. simpl. by rewrite insert_insert_eq.
Qed.

Lemma unlink_if_exists (path : string) (st : state) :
  (there ← path_exists path; when_ there (unlink path)) st =
    (Ok (), {| emitted := emitted st; files := delete path (files st);
               created := created st; fetched := fetched st;
               temp_file_path := temp_file_path st |}).
Proof.
  unfold mbind, M_bind, path_exists, when_, unlink, set_files. simpl.
  case_bool_decide as Hthere; [done|].
  rewrite delete_id; [by destruct st|].
  by apply eq_None_not_Some.
Qed.

Lemma info_fetch_local_ok (w : world) (meta : pyval) (u : string) (body : bytes)
    (st : state) :
  startswith u "/files/" = true →
  requests_get w ("http://api:5001" +:+ u) = Response 200 body →
  VideoInfoTool.fetch w meta (PStr "local_file") (PStr u) st =
    (Ok (Some body), logged ("http://api:5001" +:+ u) st).
Proof.
  intros Hpre Hget. unfold VideoInfoTool.fetch.
  change (eq_str (PStr "local_file") "local_file") with true. cbv iota.
  simpl as_str. rewrite bind_lift_ok, Hpre. simpl negb. cbv iota.
  unfold mbind, M_bind, http_get. by rewrite Hget.
Qed.

Lemma info_final_run (path : string) (st : state) :
  temp_file_path st = Some path → path ≠ "" →
  (temp_file_path ← get_temp_file_path;
   match temp_file_path with
   | Some path =>
       if negb (String.eqb path "") then
         there ← path_exists path;
         when_ there (unlink path)
       else mret ()
   | None => mret ()
   end) st =
    (Ok (), {| emitted := emitted st; files := delete path (files st);
               created := created st; fetched := fetched st;
               temp_file_path := temp_file_path st |}).
Proof.
  intros Hpath Hne. unfold mbind at 1, M_bind at 1, get_temp_file_path.
  rewrite Hpath. cbv beta iota. apply String.eqb_neq in Hne. rewrite Hne.
  change (negb false) with true. cbv iota.
  by rewrite unlink_if_exists, Hpath.
Qed.

Lemma try_finally_run {A} (body : M A) (final : M unit) (st st1 st2 : state) (r : res A) :
  body st = (r, st1) → final st1 = (Ok (), st2) → try_finally body final st = (r, st2).
Proof. intros Hb Hf. unfold try_finally. by rewrite Hb, Hf. Qed.

Lemma bind_run_ok {A B} (m : M A) (f : A → M B) (st st1 : state) (a : A) :
  m st = (Ok a, st1) → (m ≫= f) st = f a st1.
Proof. intros Hm. unfold mbind, M_bind. by rewrite Hm. Qed.

Lemma bind_run_raise {A B} (m : M A) (f : A → M B) (st st1 : state) (e : exn) :
  m st = (Raise e, st1) → (m ≫= f) st = (Raise e, st1).
Proof. intros Hm. unfold mbind, M_bind. by rewrite Hm. Qed.

Lemma probe_body_run (w : world) (fn : pyval) (sfx : string) (data : bytes) (path : string)
    (st : state) :
  named_temporary_file w sfx = Ok path → write_fault w data = None →
  try_except
    (path ← write_temp_file w (PStr sfx) data;
     set_temp_file_path (Some path);;
     result ← lift (ffprobe_run w path);
     if negb (returncode result =? 0)%Z then
       raise (Exn RuntimeError ("ffprobe error: " +:+ stderr result))
     else
       info ← lift (json_loads w (stdout result));
       formatted_info ← lift (VideoInfoTool.reshape w fn info);
       summary ← lift (VideoInfoTool.summarize w fn formatted_info);
       yield (TextMessage summary);;
       yield (JsonMessage formatted_info))
    VideoInfoTool.on_error st =
    (Ok (),
     {| emitted := emitted st ++ probe_messages w fn path;
        files := <[path := data]> (files st); created := created st ++ [path];
        fetched := fetched st; temp_file_path := Some path |}).
Proof.
  intros Hname Hwrite. unfold try_except.
  rewrite (bind_run_ok _ _ _ _ _ (write_temp_file_ok w sfx data path st Hname Hwrite)).
  unfold probe_messages, VideoInfoTool.on_error, info_error, error_pair.
  unfold mbind, M_bind, set_temp_file_path, lift, raise, yield. cbv beta iota.
  destruct (ffprobe_run w path) as [result|e]; cbn [emitted files created fetched
    temp_file_path exn_text]; [|by rewrite <- (assoc_L (++))].
  destruct (returncode result =? 0)%Z; cbn [negb emitted files created fetched
    temp_file_path exn_text]; [|by rewrite <- (assoc_L (++))].
  destruct (json_loads w (stdout result)) as [info|e]; cbn [emitted files created fetched
    temp_file_path exn_text]; [|by rewrite <- (assoc_L (++))].
  destruct (VideoInfoTool.reshape w fn info) as [formatted|e]; cbn [emitted files created
    fetched temp_file_path exn_text]; [|by rewrite <- (assoc_L (++))].
  destruct (VideoInfoTool.summarize w fn formatted) as [summary|e]; cbn [emitted files created
    fetched temp_file_path exn_text]; by rewrite <- (assoc_L (++)).
Qed.

Lemma probe_run (w : world) (fn : pyval) (sfx : string) (data : bytes) (path : string)
    (st : state) :
  files st = ∅ →
  named_temporary_file w sfx = Ok path → path ≠ "" → write_fault w data = None →
  VideoInfoTool.probe w fn (PStr sfx) data st =
    (Ok (),
     {| emitted := emitted st ++ probe_messages w fn path;
        files := ∅; created := created st ++ [path]; fetched := fetched st;
        temp_file_path := Some path |}).
Proof.
  intros Hfiles Hname Hne Hwrite. unfold VideoInfoTool.probe.
  rewrite (bind_run_ok _ _ st
             {| emitted := emitted st; files := files st; created := created st;
                fetched := fetched st; temp_file_path := None |} ()) by done.
  eapply try_finally_run.
  - by apply (probe_body_run w fn sfx data path).
  - rewrite (info_final_run path) by done. cbn [emitted files created fetched temp_file_path].
    by rewrite Hfiles, delete_insert_eq, delete_empty.
Qed.

Lemma unlink_both_run (in_path out_path : string) (st : state) :
  (in_exists ← path_exists in_path;
   when_ in_exists (unlink in_path);;
   out_exists ← path_exists out_path;
   when_ out_exists (unlink out_path)) st =
    (Ok (), {| emitted := emitted st; files := delete out_path (delete in_path (files st));
               created := created st; fetched := fetched st;
               temp_file_path := temp_file_path st |}).
Proof.
  assert (Hid : ∀ (p : string) (f : gmap string bytes),
            (if bool_decide (is_Some (f !! p)) then delete p f else f) = delete p f).
  { intros p f. case_bool_decide as Hthere; [done|].
    symmetry. apply delete_id. by apply eq_None_not_Some. }
  rewrite <- (Hid out_path), <- (Hid in_path).
  unfold mbind, M_bind, path_exists, when_, unlink, set_files, mret, M_ret.
  cbn [emitted files created fetched temp_file_path].
  destruct (bool_decide (is_Some (files st !! in_path)));
    cbn [emitted files created fetched temp_file_path];
    destruct (bool_decide (is_Some (_ !! out_path)));
    cbn [emitted files created fetched temp_file_path]; try done; by destruct st.
Qed.

Lemma transcode_run (w : world) (name sfx : string) (data : bytes) (fmt in_path : string)
    (st : state) :
  files st = ∅ →
  named_temporary_file w sfx = Ok in_path → write_fault w data = None →
  ExtractAudioTool.transcode w (PStr name) (PStr sfx) data fmt st =
    match ffmpeg_run w in_path (out_temp_path w fmt)
            (ExtractAudioTool._get_codec_for_format fmt) with
    | FfmpegDone audio =>
        (Ok (), {| emitted := emitted st ++ audio_success w name fmt audio;
                   files := ∅; created := created st ++ [in_path; out_temp_path w fmt];
                   fetched := fetched st; temp_file_path := temp_file_path st |})
    | FfmpegFails e partial =>
        (Raise e, {| emitted := emitted st ++ [progress fmt];
                     files := ∅;
                     created := created st ++ in_path ::
                                  match partial with
                                  | Some _ => [out_temp_path w fmt]
                                  | None => []
                                  end;
                     fetched := fetched st; temp_file_path := temp_file_path st |})
    end.
Proof.
  intros Hfiles Hname Hwrite. unfold ExtractAudioTool.transcode.
  rewrite (bind_run_ok _ _ st st (splitext name).1) by done.
  rewrite (bind_run_ok _ _ _ _ _ (write_temp_file_ok w sfx data in_path st Hname Hwrite)).
  fold (out_temp_path w fmt).
  assert (Hclean : ∀ f : gmap string bytes,
            dom f ⊆ {[in_path; out_temp_path w fmt]} →
            delete (out_temp_path w fmt) (delete in_path f) = ∅).
  { intros f Hdom. apply dom_empty_iff_L. rewrite !dom_delete_L. set_solver. }
  destruct (ffmpeg_run w in_path (out_temp_path w fmt)
              (ExtractAudioTool._get_codec_for_format fmt)) as [audio|e partial] eqn:Hrun.
  - eapply try_finally_run.
    + unfold ExtractAudioTool.run_ffmpeg. rewrite Hrun.
      unfold getsize, read_file, mbind, M_bind, yield, set_files, log_created, mret, M_ret.
      cbn [emitted files created fetched temp_file_path]. rewrite lookup_insert_eq.
      cbn [emitted files created fetched temp_file_path].
      rewrite lookup_insert_eq. reflexivity.
    + rewrite unlink_both_run. cbn [emitted files created fetched temp_file_path].
      rewrite Hclean by (rewrite Hfiles, !dom_insert_L, dom_empty_L; set_solver).
      unfold audio_success, progress. by rewrite <- !(assoc_L (++)).
  - destruct partial as [part|].
    + eapply try_finally_run.
      * unfold ExtractAudioTool.run_ffmpeg. rewrite Hrun.
        unfold mbind, M_bind, yield, set_files, log_created, raise, mret, M_ret.
        cbn [emitted files created fetched temp_file_path]. reflexivity.
      * rewrite unlink_both_run. cbn [emitted files created fetched temp_file_path].
        rewrite Hclean by (rewrite Hfiles, !dom_insert_L, dom_empty_L; set_solver).
        by rewrite <- ?(assoc_L (++)).
    + eapply try_finally_run.
      * unfold ExtractAudioTool.run_ffmpeg. rewrite Hrun.
        unfold mbind, M_bind, yield, set_files, log_created, raise, mret, M_ret.
        cbn [emitted files created fetched temp_file_path]. reflexivity.
      * rewrite unlink_both_run. cbn [emitted files created fetched temp_file_path].
        rewrite Hclean by (rewrite Hfiles, !dom_insert_L, dom_empty_L; set_solver).
        by rewrite <- ?(assoc_L (++)).
Qed.

Lemma error_pair_is_pair (msg : string) : is_pair (error_pair msg).
Proof. eexists _, _. split; [reflexivity|]. left. reflexivity. Qed.

Lemma info_error_is_pair (text : string) : is_pair (info_error text).
Proof. apply error_pair_is_pair. Qed.

Lemma reshape_status (w : world) (fn info : pyval) (formatted : gmap string pyval) :
  VideoInfoTool.reshape w fn info = Ok formatted →
  formatted !! "status" = Some (PStr "success").
Proof.
  unfold VideoInfoTool.reshape, mbind, res_bind. intros Hre.
  destruct (VideoInfoTool.format_section w info); [|done].
  destruct (dict_get info "streams" (PList [])) as [streams|]; [|done].
  destruct (py_iter streams); [|done].
  destruct (VideoInfoTool.shape_streams _); [|done].
  by simplify_eq.
Qed.

Lemma probe_messages_is_pair (w : world) (fn : pyval) (path : string) :
  is_pair (probe_messages w fn path).
Proof.
  unfold probe_messages.
  destruct (ffprobe_run w path) as [result|e]; [|apply info_error_is_pair].
  destruct (returncode result =? 0)%Z; [|apply info_error_is_pair].
  destruct (json_loads w (stdout result)) as [info|e]; [|apply info_error_is_pair].
  destruct (VideoInfoTool.reshape w fn info) as [formatted|e] eqn:Hre;
    [|apply info_error_is_pair].
  destruct (VideoInfoTool.summarize w fn formatted) as [summary|e];
    [|apply info_error_is_pair].
  eexists _, _. split; [reflexivity|]. right. by eapply reshape_status.
Qed.

(** The [finally] of Tool B never raises and yields nothing. *)
Lemma info_final_any (st : state) :
  ∃ st', (temp_file_path ← get_temp_file_path;
          match temp_file_path with
          | Some path =>
              if negb (String.eqb path "") then
                there ← path_exists path;
                when_ there (unlink path)
              else mret ()
          | None => mret ()
          end) st = (Ok (), st')
         ∧ emitted st' = emitted st ∧ created st' = created st ∧ fetched st' = fetched st.
Proof.
  unfold mbind at 1, M_bind at 1, get_temp_file_path. cbv beta iota.
  destruct (temp_file_path st) as [path|]; [|by eexists].
  destruct (negb (String.eqb path "")); [|by eexists].
  rewrite unlink_if_exists. by eexists.
Qed.

(** *** Steps that yield nothing *)

Lemma said_set_files (E : list message) (f : gmap string bytes → gmap string bytes) :
  maintains (said E) (set_files f).
Proof. by intros st. Qed.

Lemma said_log_created (E : list message) (path : string) :
  maintains (said E) (log_created path).
Proof. by intros st. Qed.

Lemma said_set_temp_file_path (E : list message) (p : option string) :
  maintains (said E) (set_temp_file_path p).
Proof. by intros st. Qed.

Lemma said_http_get (E : list message) (w : world) (u : string) :
  maintains (said E) (http_get w u).
Proof. intros st HE. unfold http_get. by destruct (requests_get w u). Qed.

#[global] Hint Resolve said_set_files said_log_created said_set_temp_file_path
  said_http_get : tidy.

Lemma hoare_bind_quiet {A B} (I : state → Prop) (m : M A) (f : A → M B)
    (R : res B → state → Prop) :
  maintains I m → (∀ a, hoare I (f a) R) → (∀ e st, I st → R (Raise e) st) →
  hoare I (m ≫= f) R.
Proof. intros Hm Hf He. by apply (hoare_bind I m f (λ _, I)). Qed.

Lemma hoare_bind_lift {A B} (I : state → Prop) (r : res A) (f : A → M B)
    (R : res B → state → Prop) :
  (∀ a, r = Ok a → hoare I (f a) R) → (∀ e st, r = Raise e → I st → R (Raise e) st) →
  hoare I (lift r ≫= f) R.
Proof.
  intros Hf He st HI. unfold mbind, M_bind, lift.
  destruct r as [a|e]; [by apply Hf | by apply He].
Qed.

Lemma hoare_try_finally_ok {A} (P : state → Prop) (body : M A) (final : M unit)
    (Q : res A → state → Prop) :
  hoare P body Q →
  (∀ r st, Q r st → ∃ st', final st = (Ok (), st') ∧ Q r st') →
  hoare P (try_finally body final) Q.
Proof.
  intros Hb Hf st HP. unfold try_finally. specialize (Hb st HP).
  destruct (body st) as [r st1]; simpl in *.
  destruct (Hf r st1 Hb) as (st2 & -> & HQ). done.
Qed.

Lemma write_temp_file_quiet (E : list message) (w : world) (suffix : pyval) (data : bytes) :
  maintains (said E) (write_temp_file w suffix data).
Proof. unfold write_temp_file. repeat maintains_step. Qed.

(** Whatever the world answers, the [try] of Tool B ends with one text and
    one JSON message and without an exception. *)
Lemma probe_any (w : world) (fn ext : pyval) (data : bytes) (E : list message) :
  hoare (said E) (VideoInfoTool.probe w fn ext data)
    (λ r st, r = Ok () ∧ ∃ msgs, emitted st = (E ++ msgs)%list ∧ is_pair msgs).
Proof.
  unfold VideoInfoTool.probe.
  apply (hoare_bind _ _ _ (λ r st, is_Ok r ∧ said E st));
    [by intros st HE; split; [eexists|] | intros [] | by intros e st [[? ?] _]].
  eapply (hoare_weaken _ (said E)); [| by intros st [_ ?] | by intros r st H; exact H].
  apply hoare_try_finally_ok.
  - apply (hoare_try_except _ _ _
             (λ r st, match r with
                      | Ok _ => ∃ msgs, emitted st = (E ++ msgs)%list ∧ is_pair msgs
                      | Raise _ => said E st
                      end)).
    + apply hoare_bind_quiet; [apply write_temp_file_quiet | intros path | done].
      apply hoare_bind_quiet; [eauto with tidy | intros _ | done].
      apply hoare_bind_lift; [intros result _ | done].
      destruct (negb (returncode result =? 0)%Z); [by intros st HE|].
      apply hoare_bind_lift; [intros info _ | done].
      apply hoare_bind_lift; [intros formatted Hre | done].
      apply hoare_bind_lift; [intros summary _ | done].
      intros st HE. unfold mbind, M_bind, yield, said in *. simpl.
      exists [TextMessage summary; JsonMessage formatted].
      rewrite HE, <- (assoc_L (++)). split; [done|].
      eexists _, _. split; [reflexivity|]. right. by eapply reshape_status.
    + intros [] st Hst. by split.
    + intros e st HE. unfold VideoInfoTool.on_error, mbind, M_bind, yield, said in *. simpl.
      split; [done|]. exists (info_error (exn_text e)).
      rewrite HE, <- (assoc_L (++)). split; [done | apply info_error_is_pair].
  - intros r st [-> (msgs & Hmsgs & Hpair)].
    destruct (info_final_any st) as (st' & Hfinal & Hemitted & _).
    exists st'. split; [done|]. split; [done|]. exists msgs. by rewrite Hemitted.
Qed.

Lemma yield_pair_none {A} (E : list message) (text : string) (json : gmap string pyval) :
  json !! "status" = Some (PStr "error") →
  hoare (said E)
    (yield (TextMessage text);; yield (JsonMessage json);; mret (None : option A))
    (λ r st, match r with
             | Ok (Some _) => said E st
             | Ok None => ∃ msgs, emitted st = (E ++ msgs)%list ∧ is_pair msgs
             | Raise _ => said E st
             end).
Proof.
  intros Hstatus st HE. unfold mbind, M_bind, yield, mret, M_ret, said in *. simpl.
  exists [TextMessage text; JsonMessage json]. rewrite HE, <- (assoc_L (++)).
  split; [done|]. eexists _, _. split; [reflexivity|]. by left.
Qed.

(** The fetch of Tool B either hands the bytes over without a word, or
    yields an error pair and stops, or raises without a word. *)
Lemma info_fetch_any (w : world) (meta tm file_url : pyval) (E : list message) :
  hoare (said E) (VideoInfoTool.fetch w meta tm file_url)
    (λ r st, match r with
             | Ok (Some _) => said E st
             | Ok None => ∃ msgs, emitted st = (E ++ msgs)%list ∧ is_pair msgs
             | Raise _ => said E st
             end).
Proof.
  unfold VideoInfoTool.fetch.
  destruct (eq_str tm "local_file"); [|destruct (eq_str tm "remote_url")].
  - apply hoare_bind_lift; [intros u _ | done].
    destruct (negb (startswith u "/files/")); [by apply yield_pair_none|].
    apply hoare_bind_quiet; [eauto with tidy | intros response | done].
    destruct (negb (response.1 =? 200)%Z); [by apply yield_pair_none | by intros st].
  - apply hoare_bind_lift; [intros full_url _ | done].
    apply hoare_bind_lift; [intros u _ | done].
    destruct (negb (startswith u "http")); [by apply yield_pair_none|].
    apply hoare_bind_quiet; [eauto with tidy | intros response | done].
    destruct (negb (response.1 =? 200)%Z); [by apply yield_pair_none | by intros st].
  - by apply yield_pair_none.
Qed.

Lemma messages_run (m : M unit) : messages (run m) = emitted (m initial).2.
Proof. unfold run. by destruct (m initial). Qed.

Lemma raised_run_eq (m : M unit) :
  raised (run m) = match (m initial).1 with Ok _ => None | Raise e => Some e end.
Proof. unfold run. by destruct (m initial). Qed.

Lemma info_pair_with_video (w : world) (tool_parameters : gmap string pyval) :
  default PNone (tool_parameters !! "video") ≠ PNone →
  let o := run (VideoInfoTool._invoke w tool_parameters) in
  (raised o = None ∧ is_pair (messages o))
  ∨ (∃ e, raised o = Some e ∧ messages o = []).
Proof.
  intros Hmeta o. subst o. rewrite raised_run_eq, messages_run.
  destruct (resolve_returns (default PNone (tool_parameters !! "video"))) as [video Hres].
  rewrite (invoke_info_unfold w tool_parameters video) by done.
  unfold mbind, M_bind.
  pose proof (info_fetch_any w (default PNone (tool_parameters !! "video"))
                (transfer_method video) (url video) [] initial eq_refl) as Hfetch.
  destruct (VideoInfoTool.fetch w (default PNone (tool_parameters !! "video"))
              (transfer_method video) (url video) initial) as [[[data|]|e] st1];
    simpl in Hfetch.
  - left.
    destruct (probe_any w (filename video) (extension video) data [] st1 Hfetch)
      as [Hok (msgs & Hmsgs & Hpair)].
    destruct (VideoInfoTool.probe w (filename video) (extension video) data st1)
      as [r st2]; simpl in *. subst r. by rewrite Hmsgs.
  - left. destruct Hfetch as (msgs & Hmsgs & Hpair). simpl. rewrite Hmsgs. by split.
  - right. by eexists.
Qed.

Lemma info_yields_pair_or_raises (w : world) (tool_parameters : gmap string pyval) :
  let o := run (VideoInfoTool._invoke w tool_parameters) in
  (raised o = None ∧ is_pair (messages o))
  ∨ (∃ e, raised o = Some e ∧ messages o = []).
Proof.
  destruct (default PNone (tool_parameters !! "video")) eqn:Hmeta;
    try (apply info_pair_with_video; by rewrite Hmeta).
  left. unfold VideoInfoTool._invoke. rewrite Hmeta. split; [done|].
  eexists _, _. split; [reflexivity|]. by left.
Qed.

(** X5: whatever the parameters and the world, Tool B either returns after
    exactly one text message followed by one JSON message whose status is
    success or error, or raises before it yields anything. *)
Theorem info_yields_one_pair (w : world) (tool_parameters : gmap string pyval) :
  let o := run (VideoInfoTool._invoke w tool_parameters) in
  (raised o = None ∧ is_pair (messages o))
  ∨ (∃ e, raised o = Some e ∧ messages o = []).
Proof. apply info_yields_pair_or_raises. Qed.

Lemma run_ffmpeg_quiet (E : list message) (w : world) (i o codec : string) :
  maintains (said E) (ExtractAudioTool.run_ffmpeg w i o codec).
Proof. unfold ExtractAudioTool.run_ffmpeg. repeat maintains_step. Qed.

Lemma audio_fetch_quiet (E : list message) (w : world) (tm fn ext u : pyval) :
  maintains (said E) (ExtractAudioTool.fetch w tm fn ext u).
Proof. unfold ExtractAudioTool.fetch. repeat maintains_step. Qed.

(** Transcoding ends with the four messages of a success, or raises after
    at most the progress message. *)
Lemma transcode_any (w : world) (fn ext : pyval) (data : bytes) (fmt : string)
    (E : list message) :
  hoare (said E) (ExtractAudioTool.transcode w fn ext data fmt)
    (λ r st, match r with
             | Ok _ => ∃ msgs, emitted st = (E ++ msgs)%list ∧ is_extraction fmt msgs
             | Raise _ => said E st ∨ said (E ++ [progress fmt]) st
             end).
Proof.
  unfold ExtractAudioTool.transcode.
  apply hoare_bind_lift; [intros orig _ | by intros e st _ HE; left].
  apply hoare_bind_quiet;
    [apply write_temp_file_quiet | intros in_path | by intros e st HE; left].
  apply hoare_try_finally_ok.
  - apply (hoare_bind _ _ _ (λ r st, is_Ok r ∧ said (E ++ [progress fmt]) st)).
    + intros st HE. unfold yield, said in *. simpl. rewrite HE. split; [by eexists | done].
    + intros [].
      eapply (hoare_weaken _ (said (E ++ [progress fmt])));
        [| by intros st [_ ?] | by intros r st H; exact H].
      apply hoare_bind_quiet; [apply run_ffmpeg_quiet | intros _ | by intros e st HE; right].
      apply hoare_bind_quiet; [eauto with tidy | intros audio | by intros e st HE; right].
      apply hoare_bind_quiet;
        [unfold getsize; repeat maintains_step | intros size | by intros e st HE; right].
      intros st HE. unfold mbind, M_bind, yield, said in *. simpl.
      eexists. rewrite HE, <- !(assoc_L (++)). split; [reflexivity|].
      eexists _, _, _, _. split; [reflexivity|]. split_and!; reflexivity.
    + by intros e st [[? ?] _].
  - intros r st Hpost. rewrite unlink_both_run. eexists. split; [reflexivity|].
    by destruct r.
Qed.

(** The [try] of Tool A always returns, after the four messages of a
    success or after an error pair that at most the progress message
    precedes. *)
Lemma pipeline_any (w : world) (video : video_reference) (fmt : string) (E : list message) :
  hoare (said E) (ExtractAudioTool.pipeline w video fmt)
    (λ r st, r = Ok () ∧ ∃ msgs, emitted st = (E ++ msgs)%list
                                 ∧ (is_extraction fmt msgs ∨ is_audio_failure fmt msgs)).
Proof.
  unfold ExtractAudioTool.pipeline.
  apply (hoare_try_except _ _ _
           (λ r st, match r with
                    | Ok _ => ∃ msgs, emitted st = (E ++ msgs)%list ∧ is_extraction fmt msgs
                    | Raise _ => said E st ∨ said (E ++ [progress fmt]) st
                    end)).
  - apply hoare_bind_quiet;
      [apply audio_fetch_quiet | intros fetched | by intros e st HE; left].
    apply transcode_any.
  - intros [] st (msgs & Hmsgs & Hshape). split; [done|]. exists msgs. by split; [|left].
  - intros e st Hsaid. rewrite run_on_error_audio. simpl. split; [done|].
    destruct Hsaid as [HE | HE]; unfold said in HE; rewrite HE.
    + exists (audio_error (exn_text e)). split; [done|]. right. exists (exn_text e). by left.
    + exists (progress fmt :: audio_error (exn_text e)).
      rewrite <- (assoc_L (++)). split; [done|]. right. exists (exn_text e). by right.
Qed.

Lemma effective_format_valid (w : world) (s : string) :
  effective_format w s ∈ ExtractAudioTool.valid_formats.
Proof.
  unfold effective_format. case_bool_decide; [done|].
  unfold ExtractAudioTool.valid_formats. set_solver.
Qed.

(** X4: whatever the parameters and the world, Tool A either raises before
    it yields anything, or returns after: at most one warning, and then
    either the progress message, one blob, one success JSON and the
    summary, or an error pair that only the progress message may precede.
    A blob is never yielded with an error, and the format of a success is
    one of the five valid formats. *)
Theorem audio_message_shapes (w : world) (tool_parameters : gmap string pyval) :
  let o := run (ExtractAudioTool._invoke w tool_parameters) in
  (∃ e, raised o = Some e ∧ messages o = [])
  ∨ (raised o = None
     ∧ ∃ (fmt : string) (warnings body : list message),
         fmt ∈ ExtractAudioTool.valid_formats
         ∧ messages o = (warnings ++ body)%list
         ∧ (warnings = [] ∨ ∃ asked, warnings = [ExtractAudioTool.warning asked])
         ∧ (is_extraction fmt body ∨ is_audio_failure fmt body)).
Proof.
  intros o. subst o.
  destruct (resolve_returns (default PNone (tool_parameters !! "video"))) as [video Hres].
  destruct (as_str (default (PStr "mp3") (tool_parameters !! "audio_format")) "lower")
    as [s|e] eqn:Hfmt.
  - right. rewrite (run_invoke_audio_effective w tool_parameters video s) by done.
    pose proof (pipeline_any w video (effective_format w s) [] initial eq_refl)
      as [Hok (msgs & Hmsgs & Hshape)].
    assert (Hrun : raised (run (ExtractAudioTool.pipeline w video (effective_format w s)))
                   = None
                   ∧ messages (run (ExtractAudioTool.pipeline w video (effective_format w s)))
                     = msgs).
    { rewrite raised_run_eq, messages_run. rewrite Hok, Hmsgs. done. }
    destruct Hrun as [Hraised Hmessages].
    unfold maybe_warned. case_bool_decide.
    + split; [done|]. exists (effective_format w s), [], msgs.
      split_and!; [apply effective_format_valid | by rewrite Hmessages | by left | done].
    + unfold warned. simpl. split; [done|].
      exists (effective_format w s), [ExtractAudioTool.warning (lower w s)], msgs.
      split_and!; [apply effective_format_valid | by rewrite Hmessages | by right; eexists
                  | done].
  - left. exists e. unfold ExtractAudioTool._invoke.
    rewrite resolve_video_meta_of, Hres, Hfmt. by split.
Qed.

Lemma http_get_cases (w : world) (a : string) (st : state) :
  http_get w a st =
    (match requests_get w a with
     | Response code body => Ok (code, body)
     | RequestFails e => Raise e
     end, logged a st).
Proof. unfold http_get, logged. by destruct (requests_get w a). Qed.

Lemma audio_fetch_first (w : world) (tm fn ext u : pyval) (st : state) :
  created st = [] → fetched st = [] →
  match ExtractAudioTool.fetch w tm fn ext u st with
  | (Ok (data, _, _), st') =>
      ∃ a, fetched st' = [a] ∧ requests_get w a = Response 200 data
  | (Raise _, st') => created st' = [] ∧ (fetched st' = [] ∨ ∃ a, fetched st' = [a])
  end.
Proof.
  intros Hcreated Hfetched. unfold ExtractAudioTool.fetch.
  destruct (eq_str tm "remote_url"); [|destruct (eq_str tm "local_file")].
  - destruct (require_prefix u _ _) as [a|e]; [|by split; [|left]].
    rewrite bind_lift_ok. unfold mbind, M_bind. rewrite http_get_cases.
    destruct (requests_get w a) as [code body|e] eqn:Hget; simpl;
      [|rewrite Hfetched; by split; [|right; eexists]].
    destruct (code =? 200)%Z eqn:Hcode; simpl.
    + apply Z.eqb_eq in Hcode. subst code. exists a. by rewrite Hfetched.
    + rewrite Hfetched. by split; [|right; eexists].
  - destruct (require_prefix u _ _) as [a|e]; [|by split; [|left]].
    rewrite bind_lift_ok. unfold mbind, M_bind. rewrite http_get_cases.
    destruct (requests_get w _) as [code body|e] eqn:Hget; simpl;
      [|rewrite Hfetched; by split; [|right; eexists]].
    destruct (code =? 200)%Z eqn:Hcode; simpl.
    + apply Z.eqb_eq in Hcode. subst code. eexists. by rewrite Hfetched.
    + rewrite Hfetched. by split; [|right; eexists].
  - by split; [|left].
Qed.

Lemma pipeline_fetched_before_files (w : world) (video : video_reference) (fmt : string)
    (st : state) :
  created st = [] → fetched st = [] →
  fetched_before_files w (ExtractAudioTool.pipeline w video fmt st).2.
Proof.
  intros Hcreated Hfetched. unfold ExtractAudioTool.pipeline, try_except.
  pose proof (audio_fetch_first w (transfer_method video) (filename video)
                (extension video) (url video) st Hcreated Hfetched) as Hfetch.
  unfold mbind at 1, M_bind at 1.
  destruct (ExtractAudioTool.fetch w (transfer_method video) (filename video)
              (extension video) (url video) st) as [[[[data fn] ext]|e] st1].
  - destruct Hfetch as (a & Ha & Hget). right. exists a, data. split; [|done].
    pose proof (transcode_sends_nothing [a] w fn ext data fmt st1 Ha) as Hsent.
    simpl. destruct (ExtractAudioTool.transcode w fn ext data fmt st1) as [[[]|e] st2];
      simpl in *; [done|].
    by apply (audio_on_error_sends_nothing [a] e st2).
  - left. rewrite run_on_error_audio. simpl. done.
Qed.

Lemma info_fetch_first (w : world) (meta tm u : pyval) (st : state) :
  created st = [] → fetched st = [] →
  match VideoInfoTool.fetch w meta tm u st with
  | (Ok (Some data), st') =>
      ∃ a, fetched st' = [a] ∧ requests_get w a = Response 200 data
  | (_, st') => created st' = [] ∧ (fetched st' = [] ∨ ∃ a, fetched st' = [a])
  end.
Proof.
  intros Hcreated Hfetched. unfold VideoInfoTool.fetch.
  destruct (eq_str tm "local_file"); [|destruct (eq_str tm "remote_url")].
  - destruct (as_str u "startswith") as [a|e]; [|by split; [|left]].
    rewrite bind_lift_ok.
    destruct (negb (startswith a "/files/")); [by split; [|left]|].
    unfold mbind at 1, M_bind at 1. rewrite http_get_cases.
    destruct (requests_get w _) as [code body|e] eqn:Hget; simpl;
      [|rewrite Hfetched; by split; [|right; eexists]].
    destruct (code =? 200)%Z eqn:Hcode; simpl.
    + apply Z.eqb_eq in Hcode. subst code. eexists. by rewrite Hfetched.
    + rewrite Hfetched. by split; [|right; eexists].
  - destruct (get_field meta "remote_url" (PStr "")) as [full|e]; [|by split; [|left]].
    rewrite bind_lift_ok.
    destruct (as_str full "startswith") as [a|e]; [|by split; [|left]].
    rewrite bind_lift_ok.
    destruct (negb (startswith a "http")); [by split; [|left]|].
    unfold mbind at 1, M_bind at 1. rewrite http_get_cases.
    destruct (requests_get w a) as [code body|e] eqn:Hget; simpl;
      [|rewrite Hfetched; by split; [|right; eexists]].
    destruct (code =? 200)%Z eqn:Hcode; simpl.
    + apply Z.eqb_eq in Hcode. subst code. eexists. by rewrite Hfetched.
    + rewrite Hfetched. by split; [|right; eexists].
  - by split; [|left].
Qed.

Lemma made_run (m : M unit) : made (run m) = created (m initial).2.
Proof. unfold run. by destruct (m initial). Qed.

Lemma invoke_audio_fetched_before_files (w : world) (tool_parameters : gmap string pyval) :
  fetched_before_files w (ExtractAudioTool._invoke w tool_parameters initial).2.
Proof.
  destruct (resolve_returns (ExtractAudioTool.video_meta_of tool_parameters))
    as [video Hres].
  destruct (as_str (default (PStr "mp3") (tool_parameters !! "audio_format")) "lower")
    as [s|e] eqn:Hfmt.
  - rewrite (invoke_audio_unfold w tool_parameters video s) by done.
    destruct (bool_decide _); [by apply pipeline_fetched_before_files|].
    unfold mbind, M_bind, yield. simpl. by apply pipeline_fetched_before_files.
  - unfold ExtractAudioTool._invoke. rewrite Hres, Hfmt. left. by split; [|left].
Qed.

Lemma invoke_info_fetched_before_files (w : world) (tool_parameters : gmap string pyval) :
  fetched_before_files w (VideoInfoTool._invoke w tool_parameters initial).2.
Proof.
  assert (Hnone : default PNone (tool_parameters !! "video") = PNone →
                  fetched_before_files w (VideoInfoTool._invoke w tool_parameters initial).2).
  { intros Hmeta. unfold VideoInfoTool._invoke. rewrite Hmeta. left. by split; [|left]. }
  assert (Hsome : default PNone (tool_parameters !! "video") ≠ PNone →
                  fetched_before_files w (VideoInfoTool._invoke w tool_parameters initial).2).
  { intros Hmeta.
    destruct (resolve_returns (default PNone (tool_parameters !! "video")))
      as [video Hres].
    rewrite (invoke_info_unfold w tool_parameters video) by done.
    pose proof (info_fetch_first w (default PNone (tool_parameters !! "video"))
                  (transfer_method video) (url video) initial eq_refl eq_refl) as Hfetch.
    unfold mbind, M_bind.
    destruct (VideoInfoTool.fetch w (default PNone (tool_parameters !! "video"))
                (transfer_method video) (url video) initial) as [[[data|]|e] st1].
    - destruct Hfetch as (a & Ha & Hget). right. exists a, data. split; [|done].
      by apply (probe_sends_nothing [a] w (filename video) (extension video) data st1).
    - by left.
    - by left. }
  destruct (default PNone (tool_parameters !! "video")) eqn:Hmeta; auto.
Qed.

Lemma fetched_before_files_outcome (w : world) (m : M unit) :
  fetched_before_files w (m initial).2 → one_fetch_then_files w (run m).
Proof.
  unfold one_fetch_then_files. rewrite requests_run, made_run.
  intros [[Hcreated Hfetched] | (a & data & Hfetched & Hget)].
  - split; [|done]. destruct Hfetched as [-> | [a ->]]; simpl; lia.
  - rewrite Hfetched. split; [simpl; lia|]. intros _. by exists a, data.
Qed.

(** X6: neither tool ever sends more than one GET, and neither makes a
    temporary file unless that GET was answered 200. *)
Theorem fetch_once_before_files (w : world) (tool_parameters : gmap string pyval) :
  one_fetch_then_files w (run (ExtractAudioTool._invoke w tool_parameters))
  ∧ one_fetch_then_files w (run (VideoInfoTool._invoke w tool_parameters)).
Proof.
  split; apply fetched_before_files_outcome.
  - apply invoke_audio_fetched_before_files.
  - apply invoke_info_fetched_before_files.
Qed.

Lemma pipeline_local_fetched (w : world) (video : video_reference) (fmt u : string)
    (body : bytes) (st : state) :
  transfer_method video = PStr "local_file" → url video = PStr u →
  startswith u "/files/" = true →
  requests_get w (base_address w +:+ u) = Response 200 body →
  ExtractAudioTool.pipeline w video fmt st =
    try_except (ExtractAudioTool.transcode w (filename video) (extension video) body fmt)
      ExtractAudioTool.on_error (logged (base_address w +:+ u) st).
Proof.
  intros Htm Hurl Hpre Hget. unfold ExtractAudioTool.pipeline, ExtractAudioTool.fetch.
  rewrite Htm, Hurl.
  change (eq_str (PStr "local_file") "remote_url") with false.
  change (eq_str (PStr "local_file") "local_file") with true. cbv iota.
  rewrite require_prefix_ok;
    [| by destruct u | by unfold startswith_any; cbn [existsb]; rewrite Hpre].
  rewrite bind_lift_ok. fold (base_address w).
  unfold try_except, mbind, M_bind. rewrite http_get_cases, Hget. reflexivity.
Qed.

Lemma run_pipeline_local (w : world) (video : video_reference) (fmt u name sfx : string)
    (body : bytes) (in_path : string) :
  transfer_method video = PStr "local_file" → url video = PStr u →
  startswith u "/files/" = true →
  requests_get w (base_address w +:+ u) = Response 200 body →
  filename video = PStr name → extension video = PStr sfx →
  named_temporary_file w sfx = Ok in_path → write_fault w body = None →
  run (ExtractAudioTool.pipeline w video fmt) =
    match ffmpeg_run w in_path (out_temp_path w fmt)
            (ExtractAudioTool._get_codec_for_format fmt) with
    | FfmpegDone audio =>
        {| messages := audio_success w name fmt audio; raised := None; remaining := ∅;
           made := [in_path; out_temp_path w fmt];
           requests := [base_address w +:+ u] |}
    | FfmpegFails e partial =>
        {| messages := progress fmt :: audio_error (exn_text e); raised := None;
           remaining := ∅;
           made := in_path :: match partial with
                              | Some _ => [out_temp_path w fmt]
                              | None => []
                              end;
           requests := [base_address w +:+ u] |}
    end.
Proof.
  intros Htm Hurl Hpre Hget Hname Hsfx Htemp Hwrite. unfold run.
  rewrite (pipeline_local_fetched w video fmt u body) by done.
  unfold try_except. rewrite Hname, Hsfx.
  rewrite (transcode_run w name sfx body fmt in_path) by done.
  destruct (ffmpeg_run w in_path (out_temp_path w fmt) _) as [audio|e partial];
    [reflexivity|].
  by rewrite run_on_error_audio.
Qed.


(** X14: on the local_file route, when the file is fetched and written and
    ffmpeg then fails, Tool A yields the progress message and then the
    error pair with ffmpeg's message, no blob, and removes the input file
    and whatever ffmpeg had written of the output. *)
Theorem extraction_fails_in_ffmpeg (w : world) (tool_parameters : gmap string pyval)
    (video : video_reference) (fmt u name sfx in_path : string) (body : bytes)
    (e : exn) (partial : option bytes) :
  resolve (default PNone (tool_parameters !! "video")) = Ok video →
  as_str (default (PStr "mp3") (tool_parameters !! "audio_format")) "lower" = Ok fmt →
  transfer_method video = PStr "local_file" → url video = PStr u →
  startswith u "/files/" = true →
  requests_get w (base_address w +:+ u) = Response 200 body →
  filename video = PStr name → extension video = PStr sfx →
  named_temporary_file w sfx = Ok in_path → write_fault w body = None →
  ffmpeg_run w in_path (out_temp_path w (effective_format w fmt))
    (ExtractAudioTool._get_codec_for_format (effective_format w fmt))
    = FfmpegFails e partial →
  run (ExtractAudioTool._invoke w tool_parameters) =
    maybe_warned w fmt
      {| messages := progress (effective_format w fmt) :: audio_error (exn_text e);
         raised := None; remaining := ∅;
         made := in_path :: match partial with
                            | Some _ => [out_temp_path w (effective_format w fmt)]
                            | None => []
                            end;
         requests := [base_address w +:+ u] |}.
Proof.
  intros Hres Hfmt Htm Hurl Hpre Hget Hname Hsfx Htemp Hwrite Hrun.
  rewrite (run_invoke_audio_effective w tool_parameters video fmt) by done.
  rewrite (run_pipeline_local w video _ u name sfx body in_path) by done.
  by rewrite Hrun.
Qed.

Lemma run_info_local (w : world) (tool_parameters : gmap string pyval)
    (video : video_reference) (u sfx path : string) (body : bytes) :
  resolve (default PNone (tool_parameters !! "video")) = Ok video →
  transfer_method video = PStr "local_file" → url video = PStr u →
  startswith u "/files/" = true →
  requests_get w ("http://api:5001" +:+ u) = Response 200 body →
  extension video = PStr sfx →
  named_temporary_file w sfx = Ok path → path ≠ "" → write_fault w body = None →
  run (VideoInfoTool._invoke w tool_parameters) =
    {| messages := probe_messages w (filename video) path; raised := None;
       remaining := ∅; made := [path]; requests := ["http://api:5001" +:+ u] |}.
Proof.
  intros Hres Htm Hurl Hpre Hget Hsfx Htemp Hne Hwrite.
  assert (Hmeta : default PNone (tool_parameters !! "video") ≠ PNone).
  { intros Hnone. rewrite Hnone in Hres. inversion Hres; subst. simpl in Hurl.
    inversion Hurl; subst. discriminate Hpre. }
  rewrite (run_invoke_info w tool_parameters video) by done.
  unfold run. rewrite Htm, Hurl, Hsfx.
  rewrite (bind_run_ok _ _ _ _ _
             (info_fetch_local_ok w _ u body initial Hpre Hget)).
  by rewrite (probe_run w (filename video) sfx body path) by done.
Qed.

(** X15: when ffprobe exits with a status other than 0, Tool B answers with
    an error pair that carries ffprobe's standard error after
    "ffprobe error: ", and removes the temporary file. *)
Theorem probe_failure_reported (w : world) (tool_parameters : gmap string pyval)
    (video : video_reference) (u sfx path : string) (body : bytes)
    (result : completed_process) :
  resolve (default PNone (tool_parameters !! "video")) = Ok video →
  transfer_method video = PStr "local_file" → url video = PStr u →
  startswith u "/files/" = true →
  requests_get w ("http://api:5001" +:+ u) = Response 200 body →
  extension video = PStr sfx →
  named_temporary_file w sfx = Ok path → path ≠ "" → write_fault w body = None →
  ffprobe_run w path = Ok result → returncode result ≠ 0%Z →
  run (VideoInfoTool._invoke w tool_parameters) =
    {| messages := info_error ("ffprobe error: " +:+ stderr result); raised := None;
       remaining := ∅; made := [path]; requests := ["http://api:5001" +:+ u] |}.
Proof.
  intros Hres Htm Hurl Hpre Hget Hsfx Htemp Hne Hwrite Hprobe Hcode.
  rewrite (run_info_local w tool_parameters video u sfx path body) by done.
  unfold probe_messages. rewrite Hprobe. apply Z.eqb_neq in Hcode. by rewrite Hcode.
Qed.

Lemma shape_stream_tagged (stream out : pyval) :
  VideoInfoTool.shape_stream stream = Ok out → tagged out.
Proof.
  destruct stream; try discriminate. unfold VideoInfoTool.shape_stream, dict_get.
  unfold mbind, res_bind.
  repeat case_match; intros [= <-]; eexists; (split; [reflexivity|]);
    by simplify_map_eq.
Qed.

Lemma shape_streams_tagged (streams outs : list pyval) :
  VideoInfoTool.shape_streams streams = Ok outs → Forall tagged outs.
Proof.
  revert outs. induction streams as [|stream streams IH]; intros outs; simpl.
  - by intros [= <-].
  - unfold mbind, res_bind.
    destruct (VideoInfoTool.shape_stream stream) as [out|] eqn:Hout; [|done].
    destruct (VideoInfoTool.shape_streams streams) as [rest|]; [|done].
    intros [= <-]. constructor; [by eapply shape_stream_tagged | by apply IH].
Qed.

Lemma stream_line_tagged (w : world) (v : pyval) :
  tagged v → is_Ok (VideoInfoTool.stream_line w v).
Proof.
  intros (d & -> & tag & Htag). unfold VideoInfoTool.stream_line, py_getitem, dict_get.
  rewrite Htag. unfold mbind, res_bind.
  repeat case_match; by eexists.
Qed.

Lemma stream_lines_tagged (w : world) (streams : list pyval) :
  Forall tagged streams → is_Ok (VideoInfoTool.stream_lines w streams).
Proof.
  induction 1 as [|v streams Hv _ [lines IH]]; simpl; [by eexists|].
  destruct (stream_line_tagged w v Hv) as [line Hline].
  rewrite Hline, IH. by eexists.
Qed.

Lemma format_section_shape (w : world) (info : pyval) (fmt : gmap string pyval) :
  VideoInfoTool.format_section w info = Ok fmt →
  ∃ (format_name : pyval) (duration : pyfloat) (size bit_rate : Z),
    fmt = {[ "format_name" := format_name; "duration" := PFloat duration;
             "size" := PInt size; "bit_rate" := PInt bit_rate ]}.
Proof.
  unfold VideoInfoTool.format_section, mbind, res_bind. intros Hfmt.
  repeat match type of Hfmt with
         | match ?x with _ => _ end = _ => destruct x eqn:?; [|discriminate Hfmt]
         end.
  injection Hfmt as <-. by eexists _, _, _, _.
Qed.

Lemma reshape_shape (w : world) (fn info : pyval) (formatted : gmap string pyval) :
  VideoInfoTool.reshape w fn info = Ok formatted →
  ∃ (format_name : pyval) (duration : pyfloat) (size bit_rate : Z) (streams : list pyval),
    formatted =
      {[ "status" := PStr "success"; "filename" := fn;
         "format" := PDict {[ "format_name" := format_name; "duration" := PFloat duration;
                              "size" := PInt size; "bit_rate" := PInt bit_rate ]};
         "streams" := PList streams ]}
    ∧ Forall tagged streams.
Proof.
  unfold VideoInfoTool.reshape, mbind, res_bind. intros Hre.
  destruct (VideoInfoTool.format_section w info) as [fmt|] eqn:Hfmt; [|discriminate Hre].
  apply format_section_shape in Hfmt as (format_name & duration & size & bit_rate & ->).
  repeat match type of Hre with
         | match ?x with _ => _ end = _ => destruct x eqn:?; [|discriminate Hre]
         end.
  injection Hre as <-. eexists _, _, _, _, _. split; [reflexivity|].
  by eapply shape_streams_tagged.
Qed.

Lemma int_of_float_faults (x : spec_float) (e : exn) :
  int_of_float x = Raise e →
  e = Exn ValueError "cannot convert float NaN to integer"
  ∨ e = Exn OverflowError "cannot convert float infinity to integer".
Proof. destruct x; simpl; intros [= <-]; auto. Qed.

Lemma true_divide_faults (a : Z) (b : positive) (e : exn) :
  true_divide a b = Raise e →
  e = Exn OverflowError "integer division result too large for a float".
Proof. unfold true_divide. destruct (nearest_float a b); by intros [= <-]. Qed.

Lemma minutes_seconds_faults (f : pyfloat) (e : exn) :
  minutes_seconds (PFloat f) = Raise e →
  e = Exn ValueError "cannot convert float NaN to integer"
  ∨ e = Exn OverflowError "cannot convert float infinity to integer".
Proof.
  unfold minutes_seconds, mbind, res_bind.
  destruct (int_of_float (float_floordiv (to_float f) 60)) eqn:Hdiv.
  - destruct (int_of_float (float_rem (to_float f) 60)) eqn:Hrem; [done|].
    intros [= <-]. by eapply int_of_float_faults.
  - intros [= <-]. by eapply int_of_float_faults.
Qed.

Lemma format_quotient_faults (z : Z) (d : positive) (e : exn) :
  format_quotient (PInt z) d = Raise e →
  e = Exn OverflowError "integer division result too large for a float".
Proof.
  unfold format_quotient, mbind, res_bind.
  destruct (true_divide z d) eqn:Hdiv; [done|].
  intros [= <-]. by eapply true_divide_faults.
Qed.

Lemma summarize_reshaped (w : world) (fn format_name : pyval) (duration : pyfloat)
    (size bit_rate : Z) (streams : list pyval) (lines : string) :
  VideoInfoTool.stream_lines w streams = Ok lines →
  VideoInfoTool.summarize w fn
    {[ "status" := PStr "success"; "filename" := fn;
       "format" := PDict {[ "format_name" := format_name; "duration" := PFloat duration;
                            "size" := PInt size; "bit_rate" := PInt bit_rate ]};
       "streams" := PList streams ]} =
    (clock ← minutes_seconds (PFloat duration);
     megabytes ← format_quotient (PInt size) (1024 * 1024);
     kbps ← format_quotient (PInt bit_rate) 1000;
     Ok (strip (("🎬 **" +:+ py_str w fn +:+ " 视频信息摘要**" +:+ newline
       +:+ "格式: " +:+ py_str w format_name +:+ newline
       +:+ "时长: " +:+ pretty clock.1 +:+ "分 " +:+ pretty clock.2 +:+ "秒" +:+ newline
       +:+ "大小: " +:+ megabytes +:+ " MB" +:+ newline
       +:+ "平均码率: " +:+ kbps +:+ " kbps" +:+ newline) +:+ lines))).
Proof.
  intros Hlines. unfold VideoInfoTool.summarize, py_getitem.
  simplify_map_eq. 
  unfold mbind, res_bind. 
  rewrite Hlines. by repeat case_match.
Qed.

Lemma summarize_faults (w : world) (fn info : pyval) (formatted : gmap string pyval)
    (e : exn) :
  VideoInfoTool.reshape w fn info = Ok formatted →
  VideoInfoTool.summarize w fn formatted = Raise e →
  e = Exn ValueError "cannot convert float NaN to integer"
  ∨ e = Exn OverflowError "cannot convert float infinity to integer"
  ∨ e = Exn OverflowError "integer division result too large for a float".
Proof.
  intros Hre Hsum.
  apply reshape_shape in Hre as (format_name & duration & size & bit_rate & streams & -> & Htag).
  destruct (stream_lines_tagged w streams Htag) as [lines Hlines].
  rewrite (summarize_reshaped w fn format_name duration size bit_rate streams lines Hlines)
    in Hsum.
  unfold mbind, res_bind in *.
  destruct (minutes_seconds (PFloat duration)) as [clock|e1] eqn:Hclock.
  - destruct (format_quotient (PInt size) (1024 * 1024)) as [mb|e2] eqn:Hmb.
    + destruct (format_quotient (PInt bit_rate) 1000) as [kbps|e3] eqn:Hkbps; [done|].
      injection Hsum as <-. apply format_quotient_faults in Hkbps. auto.
    + injection Hsum as <-. apply format_quotient_faults in Hmb. auto.
  - injection Hsum as <-. apply minutes_seconds_faults in Hclock as [->| ->]; auto.
Qed.

Lemma summarize_endless (w : world) (fn info : pyval) (formatted fmt : gmap string pyval)
    (duration : pyfloat) :
  VideoInfoTool.reshape w fn info = Ok formatted →
  formatted !! "format" = Some (PDict fmt) →
  fmt !! "duration" = Some (PFloat duration) →
  (duration = FNan ∨ ∃ negative, duration = FInf negative) →
  VideoInfoTool.summarize w fn formatted
    = Raise (Exn ValueError "cannot convert float NaN to integer").
Proof.
  intros Hre Hfmt Hduration Hendless.
  apply reshape_shape in Hre as (format_name & d & size & bit_rate & streams & -> & Htag).
  destruct (stream_lines_tagged w streams Htag) as [lines Hlines].
  rewrite (summarize_reshaped w fn format_name d size bit_rate streams lines Hlines).
  simplify_map_eq.
  destruct Hendless as [-> | [[] ->]]; reflexivity.
Qed.


(** X16: on the local_file route, when ffprobe exits with 0 and its output
    parses and reshapes, Tool B yields the text summary and then the
    reshaped result, whose status is success and whose filename is the
    resolved one; when the arithmetic of the summary fails instead, it
    yields the error pair of that fault and not the result.  Either way the
    temporary file is removed. *)
Theorem probe_success_reported (w : world) (tool_parameters : gmap string pyval)
    (video : video_reference) (u sfx path : string) (body : bytes)
    (result : completed_process) (info : pyval) (formatted : gmap string pyval) :
  resolve (default PNone (tool_parameters !! "video")) = Ok video →
  transfer_method video = PStr "local_file" → url video = PStr u →
  startswith u "/files/" = true →
  requests_get w ("http://api:5001" +:+ u) = Response 200 body →
  extension video = PStr sfx →
  named_temporary_file w sfx = Ok path → path ≠ "" → write_fault w body = None →
  ffprobe_run w path = Ok result → returncode result = 0%Z →
  json_loads w (stdout result) = Ok info →
  VideoInfoTool.reshape w (filename video) info = Ok formatted →
  run (VideoInfoTool._invoke w tool_parameters) =
    {| messages :=
         match VideoInfoTool.summarize w (filename video) formatted with
         | Ok summary => [TextMessage summary; JsonMessage formatted]
         | Raise e => [TextMessage ("❌ 处理视频失败: " +:+ exn_text e);
                       JsonMessage {[ "status" := PStr "error";
                                      "message" := PStr ("❌ 处理视频失败: "
                                                           +:+ exn_text e) ]}]
         end;
       raised := None; remaining := ∅; made := [path];
       requests := ["http://api:5001" +:+ u] |}
  ∧ formatted !! "status" = Some (PStr "success")
  ∧ formatted !! "filename" = Some (filename video).
Proof.
  intros Hres Htm Hurl Hpre Hget Hsfx Htemp Hne Hwrite Hprobe Hcode Hjson Hre.
  split_and!.
  - rewrite (run_info_local w tool_parameters video u sfx path body) by done.
    unfold probe_messages. by rewrite Hprobe, Hcode, Hjson, Hre.
  - by eapply reshape_status.
  - apply reshape_shape in Hre as (? & ? & ? & ? & ? & -> & _). by simplify_map_eq.
Qed.

(** X22: the text summary of a reshaped probe result fails in its
    arithmetic only, never in a lookup or on a stream: what it raises is
    the ValueError or the OverflowError of [int] on a float that is not
    finite, or the OverflowError of a quotient too large for a float.  A
    duration that is infinite or not a number always makes it raise the
    ValueError, because the floor division by 60 gives a NaN. *)
Theorem summary_faults (w : world) (filename info : pyval) (formatted : gmap string pyval) :
  VideoInfoTool.reshape w filename info = Ok formatted →
  (∀ e, VideoInfoTool.summarize w filename formatted = Raise e →
        e = Exn ValueError "cannot convert float NaN to integer"
        ∨ e = Exn OverflowError "cannot convert float infinity to integer"
        ∨ e = Exn OverflowError "integer division result too large for a float")
  ∧ (∀ (fmt : gmap string pyval) (duration : pyfloat),
       formatted !! "format" = Some (PDict fmt) →
       fmt !! "duration" = Some (PFloat duration) →
       duration = FNan ∨ (∃ negative, duration = FInf negative) →
       VideoInfoTool.summarize w filename formatted
         = Raise (Exn ValueError "cannot convert float NaN to integer")).
Proof.
  intros Hre. split.
  - intros e Hsum. by eapply summarize_faults.
  - intros fmt duration Hfmt Hduration Hendless. by eapply summarize_endless.
Qed.

Lemma shape_stream_shaped (stream : gmap string pyval) :
  ∃ out, VideoInfoTool.shape_stream (PDict stream) = Ok (PDict out) ∧ shaped stream out.
Proof.
  unfold VideoInfoTool.shape_stream, dict_get, mbind, res_bind, shaped, stream_keys,
    common_keys.
  destruct (eq_str (default PNone (stream !! "codec_type")) "video");
    [|destruct (eq_str (default PNone (stream !! "codec_type")) "audio")];
    (eexists; split; [reflexivity|]); (split; [rewrite ?dom_insert_L; set_solver|]);
    intros key; rewrite ?dom_insert_L, ?dom_singleton_L; set_unfold;
    intros Hkey; repeat destruct Hkey as [Hkey|Hkey]; subst key;
    by simplify_map_eq.
Qed.

(** X17: a list of stream objects is shaped into a list of the same length
    and order; a shaped stream has the keys index, codec_type and
    codec_name, with width, height, r_frame_rate and display_aspect_ratio
    for a video stream, sample_rate, channels and channel_layout for an
    audio stream, and nothing else; each key holds the value of the probe,
    or its default when the probe lacks it. *)
Theorem streams_are_shaped (streams : list (gmap string pyval)) :
  ∃ outs, VideoInfoTool.shape_streams (PDict <$> streams) = Ok (PDict <$> outs)
          ∧ Forall2 shaped streams outs.
Proof.
  induction streams as [|stream streams (outs & IH & Hall)].
  - exists []. by split.
  - destruct (shape_stream_shaped stream) as (out & Hout & Hshaped).
    exists (out :: outs). split; [|by constructor].
    rewrite !fmap_cons. cbn [VideoInfoTool.shape_streams].
    rewrite Hout. unfold mbind, res_bind. by rewrite IH.
Qed.

(** X18: if one of the streams is not a JSON object the loop raises, so
    that no partial list of streams comes out. *)
Theorem stream_that_is_no_object (streams : list pyval) (v : pyval) :
  v ∈ streams → (∀ d, v ≠ PDict d) →
  ∃ e, VideoInfoTool.shape_streams streams = Raise e.
Proof.
  intros Hin Hno. induction streams as [|s streams IH]; [by apply elem_of_nil in Hin|].
  cbn [VideoInfoTool.shape_streams]. unfold mbind, res_bind.
  destruct (VideoInfoTool.shape_stream s) as [o|e] eqn:Hs; [|by eexists].
  apply elem_of_cons in Hin as [-> | Hin].
  - exfalso. destruct s; try discriminate Hs. by apply (Hno d).
  - destruct (IH Hin) as [e ->]. by eexists.
Qed.

(** X19: the format Tool A goes on with, whatever was asked, is one of the
    five valid formats, has a codec of its own in the codec table (never
    the fallback copy) and a MIME type in the MIME table. *)
Theorem validated_format_tables (w : world) (s : string) :
  effective_format w s ∈ ExtractAudioTool.valid_formats
  ∧ ExtractAudioTool._get_codec_for_format (effective_format w s) ≠ "copy"
  ∧ is_Some (ExtractAudioTool.mime_types !! effective_format w s).
Proof.
  pose proof (effective_format_valid w s) as Hvalid. split; [done|].
  unfold ExtractAudioTool.valid_formats in Hvalid.
  set_unfold in Hvalid.
  destruct Hvalid as [-> | [-> | [-> | [-> | [-> | []]]]]]; by split; [|eexists].
Qed.

Lemma info_fetch_returns (w : world) (meta tm : pyval) (u r : string) (st : state) :
  (∀ a, ∃ code body, requests_get w a = Response code body) →
  get_field meta "remote_url" (PStr "") = Ok (PStr r) →
  ∃ x st', VideoInfoTool.fetch w meta tm (PStr u) st = (Ok x, st').
Proof.
  intros Hget Hfield. unfold VideoInfoTool.fetch.
  destruct (eq_str tm "local_file"); [|destruct (eq_str tm "remote_url")].
  - simpl as_str. rewrite bind_lift_ok.
    destruct (negb (startswith u "/files/")); [by eexists _, _|].
    unfold mbind at 1, M_bind at 1. rewrite http_get_cases.
    destruct (Hget ("http://api:5001" +:+ u)) as (code & body & ->).
    destruct (negb (_ =? 200)%Z); by eexists _, _.
  - rewrite Hfield, bind_lift_ok. simpl as_str. rewrite bind_lift_ok.
    destruct (negb (startswith r "http")); [by eexists _, _|].
    unfold mbind at 1, M_bind at 1. rewrite http_get_cases.
    destruct (Hget r) as (code & body & ->).
    destruct (negb (_ =? 200)%Z); by eexists _, _.
  - by eexists _, _.
Qed.

(** X3: when every GET is answered (with whatever status) and the [url]
    and [remote_url] fields are strings or absent, no exception leaves
    Tool B. *)
Theorem info_returns_when_fetch_answers (w : world) (tool_parameters : gmap string pyval)
    (video : video_reference) (u r : string) :
  (∀ a, ∃ code body, requests_get w a = Response code body) →
  resolve (default PNone (tool_parameters !! "video")) = Ok video →
  url video = PStr u →
  get_field (default PNone (tool_parameters !! "video")) "remote_url" (PStr "")
    = Ok (PStr r) →
  raised (run (VideoInfoTool._invoke w tool_parameters)) = None.
Proof.
  intros Hget Hres Hurl Hfield.
  destruct (info_yields_pair_or_raises w tool_parameters) as [[Hraised _] | (e & He & _)];
    [done|].
  exfalso. revert He. rewrite raised_run_eq.
  assert (Hmeta : default PNone (tool_parameters !! "video") ≠ PNone
                  ∨ default PNone (tool_parameters !! "video") = PNone).
  { destruct (default PNone (tool_parameters !! "video")); auto. }
  destruct Hmeta as [Hmeta | Hmeta].
  - rewrite (invoke_info_unfold w tool_parameters video) by done.
    rewrite Hurl.
    destruct (info_fetch_returns w _ (transfer_method video) u r initial Hget Hfield)
      as (x & st1 & Hfetch).
    rewrite (bind_run_ok _ _ _ _ _ Hfetch).
    destruct x as [data|]; [|done].
    destruct (probe_any w (filename video) (extension video) data (emitted st1) st1 eq_refl)
      as [Hok _].
    by rewrite Hok.
  - unfold VideoInfoTool._invoke. by rewrite Hmeta.
Qed.

Lemma get_some_length (s : string) (k : nat) (a : ascii) :
  String.get k s = Some a → (k < String.length s)%nat.
Proof.
  revert k. induction s as [|b s IH]; intros k Hget; [by destruct k|].
  destruct k as [|k]; simpl in *; [lia|]. apply IH in Hget. lia.
Qed.

Lemma rfind_from_spec (c : ascii) (s : string) (i last : Z) :
  (rfind_from c s i last = last ∧ ∀ k, String.get k s ≠ Some c)
  ∨ (∃ k : nat, rfind_from c s i last = (i + Z.of_nat k)%Z
                ∧ String.get k s = Some c
                ∧ ∀ j, (k < j)%nat → String.get j s ≠ Some c).
Proof.
  revert i last. induction s as [|a s IH]; intros i last; [by left|].
  cbn [rfind_from].
  destruct (IH (i + 1)%Z (if Ascii.eqb a c then i else last))
    as [[Hr Hno] | (k & Hr & Hget & Hlast)].
  - destruct (Ascii.eqb_spec a c) as [-> | Hne].
    + right. exists 0%nat. split; [rewrite Hr; lia|]. split; [done|].
      intros [|j] Hj; [lia|]. apply Hno.
    + left. split; [done|]. intros [|k]; simpl; [congruence | apply Hno].
  - right. exists (S k). split; [rewrite Hr; lia|]. split; [done|].
    intros [|j] Hj; [lia|]. simpl. apply Hlast. lia.
Qed.

Lemma rfind_spec (c : ascii) (s : string) :
  (rfind c s = (-1)%Z ∧ ∀ k, String.get k s ≠ Some c)
  ∨ (∃ k : nat, rfind c s = Z.of_nat k
                ∧ String.get k s = Some c
                ∧ ∀ j, (k < j)%nat → String.get j s ≠ Some c).
Proof.
  unfold rfind. destruct (rfind_from_spec c s 0 (-1)) as [H | (k & Hr & H)]; [by left|].
  right. exists k. by rewrite Hr.
Qed.

(** X20: the extension Tool A derives from a remote URL always begins with
    a dot and never contains a slash, so the URL cannot move the temporary
    file to another directory. *)
Theorem url_extension_is_dotted (u : string) :
  String.get 0 (extension_from_url u) = Some "."%char
  ∧ ∀ p, String.get p (extension_from_url u) ≠ Some "/"%char.
Proof.
  unfold extension_from_url, splitext.
  set (name := filename_from_url u).
  destruct ((rfind "/" name <? rfind "." name)%Z && _) eqn:Hcond; cbn [snd];
    [|split; [done | by intros [|[|[|[|p]]]]]].
  apply andb_true_iff in Hcond as [Hlt _]. apply Z.ltb_lt in Hlt.
  destruct (rfind_spec "." name) as [[Hdot _] | (k & Hdot & Hget & _)].
  { destruct (rfind_spec "/" name) as [[Hsep _] | (ks & Hsep & _)]; lia. }
  pose proof (get_some_length _ _ _ Hget) as Hlen.
  assert (Hext : ∀ p, String.get p (slice_from (rfind "." name) name)
                      = if decide (p < String.length name - k)%nat
                        then String.get (p + k) name else None).
  { intros p. unfold slice_from. rewrite Hdot, Nat2Z.id. case_decide.
    - by apply substring_correct1.
    - apply substring_correct2. lia. }
  assert (Hfirst : String.get 0 (slice_from (rfind "." name) name) = Some "."%char).
  { rewrite Hext. case_decide; [done | lia]. }
  destruct (String.eqb_spec (slice_from (rfind "." name) name) "") as [Hempty | _].
  { rewrite Hempty in Hfirst. discriminate Hfirst. }
  split; [done|]. intros p. rewrite Hext. case_decide; [|done].
  destruct (rfind_spec "/" name) as [[_ Hno] | (ks & Hsep & _ & Hlast)]; [apply Hno|].
  apply Hlast. lia.
Qed.

(** X21: a video parameter that is neither a mapping nor an object (a
    string, a number, a list) has none of the five fields, so both tools
    take it for a local file with the empty url: Tool A answers that the
    local file URL is invalid, and so does Tool B unless the parameter is
    [None], which it reports as missing.  No request is sent. *)
Theorem video_that_is_no_reference (w : world) (tool_parameters : gmap string pyval)
    (fmt : string) :
  fields_of (default PNone (tool_parameters !! "video")) = None →
  as_str (default (PStr "mp3") (tool_parameters !! "audio_format")) "lower" = Ok fmt →
  run (ExtractAudioTool._invoke w tool_parameters) =
    maybe_warned w fmt
      {| messages := audio_error "无效的本地文件 URL"; raised := None;
         remaining := ∅; made := []; requests := [] |}
  ∧ run (VideoInfoTool._invoke w tool_parameters) =
      {| messages :=
           match default PNone (tool_parameters !! "video") with
           | PNone => [TextMessage "❌ 缺少 video 参数";
                       JsonMessage {[ "status" := PStr "error";
                                      "message" := PStr "Missing video parameter" ]}]
           | _ => [TextMessage "❌ 本地文件URL不合法，请检查。";
                   JsonMessage {[ "status" := PStr "error";
                                  "message" := PStr "Invalid local file URL." ]}]
           end;
         raised := None; remaining := ∅; made := []; requests := [] |}.
Proof.
  intros Hnone Hfmt.
  assert (Hres : resolve (default PNone (tool_parameters !! "video"))
                 = Ok default_reference).
  { by destruct (default PNone (tool_parameters !! "video")). }
  split.
  - rewrite (run_invoke_audio_effective w tool_parameters default_reference fmt) by done.
    by rewrite (run_pipeline_error w default_reference _
                  (Exn ValueError "无效的本地文件 URL") initial
                  (pipeline_local_refused w default_reference _ "" initial
                     eq_refl eq_refl eq_refl)).
  - destruct (default PNone (tool_parameters !! "video")) eqn:Hmeta;
      try discriminate Hnone;
      try (rewrite (run_invoke_info w tool_parameters default_reference)
             by (rewrite ?Hmeta; done);
           rewrite Hmeta; reflexivity).
    unfold VideoInfoTool._invoke. by rewrite Hmeta.
Qed.

(** ** The further properties at sample inputs *)

Lemma cleanup_without_write_fault_witness :
  remaining (run (ExtractAudioTool._invoke calm local_parameters)) = ∅
  ∧ remaining (run (VideoInfoTool._invoke calm local_parameters)) = ∅.
Proof.
  apply (cleanup_without_write_fault calm local_parameters); [reflexivity|].
  intros suffix Hname. discriminate Hname.
Defined.

Lemma info_returns_when_fetch_answers_witness :
  resolve (default PNone (local_parameters !! "video")) = Ok local_reference
  ∧ raised (run (VideoInfoTool._invoke calm local_parameters)) = None.
Proof.
  assert (Hres : resolve (default PNone (local_parameters !! "video")) = Ok local_reference)
    by reflexivity.
  split; [exact Hres|].
  apply (info_returns_when_fetch_answers calm local_parameters local_reference
           "/files/clip.mp4" "" (λ _, ex_intro _ 200%Z (ex_intro _ sample_bytes eq_refl)) Hres);
    reflexivity.
Defined.

Lemma missing_video_witness :
  run (ExtractAudioTool._invoke calm no_parameters) =
    {| messages := audio_error "无效的本地文件 URL"; raised := None;
       remaining := ∅; made := []; requests := [] |}
  ∧ run (VideoInfoTool._invoke calm no_parameters) =
      {| messages := [TextMessage "❌ 缺少 video 参数";
                      JsonMessage {[ "status" := PStr "error";
                                     "message" := PStr "Missing video parameter" ]}];
         raised := None; remaining := ∅; made := []; requests := [] |}.
Proof.
  destruct (missing_video calm no_parameters "mp3") as [Haudio Hinfo];
    [reflexivity | reflexivity |].
  split; [exact Haudio | apply Hinfo; reflexivity].
Defined.

Lemma local_url_outside_store_witness :
  resolve (default PNone (stray_parameters !! "video")) = Ok stray_reference
  ∧ startswith "/etc/passwd" "/files/" = false
  ∧ requests (run (ExtractAudioTool._invoke calm stray_parameters)) = []
  ∧ requests (run (VideoInfoTool._invoke calm stray_parameters)) = [].
Proof.
  assert (Hres : resolve (default PNone (stray_parameters !! "video")) = Ok stray_reference)
    by reflexivity.
  split; [exact Hres|]. split; [reflexivity|].
  destruct (local_url_outside_store calm stray_parameters stray_reference
              "/etc/passwd" "mp3") as [Haudio Hinfo];
    [discriminate | exact Hres | reflexivity | reflexivity | reflexivity | reflexivity |].
  rewrite Haudio, Hinfo. split; reflexivity.
Defined.

Lemma local_fetch_not_200_witness :
  resolve (default PNone (local_parameters !! "video")) = Ok local_reference
  ∧ messages (run (VideoInfoTool._invoke not_found local_parameters)) =
      [TextMessage "❌ 无法下载 Dify 本地文件，请确认文件URL正确并已登录。";
       JsonMessage {[ "status" := PStr "error";
                      "message" := PStr "Failed to fetch local file: 404" ]}]
  ∧ made (run (ExtractAudioTool._invoke not_found local_parameters)) = [].
Proof.
  assert (Hres : resolve (default PNone (local_parameters !! "video")) = Ok local_reference)
    by reflexivity.
  split; [exact Hres|].
  destruct (local_fetch_not_200 not_found local_parameters local_reference
              "/files/clip.mp4" "mp3" 404 404 [] []) as [Haudio Hinfo];
    [exact Hres | reflexivity | reflexivity | reflexivity | reflexivity
    | reflexivity | discriminate | reflexivity | discriminate |].
  rewrite Haudio, Hinfo. split; reflexivity.
Defined.

Lemma remote_fetch_not_200_witness :
  resolve (default PNone (mirror_parameters !! "video")) = Ok mirror_reference
  ∧ messages (run (VideoInfoTool._invoke not_found mirror_parameters)) =
      [TextMessage "❌ 无法下载远程文件";
       JsonMessage {[ "status" := PStr "error";
                      "message" := PStr "Failed to fetch remote file: 404" ]}]
  ∧ requests (run (ExtractAudioTool._invoke not_found mirror_parameters))
      = ["https://host/v.mp4"].
Proof.
  assert (Hres : resolve (default PNone (mirror_parameters !! "video")) = Ok mirror_reference)
    by reflexivity.
  split; [exact Hres|].
  destruct (remote_fetch_not_200 not_found mirror_parameters mirror_reference
              "https://host/v.mp4" "https://host/v.mp4" "mp3" 404 404 [] [])
    as [Haudio Hinfo];
    [exact Hres | reflexivity | reflexivity | reflexivity | reflexivity | reflexivity
    | reflexivity | reflexivity | discriminate | reflexivity | discriminate |].
  rewrite Haudio, Hinfo. split; reflexivity.
Defined.

Lemma info_remote_reads_remote_url_witness :
  resolve (default PNone (remote_parameters !! "video")) = Ok remote_reference
  ∧ url remote_reference = PStr "http://host/v.webm?sig=1"
  ∧ requests (run (VideoInfoTool._invoke calm remote_parameters)) = []
  ∧ made (run (VideoInfoTool._invoke calm remote_parameters)) = [].
Proof.
  assert (Hres : resolve (default PNone (remote_parameters !! "video")) = Ok remote_reference)
    by reflexivity.
  split; [exact Hres|]. split; [reflexivity|].
  rewrite (info_remote_reads_remote_url calm remote_parameters remote_reference ""
             Hres eq_refl eq_refl eq_refl).
  split; reflexivity.
Defined.

Lemma audio_remote_scheme_witness :
  resolve (default PNone (lax_parameters !! "video")) = Ok lax_reference
  ∧ requests (run (ExtractAudioTool._invoke calm lax_parameters)) = []
  ∧ messages (run (ExtractAudioTool._invoke calm lax_parameters))
      = audio_error "无效的远程 URL：缺少 http(s) 协议".
Proof.
  assert (Hres : resolve (default PNone (lax_parameters !! "video")) = Ok lax_reference)
    by reflexivity.
  split; [exact Hres|].
  destruct (audio_remote_scheme calm lax_parameters lax_reference "" "mp3" Hres)
    as [Hrequests Hrun]; [reflexivity | reflexivity | reflexivity |].
  split; [exact Hrequests|]. by rewrite Hrun.
Defined.


Lemma extraction_fails_in_ffmpeg_witness :
  resolve (default PNone (local_parameters !! "video")) = Ok local_reference
  ∧ run (ExtractAudioTool._invoke broken_encoder local_parameters) =
      {| messages := progress "mp3" :: audio_error (exn_text ffmpeg_error);
         raised := None; remaining := ∅;
         made := ["/tmp/tmpk3v9.mp4"; out_temp_path broken_encoder "mp3"];
         requests := ["http://api:5001/files/clip.mp4"] |}.
Proof.
  assert (Hres : resolve (default PNone (local_parameters !! "video")) = Ok local_reference)
    by reflexivity.
  split; [exact Hres|].
  rewrite (extraction_fails_in_ffmpeg broken_encoder local_parameters local_reference "mp3"
             "/files/clip.mp4" "video.mp4" ".mp4" "/tmp/tmpk3v9.mp4" sample_bytes
             ffmpeg_error (Some [Byte.x00]) Hres); reflexivity.
Defined.

Lemma probe_failure_reported_witness :
  resolve (default PNone (local_parameters !! "video")) = Ok local_reference
  ∧ run (VideoInfoTool._invoke broken_prober local_parameters) =
      {| messages := info_error "ffprobe error: moov atom not found"; raised := None;
         remaining := ∅; made := ["/tmp/tmpk3v9.mp4"];
         requests := ["http://api:5001/files/clip.mp4"] |}.
Proof.
  assert (Hres : resolve (default PNone (local_parameters !! "video")) = Ok local_reference)
    by reflexivity.
  split; [exact Hres|].
  rewrite (probe_failure_reported broken_prober local_parameters local_reference
             "/files/clip.mp4" ".mp4" "/tmp/tmpk3v9.mp4" sample_bytes unreadable Hres);
    try reflexivity; discriminate.
Defined.

Lemma probe_success_reported_witness :
  resolve (default PNone (local_parameters !! "video")) = Ok local_reference
  ∧ VideoInfoTool.reshape probing (PStr "video.mp4") (PDict sparse_info) = Ok sparse_report
  ∧ messages (run (VideoInfoTool._invoke probing local_parameters))
      = [TextMessage
           ("🎬 **video.mp4 视频信息摘要**" +:+ newline +:+ "格式: unknown" +:+ newline
              +:+ "时长: 0分 12秒" +:+ newline +:+ "大小: 0.00 MB" +:+ newline
              +:+ "平均码率: 0.00 kbps" +:+ newline
              +:+ "📹 视频流: NonexNone / 编码: h264" +:+ newline
              +:+ "🔊 音频流: 编码: aac / 采样率: None");
         JsonMessage sparse_report].
Proof.
  assert (Hres : resolve (default PNone (local_parameters !! "video")) = Ok local_reference)
    by reflexivity.
  assert (Hshape : VideoInfoTool.reshape probing (PStr "video.mp4") (PDict sparse_info)
                   = Ok sparse_report) by reflexivity.
  split; [exact Hres|]. split; [exact Hshape|].
  destruct (probe_success_reported probing local_parameters local_reference
              "/files/clip.mp4" ".mp4" "/tmp/tmpk3v9.mp4" sample_bytes
              {| returncode := 0; stdout := "{}"; stderr := "" |} (PDict sparse_info)
              sparse_report Hres) as (Hrun & _);
    [reflexivity | reflexivity | reflexivity | reflexivity | reflexivity | reflexivity
    | discriminate | reflexivity | reflexivity | reflexivity | reflexivity | exact Hshape |].
  rewrite Hrun. vm_compute. reflexivity.
Defined.

Lemma summary_faults_witness :
  VideoInfoTool.reshape calm (PStr "video.mp4") endless_info = Ok endless_report
  ∧ VideoInfoTool.summarize calm (PStr "video.mp4") endless_report
      = Raise (Exn ValueError "cannot convert float NaN to integer").
Proof.
  assert (Hshape : VideoInfoTool.reshape calm (PStr "video.mp4") endless_info
                   = Ok endless_report) by reflexivity.
  split; [exact Hshape|].
  destruct (summary_faults calm (PStr "video.mp4") endless_info endless_report Hshape)
    as [_ Hendless].
  apply (Hendless {[ "format_name" := PStr "unknown"; "duration" := PFloat (FInf false);
                     "size" := PInt 0; "bit_rate" := PInt 0 ]} (FInf false));
    [reflexivity | reflexivity | right; by exists false].
Defined.

Lemma stream_that_is_no_object_witness :
  ∃ e, VideoInfoTool.shape_streams mixed_streams = Raise e.
Proof.
  apply (stream_that_is_no_object mixed_streams (PStr "video")).
  - unfold mixed_streams. set_solver.
  - discriminate.
Defined.

Lemma video_that_is_no_reference_witness :
  fields_of (default PNone (bare_parameters !! "video")) = None
  ∧ requests (run (ExtractAudioTool._invoke calm bare_parameters)) = []
  ∧ messages (run (VideoInfoTool._invoke calm bare_parameters)) =
      [TextMessage "❌ 本地文件URL不合法，请检查。";
       JsonMessage {[ "status" := PStr "error";
                      "message" := PStr "Invalid local file URL." ]}].
Proof.
  assert (Hnone : fields_of (default PNone (bare_parameters !! "video")) = None)
    by reflexivity.
  split; [exact Hnone|].
  destruct (video_that_is_no_reference calm bare_parameters "mp3" Hnone)
    as [Haudio Hinfo]; [reflexivity|].
  rewrite Haudio, Hinfo. split; reflexivity.
Defined.
